(** * Query-plan validator and executor of the fund analytics chatbot

    A shallow embedding of [src/executor.py] (class [QueryExecutor]) and of
    the chat endpoint of [src/api.py] / [src/chatbot.py], followed by the
    properties the specification states about them.

    Conventions of the embedding:
    - a plan is the Python dictionary [json.loads] produced: an association
      list from keys to JSON values; a JSON number is a Python [int], of any
      size, or a Python [float];
    - a method of [QueryExecutor] is a computation in a state-and-exception
      monad over the executor object ([self.trades_df], [self.holdings_df]);
    - a dataframe is column oriented and typed as pandas types it: a numeric
      column holds integers or NaN ([int64], or [float64] when a cell is
      missing), an object column holds strings or NaN; a column of fractional
      numbers is not among the columns of this model. A sum is the exact one
      where the arithmetic of both dtypes is exact (the absolute values add
      up to at most 2^53); beyond that, and for every mean, the number pandas
      computes is left to [PandasOps];
    - pandas behaviour that the repository only passes through and that is
      not fixed here (element-wise comparison of a column with an arbitrary
      JSON value, reducers over object columns, selection with an unhashable
      key, methods of a series result, sums and means that round or wrap
      around, the order [sorted] leaves unordered values in) is a member of
      the class [PandasOps]; every theorem holds for every instance. *)

From Stdlib Require Import ZArith List String Ascii Bool Lia PeanoNat.
From Stdlib Require Import Sorted Permutation.
Import ListNotations.

Set Warnings "-register-all".
Local Open Scope string_scope.
Local Open Scope Z_scope.

(** ** Python values *)
Module Py.

(** A Python [float]: the binary64 number [mantissa * 2^exponent], an
    infinity or NaN ([json.loads] reads [Infinity], [-Infinity] and [NaN]). *)
Inductive pyfloat : Type :=
| Finite (mantissa exponent : Z)
| Infinite (negative : bool)
| NotANumber.

(** What [json.loads] returns; [JNum] is a Python [int]. *)
Inductive json : Type :=
| JNull
| JBool (b : bool)
| JNum (n : Z)
| JFloat (x : pyfloat)
| JStr (s : string)
| JList (items : list json)
| JObj (fields : list (string * json)).

(** A Python [dict] with string keys; the first binding of a key is the
    one the dictionary holds. *)
Definition pydict := list (string * json).

Fixpoint dict_get (d : pydict) (k : string) : option json :=
  match d with
  | [] => None
  | (k', v) :: d' => if String.eqb k k' then Some v else dict_get d' k
  end.

(** [k in d] *)
Definition has_key (d : pydict) (k : string) : bool :=
  match dict_get d k with Some _ => true | None => false end.

(** [d.get(k)], with [None] as JSON null, and [d.get(k, default)]. *)
Definition get_or (d : pydict) (k : string) (default : json) : json :=
  match dict_get d k with Some v => v | None => default end.

(** The keys a [for] loop over a dictionary sees. *)
Fixpoint dict_keys (d : pydict) : list string :=
  match d with
  | [] => []
  | (k, _) :: d' => k :: filter (fun k' => negb (String.eqb k k')) (dict_keys d')
  end.

(** [bool(v)] *)
Definition truthy (v : json) : bool :=
  match v with
  | JNull => false
  | JBool b => b
  | JNum n => negb (n =? 0)
  | JFloat x => match x with Finite m _ => negb (m =? 0) | _ => true end
  | JStr s => negb (String.eqb s EmptyString)
  | JList items => match items with [] => false | _ => true end
  | JObj fields => match fields with [] => false | _ => true end
  end.

(** [v == s] for a string literal [s] *)
Definition eq_str (v : json) (s : string) : bool :=
  match v with JStr t => String.eqb t s | _ => false end.

(** [v in names] for a list of string literals *)
Definition in_strs (v : json) (names : list string) : bool :=
  existsb (eq_str v) names.

(** [plan[k]] used as a condition after [k in plan]: [k in plan and plan[k]] *)
Definition present_and_truthy (d : pydict) (k : string) : bool :=
  match dict_get d k with Some v => truthy v | None => false end.

(** Python exceptions the modelled code can meet. *)
Inductive exn : Type :=
| TypeError | KeyError | IndexError | AttributeError | ValueError
| UnboundLocalError | OtherError (text : string).

Inductive outcome (A : Type) : Type :=
| Return (a : A)
| Raise (e : exn).
Arguments Return {A} a.
Arguments Raise {A} e.

Definition obind {A B} (c : outcome A) (k : A -> outcome B) : outcome B :=
  match c with Return a => k a | Raise e => Raise e end.

(** [t in s] on strings: [t] occurs in [s]. *)
Fixpoint substring_of (t s : string) : bool :=
  String.prefix t s ||
  match s with
  | EmptyString => false
  | String _ s' => substring_of t s'
  end.

(** The items a [for] loop over [v] sees; numbers, booleans and [None] are
    not iterable. *)
Definition iterate (v : json) : outcome (list json) :=
  match v with
  | JList items => Return items
  | JObj fields => Return (map JStr (dict_keys fields))
  | JStr s => Return (map (fun c => JStr (String c EmptyString)) (list_ascii_of_string s))
  | JNull | JBool _ | JNum _ | JFloat _ => Raise TypeError
  end.

(** ['k' in v] *)
Definition contains_str (v : json) (k : string) : outcome bool :=
  match v with
  | JObj fields => Return (has_key fields k)
  | JList items => Return (existsb (fun x => eq_str x k) items)
  | JStr s => Return (substring_of k s)
  | JNull | JBool _ | JNum _ | JFloat _ => Raise TypeError
  end.

(** [v['k']]: only a dictionary can be indexed by a string. *)
Definition getitem_str (v : json) (k : string) : outcome json :=
  match v with
  | JObj fields =>
      match dict_get fields k with Some x => Return x | None => Raise KeyError end
  | _ => Raise TypeError
  end.

(** [v.get('k', default)]: only a dictionary has [get]. *)
Definition method_get (v : json) (k : string) (default : json) : outcome json :=
  match v with
  | JObj fields => Return (get_or fields k default)
  | _ => Raise AttributeError
  end.

(** [hash(v)] succeeds: lists and dictionaries are unhashable. *)
Definition hashable (v : json) : bool :=
  match v with JList _ | JObj _ => false | _ => true end.

End Py.
Export Py.

(** ** The fragment of pandas the executor uses *)
Module Pandas.

(** A column as [read_csv] types it: integers or strings, [None] for a
    missing value (NaN). A numeric column is [int64] when no cell is missing
    and [float64] otherwise; the cells of a [float64] column are the
    integers it holds. *)
Inductive column : Type :=
| NumCol (cells : list (option Z))
| ObjCol (cells : list (option string)).

(** A dataframe: named columns, all of one length. *)
Definition DataFrame := list (string * column).

(** [df.columns] *)
Definition columns (df : DataFrame) : list string := map fst df.

Definition col_length (c : column) : nat :=
  match c with NumCol cells => List.length cells | ObjCol cells => List.length cells end.

(** [len(df)] *)
Definition len (df : DataFrame) : nat :=
  match df with [] => 0%nat | (_, c) :: _ => col_length c end.

(** Every column has [len df] cells. *)
Definition rectangular (df : DataFrame) : bool :=
  forallb (fun nc => Nat.eqb (col_length (snd nc)) (len df)) df.

Fixpoint find_column (df : DataFrame) (name : string) : option column :=
  match df with
  | [] => None
  | (n, c) :: df' => if String.eqb name n then Some c else find_column df' name
  end.

(** [key in df.columns]: the index hashes the key first, so a list or a
    dictionary raises [TypeError]; column names are strings. *)
Definition in_columns (key : json) (df : DataFrame) : outcome bool :=
  match key with
  | JList _ | JObj _ => Raise TypeError
  | JStr name => Return (existsb (String.eqb name) (columns df))
  | JNull | JBool _ | JNum _ | JFloat _ => Return false
  end.

(** Keep the entries whose mask bit is set. *)
Fixpoint take {A : Type} (mask : list bool) (xs : list A) : list A :=
  match mask, xs with
  | b :: mask', x :: xs' => if b then x :: take mask' xs' else take mask' xs'
  | _, _ => []
  end.

Definition take_col (mask : list bool) (c : column) : column :=
  match c with
  | NumCol cells => NumCol (take mask cells)
  | ObjCol cells => ObjCol (take mask cells)
  end.

(** [df[mask]] for a boolean mask: a new frame, [df] itself is untouched. *)
Definition select_rows (df : DataFrame) (mask : list bool) : DataFrame :=
  map (fun nc => (fst nc, take_col mask (snd nc))) df.

(** *** Group keys *)
Inductive key : Type :=
| KInt (z : Z)
| KStr (s : string).

Definition key_eqb (a b : key) : bool :=
  match a, b with
  | KInt x, KInt y => x =? y
  | KStr s, KStr t => String.eqb s t
  | _, _ => false
  end.

(** Order of the group index: numbers before strings. *)
Definition key_ltb (a b : key) : bool :=
  match a, b with
  | KInt x, KInt y => x <? y
  | KStr s, KStr t => String.ltb s t
  | KInt _, KStr _ => true
  | KStr _, KInt _ => false
  end.

Definition col_keys (c : column) : list (option key) :=
  match c with
  | NumCol cells => map (option_map KInt) cells
  | ObjCol cells => map (option_map KStr) cells
  end.

Fixpoint insert_sorted (k : key) (ks : list key) : list key :=
  match ks with
  | [] => [k]
  | k' :: ks' => if key_ltb k k' then k :: ks else k' :: insert_sorted k ks'
  end.

Definition add_key (k : key) (ks : list key) : list key :=
  if existsb (key_eqb k) ks then ks else insert_sorted k ks.

(** The distinct keys of a grouping column in index order. [groupby] drops
    the rows whose key is missing ([dropna=True]). *)
Fixpoint group_keys (ks : list (option key)) : list key :=
  match ks with
  | [] => []
  | Some k :: ks' => add_key k (group_keys ks')
  | None :: ks' => group_keys ks'
  end.

Definition is_key (k : key) (ok : option key) : bool :=
  match ok with Some k' => key_eqb k k' | None => false end.

(** The cells of [xs] on the rows of group [k]. *)
Definition group_cells {A : Type} (ks : list (option key)) (k : key)
    (xs : list A) : list A :=
  take (map (is_key k) ks) xs.

(** *** Reducers *)
Inductive reducer : Type := Sum | Mean | Min | Max | Count.

(** A number or string a reducer returns: [SInt z] is the number [z], as
    an [int64] or as the [float64] that holds it, [SFrac n d] the number
    [n/d]. *)
Inductive scalar : Type :=
| SInt (z : Z)
| SFrac (num : Z) (den : positive)
| SStr (s : string)
| SNaN.

(** The values present in a list of cells ([skipna=True]). *)
Fixpoint present {A : Type} (cells : list (option A)) : list A :=
  match cells with
  | [] => []
  | Some x :: cells' => x :: present cells'
  | None :: cells' => present cells'
  end.

Definition total (xs : list Z) : Z := fold_right Z.add 0 xs.

(** The sum of [xs] is exact in [int64] and in [float64]: the absolute
    values add up to at most 2^53, so no partial sum, in whatever order the
    values are added, leaves the integers a [float64] holds exactly, and
    none wraps around in [int64]. *)
Definition exact_sum (xs : list Z) : bool := total (map Z.abs xs) <=? 2 ^ 53.

Definition is_nan (v : scalar) : bool :=
  match v with SNaN => true | _ => false end.

(** What [execute_plan] binds to [result]. *)
Inductive result_value : Type :=
| RScalar (v : scalar)
| RDict (items : list (key * scalar))
| RSeries (repr : string)
| RFrame (repr : string).

Inductive filter_op : Type := OpEq | OpNe | OpGt | OpLt | OpGe | OpLe | OpIn.

(** Library behaviour the executor passes through unchanged. *)
Class PandasOps : Type := {
  (** [series.sum()] where the arithmetic of the dtype is not exact (an
      [int64] sum wraps around, a [float64] sum rounds) and [series.mean()],
      which is a [float64] quotient: given the reducer, the cells of the
      whole column, which fix the dtype, and the values reduced *)
  reduce_inexact : reducer -> list (option Z) -> list Z -> scalar;
  (** [sorted(items, key=lambda x: x[1], reverse=reverse)] on three or more
      items when a value is NaN: NaN is not ordered with any number and the
      outcome depends on the comparisons the sort happens to make *)
  sorted_unordered : list (key * scalar) -> bool -> list (key * scalar);
  (** [series == value], [series > value], ..., [series.isin(value)] *)
  series_compare : filter_op -> column -> json -> outcome (list bool);
  (** [series.sum()], [.mean()], [.min()], [.max()] on an object column *)
  reduce_object : reducer -> list (option string) -> outcome scalar;
  (** the same reducers on the groups of an object column, [to_dict()] *)
  group_reduce_object :
    reducer -> list (key * list (option string)) ->
    outcome (list (key * scalar));
  (** the [aggregate] branch for an unhashable [metric]: given the frame,
      the group-by key if any, the metric and the aggregation, what gets
      bound to [result], if anything *)
  select_unhashable :
    DataFrame -> option json -> json -> json -> outcome (option result_value);
  (** [series.sort_values(ascending=...)] *)
  sort_values : string -> bool -> outcome string;
  (** [series.head(n)] *)
  head : string -> json -> outcome string
}.

(** [series.sum()], [.mean()], [.min()], [.max()], [.count()] on the cells
    [cells] of a numeric column, all of it or one group; [series] is the
    whole column. Missing cells are skipped. *)
Definition reduce_numeric {pandas : PandasOps} (agg : reducer)
    (series cells : list (option Z)) : scalar :=
  let xs := present cells in
  match agg with
  | Sum => if exact_sum xs then SInt (total xs) else reduce_inexact Sum series xs
  | Count => SInt (Z.of_nat (List.length xs))
  | Mean =>
      match xs with
      | [] => SNaN
      | _ :: _ => reduce_inexact Mean series xs
      end
  | Min =>
      match xs with
      | [] => SNaN
      | x :: xs' => SInt (fold_right Z.min x xs')
      end
  | Max =>
      match xs with
      | [] => SNaN
      | x :: xs' => SInt (fold_right Z.max x xs')
      end
  end.

End Pandas.
Export Pandas.

(** ** The executor object and its methods *)
Module Executor.

(** [self]: the two tables [_load_data] stored, [None] when a file is
    absent or unreadable. *)
Record QueryExecutor : Type := {
  trades_df : option DataFrame;
  holdings_df : option DataFrame
}.

(** A method body: it may read and write [self] and may raise. *)
Definition M (A : Type) : Type := QueryExecutor -> outcome A * QueryExecutor.

Definition ret {A} (a : A) : M A := fun self => (Return a, self).

Definition lift {A} (o : outcome A) : M A := fun self => (o, self).

Definition bind {A B} (c : M A) (k : A -> M B) : M B :=
  fun self =>
    match c self with
    | (Return a, self') => k a self'
    | (Raise e, self') => (Raise e, self')
    end.

(** [try: body except Exception as e: handler(e)] *)
Definition try_except {A} (body : M A) (handler : exn -> M A) : M A :=
  fun self =>
    match body self with
    | (Return a, self') => (Return a, self')
    | (Raise e, self') => handler e self'
    end.

Definition read {A} (field : QueryExecutor -> A) : M A :=
  fun self => (Return (field self), self).

Declare Scope method_scope.
Delimit Scope method_scope with method.
Notation "x <- c ;; k" := (bind c (fun x => k))
  (at level 61, c at next level, right associativity) : method_scope.
Notation "x <~ c ;; k" := (obind c (fun x => k))
  (at level 61, c at next level, right associativity) : method_scope.
Local Open Scope method_scope.

Definition ALLOWED_FILES : list string := ["trades.csv"; "holdings.csv"].
Definition ALLOWED_OPERATIONS : list string :=
  ["count"; "aggregate"; "group_by"; "sort"; "filter"; "limit"].
Definition ALLOWED_AGGREGATIONS : list string :=
  ["sum"; "mean"; "min"; "max"; "count"].

(** [ALLOWED_FILTER_OPERATORS] of [config.py]: the operators the chain of
    [execute_plan] has a branch for. *)
Definition ALLOWED_FILTER_OPERATORS : list string :=
  ["=="; "!="; ">"; "<"; ">="; "<="; "in"].

(** [_get_dataframe] *)
Definition _get_dataframe (filename : json) : M (option DataFrame) :=
  if eq_str filename "trades.csv" then read trades_df
  else if eq_str filename "holdings.csv" then read holdings_df
  else ret None.

(** [d[k]] on the plan *)
Definition dict_getitem (d : pydict) (k : string) : outcome json :=
  match dict_get d k with Some v => Return v | None => Raise KeyError end.

(** The message of a failed validation; the field values the f-strings
    interpolate are kept as they are. *)
Inductive reason : Type :=
| MissingFiles
| MissingOperation
| FilesNotList
| FileNotAllowed (file : json)
| FileNotLoaded (file : json)
| OperationNotAllowed (operation : json)
| AggregationRequired
| AggregationNotAllowed (aggregation : json)
| ColumnNotFound (column file : json)
| FilterColumnNotFound (column file : json).

(** The pair [_validate_plan] returns: [True] with an empty message, or
    [False] with the message of the failure. *)
Inductive verdict : Type :=
| Pass
| Fail (why : reason).

(** First loop of [_validate_plan]: every file is allowed and loaded. *)
Fixpoint validate_files (files : list json) : M verdict :=
  match files with
  | [] => ret Pass
  | file :: rest =>
      if negb (in_strs file ALLOWED_FILES) then ret (Fail (FileNotAllowed file))
      else
        df <- _get_dataframe file ;;
        match df with
        | None => ret (Fail (FileNotLoaded file))
        | Some _ => validate_files rest
        end
  end.

(** [key not in df.columns]; [df.columns] on [None] is an [AttributeError]. *)
Definition not_in_columns (key : json) (df : option DataFrame) : outcome bool :=
  match df with
  | None => Raise AttributeError
  | Some d => b <~ in_columns key d ;; Return (negb b)
  end.

(** Body of the loop over [plan['filters']]. *)
Definition validate_filter_item (filter_item : json) (df : option DataFrame)
    (file : json) : outcome verdict :=
  has <~ contains_str filter_item "column" ;;
  if has then
    column <~ getitem_str filter_item "column" ;;
    missing <~ not_in_columns column df ;;
    if missing then Return (Fail (FilterColumnNotFound column file))
    else Return Pass
  else Return Pass.

Fixpoint validate_filter_items (items : list json) (df : option DataFrame)
    (file : json) : outcome verdict :=
  match items with
  | [] => Return Pass
  | filter_item :: rest =>
      v <~ validate_filter_item filter_item df file ;;
      match v with
      | Pass => validate_filter_items rest df file
      | Fail why => Return (Fail why)
      end
  end.

(** A column named by [plan[field]], checked when present and truthy. *)
Definition validate_named_column (plan : pydict) (field : string)
    (df : option DataFrame) (file : json) : outcome verdict :=
  if present_and_truthy plan field then
    column <~ dict_getitem plan field ;;
    missing <~ not_in_columns column df ;;
    if missing then Return (Fail (ColumnNotFound column file)) else Return Pass
  else Return Pass.

(** Body of the second loop: the columns the plan names exist in [file]. *)
Definition validate_columns_in (plan : pydict) (df : option DataFrame)
    (file : json) : outcome verdict :=
  v <~ validate_named_column plan "group_by" df file ;;
  match v with
  | Fail why => Return (Fail why)
  | Pass =>
      v <~ validate_named_column plan "metric" df file ;;
      match v with
      | Fail why => Return (Fail why)
      | Pass =>
          if has_key plan "filters" then
            filters <~ dict_getitem plan "filters" ;;
            items <~ iterate filters ;;
            validate_filter_items items df file
          else Return Pass
      end
  end.

Fixpoint validate_columns (plan : pydict) (files : list json) : M verdict :=
  match files with
  | [] => ret Pass
  | file :: rest =>
      df <- _get_dataframe file ;;
      v <- lift (validate_columns_in plan df file) ;;
      match v with
      | Pass => validate_columns plan rest
      | Fail why => ret (Fail why)
      end
  end.

(** [if operation == 'aggregate': ...] *)
Definition validate_aggregation (plan : pydict) (operation : json) : verdict :=
  if eq_str operation "aggregate" then
    match dict_get plan "aggregation" with
    | None => Fail AggregationRequired
    | Some aggregation =>
        if negb (in_strs aggregation ALLOWED_AGGREGATIONS)
        then Fail (AggregationNotAllowed aggregation)
        else Pass
    end
  else Pass.

(** [_validate_plan] *)
Definition _validate_plan (plan : pydict) : M verdict :=
  if negb (has_key plan "files") then ret (Fail MissingFiles)
  else if negb (has_key plan "operation") then ret (Fail MissingOperation)
  else
    files <- lift (dict_getitem plan "files") ;;
    match files with
    | JList file_list =>
        v <- validate_files file_list ;;
        match v with
        | Fail why => ret (Fail why)
        | Pass =>
            operation <- lift (dict_getitem plan "operation") ;;
            if negb (in_strs operation ALLOWED_OPERATIONS)
            then ret (Fail (OperationNotAllowed operation))
            else
              match validate_aggregation plan operation with
              | Fail why => ret (Fail why)
              | Pass => validate_columns plan file_list
              end
        end
    | _ => ret (Fail FilesNotList)
    end.

(** *** Execution *)

(** [v[0]] *)
Definition getitem_0 (v : json) : outcome json :=
  match v with
  | JList [] => Raise IndexError
  | JList (x :: _) => Return x
  | JStr EmptyString => Raise IndexError
  | JStr (String c _) => Return (JStr (String c EmptyString))
  | JObj _ => Raise KeyError
  | JNull | JBool _ | JNum _ | JFloat _ => Raise TypeError
  end.

(** [df[key]] for a hashable key: the column of that name, [KeyError] when
    there is none. An unhashable key does not get here: validation raises on
    a truthy one, and an empty list or dictionary as metric is handled by
    [select_unhashable]. *)
Definition column_of (df : DataFrame) (key : json) : outcome column :=
  match key with
  | JStr name =>
      match find_column df name with
      | Some c => Return c
      | None => Raise KeyError
      end
  | JNull | JBool _ | JNum _ | JFloat _ => Raise KeyError
  | JList _ | JObj _ => Raise TypeError
  end.

(** The [if]/[elif] chain over [operator]; no branch for anything else. *)
Definition parse_operator (operator : json) : option filter_op :=
  if eq_str operator "==" then Some OpEq
  else if eq_str operator "!=" then Some OpNe
  else if eq_str operator ">" then Some OpGt
  else if eq_str operator "<" then Some OpLt
  else if eq_str operator ">=" then Some OpGe
  else if eq_str operator "<=" then Some OpLe
  else if eq_str operator "in" then Some OpIn
  else None.

(** The [if]/[elif] chain over [aggregation]. *)
Definition parse_aggregation (aggregation : json) : option reducer :=
  if eq_str aggregation "sum" then Some Sum
  else if eq_str aggregation "mean" then Some Mean
  else if eq_str aggregation "min" then Some Min
  else if eq_str aggregation "max" then Some Max
  else if eq_str aggregation "count" then Some Count
  else None.

(** The text of the [error] entry of a failed execution. *)
Inductive error_text : Type :=
| ValidationMessage (why : reason)
| NotLoadedMessage (filename : json)
| ExceptionMessage (e : exn).

(** The dictionary [execute_plan] returns; [echoed_plan] is its [plan]
    entry, present on success only. *)
Record response : Type := {
  success : bool;
  error : option error_text;
  result : option result_value;
  echoed_plan : option pydict
}.

Definition failure (message : error_text) : response :=
  {| success := false; error := Some message; result := None;
     echoed_plan := None |}.

(** The dictionary of a successful execution. *)
Definition succeeded (plan : pydict) (r : result_value) : response :=
  {| success := true; error := None; result := Some r; echoed_plan := Some plan |}.

(** Reading the local variable [result]; it is unbound when no branch of
    the operation chain assigned it. *)
Definition read_local {A} (v : option A) : outcome A :=
  match v with Some a => Return a | None => Raise UnboundLocalError end.

(** *** Sorting and truncating a result dictionary *)

Definition is_str (v : scalar) : bool :=
  match v with SStr _ => true | _ => false end.

Definition is_number (v : scalar) : bool :=
  match v with SInt _ | SFrac _ _ => true | _ => false end.

Definition numerator (v : scalar) : Z :=
  match v with SInt z => z | SFrac n _ => n | _ => 0 end.

Definition denominator (v : scalar) : positive :=
  match v with SFrac _ d => d | _ => 1%positive end.

(** [a < b] on reducer results: two numbers by their value, two strings
    by code points; NaN compares false. A string is never compared with a
    number here, [sorted_items] raises before. *)
Definition value_ltb (a b : scalar) : bool :=
  match a, b with
  | SStr s, SStr t => String.ltb s t
  | _, _ =>
      is_number a && is_number b &&
      (numerator a * Zpos (denominator b) <? numerator b * Zpos (denominator a))
  end.

(** [a <= b] *)
Definition value_leb (a b : scalar) : bool :=
  match a, b with
  | SStr s, SStr t => String.leb s t
  | _, _ =>
      is_number a && is_number b &&
      (numerator a * Zpos (denominator b) <=? numerator b * Zpos (denominator a))
  end.

Fixpoint insert_by_value (x : key * scalar) (sorted : list (key * scalar))
    : list (key * scalar) :=
  match sorted with
  | [] => [x]
  | y :: rest =>
      if value_ltb (snd y) (snd x) then y :: insert_by_value x rest
      else x :: sorted
  end.

(** A stable ascending sort on the values. *)
Definition sort_by_value (items : list (key * scalar)) : list (key * scalar) :=
  fold_right insert_by_value [] items.

(** [sorted(items, key=lambda x: x[1], reverse=reverse)]. Comparing a string
    with a number raises; [reverse] sorts the reversed list and reverses the
    outcome, which keeps the sort stable. Two items are swapped exactly when
    the second is below the first; with three or more items and a NaN among
    the values the order is [sorted_unordered]. *)
Definition sorted_items {pandas : PandasOps} (items : list (key * scalar))
    (reverse : bool) : outcome (list (key * scalar)) :=
  let values := map snd items in
  if existsb is_str values && existsb (fun v => negb (is_str v)) values
  then Raise TypeError
  else if existsb is_nan values && (2 <? List.length items)%nat
  then Return (sorted_unordered items reverse)
  else Return (if reverse then rev (sort_by_value (rev items))
               else sort_by_value items).

(** [xs[:stop]]: a slice index is an integer or [None]; a float raises. *)
Definition slice_to {A} (xs : list A) (stop : json) : outcome (list A) :=
  match stop with
  | JNum k =>
      Return (if 0 <=? k then firstn (Z.to_nat k) xs
              else firstn (List.length xs - Z.to_nat (- k)) xs)
  | JBool b => Return (firstn (if b then 1 else 0) xs)
  | JNull => Return xs
  | JFloat _ | JStr _ | JList _ | JObj _ => Raise TypeError
  end.

Section WithPandas.
Context {pandas : PandasOps}.

(** One clause of [plan['filters']] applied to [df]. *)
Definition apply_filter (df : DataFrame) (filter_item : json) : outcome DataFrame :=
  column <~ method_get filter_item "column" JNull ;;
  operator <~ method_get filter_item "operator" (JStr "==") ;;
  value <~ method_get filter_item "value" JNull ;;
  match parse_operator operator with
  | Some op =>
      series <~ column_of df column ;;
      mask <~ series_compare op series value ;;
      Return (select_rows df mask)
  | None => Return df
  end.

Fixpoint filter_loop (items : list json) (df : DataFrame) : outcome DataFrame :=
  match items with
  | [] => Return df
  | filter_item :: rest =>
      df' <~ apply_filter df filter_item ;;
      filter_loop rest df'
  end.

(** [# Apply filters if any] *)
Definition apply_filters (plan : pydict) (df : DataFrame) : outcome DataFrame :=
  if present_and_truthy plan "filters" then
    filters <~ dict_getitem plan "filters" ;;
    items <~ iterate filters ;;
    filter_loop items df
  else Return df.

(** [df.groupby(g).size().to_dict()] *)
Definition group_sizes (keys : list (option key)) : list (key * scalar) :=
  map (fun k => (k, SInt (Z.of_nat (List.length (group_cells keys k keys)))))
      (group_keys keys).

(** [df.groupby(g)[metric].<agg>().to_dict()] on a numeric metric column. *)
Definition group_reduce_numeric (agg : reducer) (keys : list (option key))
    (cells : list (option Z)) : list (key * scalar) :=
  map (fun k => (k, reduce_numeric agg cells (group_cells keys k cells)))
      (group_keys keys).

Definition count_present {A} (cells : list (option A)) : scalar :=
  SInt (Z.of_nat (List.length (present cells))).

(** The grouped branch of [aggregate] for a hashable metric. *)
Definition aggregate_grouped (df : DataFrame) (group_by metric aggregation : json)
    : outcome (option result_value) :=
  group_column <~ column_of df group_by ;;
  metric_column <~ column_of df metric ;;
  let keys := col_keys group_column in
  match parse_aggregation aggregation with
  | None => Return None
  | Some agg =>
      match metric_column with
      | NumCol cells =>
          Return (Some (RDict (group_reduce_numeric agg keys cells)))
      | ObjCol cells =>
          match agg with
          | Count =>
              Return (Some (RDict
                (map (fun k => (k, count_present (group_cells keys k cells)))
                     (group_keys keys))))
          | _ =>
              items <~ group_reduce_object agg
                (map (fun k => (k, group_cells keys k cells)) (group_keys keys)) ;;
              Return (Some (RDict items))
          end
      end
  end.

(** The ungrouped branch of [aggregate] for a hashable metric. *)
Definition aggregate_whole (df : DataFrame) (metric aggregation : json)
    : outcome (option result_value) :=
  match parse_aggregation aggregation with
  | None => Return None
  | Some agg =>
      metric_column <~ column_of df metric ;;
      match metric_column with
      | NumCol cells => Return (Some (RScalar (reduce_numeric agg cells cells)))
      | ObjCol cells =>
          match agg with
          | Count => Return (Some (RScalar (count_present cells)))
          | _ => v <~ reduce_object agg cells ;; Return (Some (RScalar v))
          end
      end
  end.

(** [# Execute operation]: the value bound to [result], if any. *)
Definition run_operation (plan : pydict) (df : DataFrame)
    : outcome (option result_value) :=
  operation <~ dict_getitem plan "operation" ;;
  if eq_str operation "count" then
    if present_and_truthy plan "group_by" then
      group_by <~ dict_getitem plan "group_by" ;;
      group_column <~ column_of df group_by ;;
      Return (Some (RDict (group_sizes (col_keys group_column))))
    else Return (Some (RScalar (SInt (Z.of_nat (len df)))))
  else if eq_str operation "aggregate" then
    let metric := get_or plan "metric" JNull in
    let aggregation := get_or plan "aggregation" (JStr "sum") in
    if present_and_truthy plan "group_by" then
      group_by <~ dict_getitem plan "group_by" ;;
      if hashable metric then aggregate_grouped df group_by metric aggregation
      else select_unhashable df (Some group_by) metric aggregation
    else
      if hashable metric then aggregate_whole df metric aggregation
      else select_unhashable df None metric aggregation
  else Return None.

(** [# Apply sorting] *)
Definition apply_sort (plan : pydict) (result : option result_value)
    : outcome (option result_value) :=
  if present_and_truthy plan "sort" then
    sort <~ dict_getitem plan "sort" ;;
    r <~ read_local result ;;
    match r with
    | RDict items =>
        items' <~ sorted_items items (eq_str sort "desc") ;;
        Return (Some (RDict items'))
    | RSeries repr =>
        repr' <~ sort_values repr (negb (eq_str sort "desc")) ;;
        Return (Some (RSeries repr'))
    | RScalar _ | RFrame _ => Return (Some r)
    end
  else Return result.

(** [# Apply limit] *)
Definition apply_limit (plan : pydict) (result : option result_value)
    : outcome (option result_value) :=
  if present_and_truthy plan "limit" then
    limit <~ dict_getitem plan "limit" ;;
    r <~ read_local result ;;
    match r with
    | RDict items =>
        items' <~ slice_to items limit ;;
        Return (Some (RDict items'))
    | RSeries repr =>
        repr' <~ head repr limit ;;
        Return (Some (RSeries repr'))
    | RScalar _ | RFrame _ => Return (Some r)
    end
  else Return result.

(** The body of the [try] block of [execute_plan]. *)
Definition execute_body (plan : pydict) : M response :=
  files <- lift (dict_getitem plan "files") ;;
  filename <- lift (getitem_0 files) ;;
  df <- _get_dataframe filename ;;
  match df with
  | None => ret (failure (NotLoadedMessage filename))
  | Some df =>
      df <- lift (apply_filters plan df) ;;
      result <- lift (run_operation plan df) ;;
      result <- lift (apply_sort plan result) ;;
      result <- lift (apply_limit plan result) ;;
      result <- lift (read_local result) ;;
      ret (succeeded plan result)
  end.

(** [execute_plan] *)
Definition execute_plan (plan : pydict) : M response :=
  v <- _validate_plan plan ;;
  match v with
  | Fail why => ret (failure (ValidationMessage why))
  | Pass =>
      try_except (execute_body plan)
                 (fun e => ret (failure (ExceptionMessage e)))
  end.

End WithPandas.

(** [get_available_columns] *)
Definition get_available_columns : M (list (string * list string)) :=
  trades <- read trades_df ;;
  holdings <- read holdings_df ;;
  ret (List.app
         (match trades with Some df => [("trades.csv", columns df)] | None => [] end)
         (match holdings with Some df => [("holdings.csv", columns df)] | None => [] end)).

End Executor.

(** ** The chat endpoint *)
Module Api.
Import Executor.

(** A Python [str]: its code points. *)
Definition pystr := list N.

(** [str.isspace] on one character. *)
Definition is_space (c : N) : bool :=
  ((9 <=? c) && (c <=? 13) || (28 <=? c) && (c <=? 32)
   || (c =? 133) || (c =? 160) || (c =? 5760)
   || (8192 <=? c) && (c <=? 8202)
   || (c =? 8232) || (c =? 8233) || (c =? 8239) || (c =? 8287)
   || (c =? 12288))%N.

Fixpoint lstrip (s : pystr) : pystr :=
  match s with
  | [] => []
  | c :: s' => if is_space c then lstrip s' else s
  end.

Definition rstrip (s : pystr) : pystr := rev (lstrip (rev s)).

(** [s.strip()] *)
Definition strip (s : pystr) : pystr := rstrip (lstrip s).

(** [not s] on a string *)
Definition is_empty (s : pystr) : bool :=
  match s with [] => true | _ => false end.

(** The chatbot object: the executor; client, planner and explainer are the
    external language model. *)
Record FundAnalyticsChatbot : Type := { executor : QueryExecutor }.

(** A request sent to the language model. *)
Inductive llm_call : Type :=
| PlannerCall (question : pystr)
| ExplainerCall (question : pystr).

(** The text of an answer. *)
Inductive answer_text : Type :=
| ERROR_MESSAGE
| Explanation (text : string)
| ProcessingError (e : exn).

(** What the endpoint sends back. *)
Inductive http_result : Type :=
| HTTPException (status_code : nat) (detail : string)
| QuestionResponse (answer : answer_text) (success : bool).

Section WithModel.
Context {pandas : PandasOps}.
(** [LLMPlanner.generate_plan]: the plan parsed from the model's reply,
    [None] when the call or the parsing fails. *)
Variable generate_plan : pystr -> list (string * list string) -> option pydict.
(** The text [LLMExplainer.explain_results] gets from the model or from its
    fallback. *)
Variable explain : pystr -> pydict -> response -> string.

(** [LLMExplainer.explain_results] *)
Definition explain_results (question : pystr) (plan : pydict)
    (execution_result : response) : answer_text * list llm_call :=
  if negb (success execution_result) then (ERROR_MESSAGE, [])
  else (Explanation (explain question plan execution_result),
        [ExplainerCall question]).

(** [FundAnalyticsChatbot.answer_question]: the answer or the exception,
    with the requests made to the language model. *)
Definition answer_question (self : FundAnalyticsChatbot) (question : pystr)
    : outcome answer_text * list llm_call :=
  match get_available_columns (executor self) with
  | (Raise e, _) => (Raise e, [])
  | (Return available_columns, ex) =>
      let calls := [PlannerCall question] in
      match generate_plan question available_columns with
      | None => (Return ERROR_MESSAGE, calls)
      | Some plan =>
          match execute_plan plan ex with
          | (Raise e, _) => (Raise e, calls)
          | (Return execution_result, _) =>
              if negb (success execution_result)
              then (Return ERROR_MESSAGE, calls)
              else
                let (explanation, more) :=
                  explain_results question plan execution_result in
                (Return explanation, List.app calls more)
          end
      end
  end.

(** [chat]: the handler of [POST /api/chat]; [chatbot] is the module-level
    instance, [None] when start-up did not create it. *)
Definition chat (chatbot : option FundAnalyticsChatbot) (question : pystr)
    : http_result * list llm_call :=
  match chatbot with
  | None =>
      (HTTPException 503
         "Chatbot not initialized. Check OPENAI_API_KEY and data files.", [])
  | Some bot =>
      if is_empty question || is_empty (strip question)
      then (HTTPException 400 "Question cannot be empty", [])
      else
        match answer_question bot (strip question) with
        | (Return answer, calls) => (QuestionResponse answer true, calls)
        | (Raise e, calls) => (QuestionResponse (ProcessingError e) false, calls)
        end
  end.

End WithModel.
End Api.

(** ** A pandas instance to close the examples

    The examples need some instance of [PandasOps] to be closed terms. None
    of them reaches a member of the class (they filter with no known
    operator, sum small integers and sort at most two items when one is
    NaN), so the instance answers every member that can raise with an
    exception that says so, and the two that cannot with NaN and with the
    items as they are. *)
Module Reference.

Definition outside_model {A : Type} : outcome A :=
  Raise (OtherError "outside the modelled fragment of pandas").

#[export] Instance no_pandas : PandasOps := {|
  reduce_inexact := fun _ _ _ => SNaN;
  sorted_unordered := fun items _ => items;
  series_compare := fun _ _ _ => outside_model;
  reduce_object := fun _ _ => outside_model;
  group_reduce_object := fun _ _ => outside_model;
  select_unhashable := fun _ _ _ _ => outside_model;
  sort_values := fun _ _ => outside_model;
  head := fun _ _ => outside_model
|}.

End Reference.

(** * Notions used to state the properties *)
Module Notions.
Import Executor.
Local Open Scope method_scope.

(** The value a cell adds to a sum: a missing one adds nothing. *)
Definition cell_value (c : option Z) : Z :=
  match c with Some x => x | None => 0 end.

(** The rows whose group key is present. *)
Definition keyed (keys : list (option key)) : list bool :=
  map (fun ok => match ok with Some _ => true | None => false end) keys.

(** A method body that leaves [self] as it found it. *)
Definition read_only {A} (c : M A) : Prop :=
  forall self, snd (c self) = self.

(** [file] names a table that is loaded as [df]. *)
Definition loaded (self : QueryExecutor) (file : string) (df : DataFrame) : Prop :=
  _get_dataframe (JStr file) self = (Return (Some df), self).

(** No filter clause: the key is absent or holds the empty list. *)
Definition no_filters (plan : pydict) : bool :=
  match dict_get plan "filters" with
  | None | Some (JList []) => true
  | Some _ => false
  end.


(** The table [_get_dataframe] answers for [filename]. *)
Definition stored (self : QueryExecutor) (filename : json) : option DataFrame :=
  if eq_str filename "trades.csv" then trades_df self
  else if eq_str filename "holdings.csv" then holdings_df self
  else None.

(** What the first loop computes. *)
Fixpoint files_verdict (self : QueryExecutor) (files : list json) : verdict :=
  match files with
  | [] => Pass
  | file :: rest =>
      if negb (in_strs file ALLOWED_FILES) then Fail (FileNotAllowed file)
      else match stored self file with
           | None => Fail (FileNotLoaded file)
           | Some _ => files_verdict self rest
           end
  end.

(** What the second loop computes. *)
Fixpoint columns_verdict (self : QueryExecutor) (plan : pydict)
    (files : list json) : outcome verdict :=
  match files with
  | [] => Return Pass
  | file :: rest =>
      v <~ validate_columns_in plan (stored self file) file ;;
      match v with
      | Pass => columns_verdict self plan rest
      | Fail why => Return (Fail why)
      end
  end.

(** [_validate_plan] as a function of [self]. *)
Definition plan_verdict (self : QueryExecutor) (plan : pydict) : outcome verdict :=
  match dict_get plan "files", dict_get plan "operation" with
  | None, _ => Return (Fail MissingFiles)
  | Some _, None => Return (Fail MissingOperation)
  | Some (JList files), Some operation =>
      match files_verdict self files with
      | Fail why => Return (Fail why)
      | Pass =>
          if negb (in_strs operation ALLOWED_OPERATIONS)
          then Return (Fail (OperationNotAllowed operation))
          else match validate_aggregation plan operation with
               | Fail why => Return (Fail why)
               | Pass => columns_verdict self plan files
               end
      end
  | Some _, Some _ => Return (Fail FilesNotList)
  end.

(** The plan names the column [name]: as a non-empty group-by or metric, or
    in a filter clause. *)
Inductive names_column (plan : pydict) (name : string) : Prop :=
| names_group_by :
    dict_get plan "group_by" = Some (JStr name) -> name <> EmptyString ->
    names_column plan name
| names_metric :
    dict_get plan "metric" = Some (JStr name) -> name <> EmptyString ->
    names_column plan name
| names_filter (items : list json) (fields : pydict) :
    dict_get plan "filters" = Some (JList items) ->
    In (JObj fields) items ->
    dict_get fields "column" = Some (JStr name) ->
    names_column plan name.

(** A plan that passed validation. *)
Record accepted (self : QueryExecutor) (plan : pydict) : Prop := {
  accepted_files :
    exists files, dict_get plan "files" = Some (JList files) /\
      forall file, In file files ->
        in_strs file ALLOWED_FILES = true /\ stored self file <> None;
  accepted_operation :
    exists operation, dict_get plan "operation" = Some operation /\
      in_strs operation ALLOWED_OPERATIONS = true;
  accepted_aggregation :
    dict_get plan "operation" = Some (JStr "aggregate") ->
    exists aggregation, dict_get plan "aggregation" = Some aggregation /\
      in_strs aggregation ALLOWED_AGGREGATIONS = true;
  accepted_columns :
    forall files file df name,
      dict_get plan "files" = Some (JList files) -> In file files ->
      stored self file = Some df -> names_column plan name ->
      In name (columns df)
}.

Definition hashable_field (d : pydict) (field : string) : bool :=
  match dict_get d field with Some v => hashable v | None => true end.

Definition well_typed_filter (filter_item : json) : bool :=
  match filter_item with
  | JObj fields => hashable_field fields "column"
  | _ => false
  end.

(** Group-by and metric are not lists or dictionaries; the filters, when
    given, are a list of dictionaries whose column is not one either. *)
Definition well_typed (plan : pydict) : bool :=
  hashable_field plan "group_by" && hashable_field plan "metric" &&
  match dict_get plan "filters" with
  | None => true
  | Some (JList items) => forallb well_typed_filter items
  | Some _ => false
  end.

(** Two executors whose tables are loaded alike and have the same column
    names, whatever their rows. *)
Definition same_schema (a b : QueryExecutor) : Prop :=
  option_map columns (trades_df a) = option_map columns (trades_df b) /\
  option_map columns (holdings_df a) = option_map columns (holdings_df b).

(** A plan the specification calls invalid: its operation is outside the
    whitelist, or it aggregates with an aggregation outside the whitelist,
    or, its fields having the types of the data model, it names a column
    that a listed table does not have. *)
Inductive invalid (self : QueryExecutor) (plan : pydict) : Prop :=
| invalid_operation (operation : json) :
    dict_get plan "operation" = Some operation ->
    in_strs operation ALLOWED_OPERATIONS = false ->
    invalid self plan
| invalid_aggregation (aggregation : json) :
    dict_get plan "operation" = Some (JStr "aggregate") ->
    dict_get plan "aggregation" = Some aggregation ->
    in_strs aggregation ALLOWED_AGGREGATIONS = false ->
    invalid self plan
| invalid_column (files : list json) (file : json) (df : DataFrame)
    (name : string) :
    well_typed plan = true ->
    dict_get plan "files" = Some (JList files) -> In file files ->
    stored self file = Some df ->
    names_column plan name -> ~ In name (columns df) ->
    invalid self plan.

Definition item : Type := key * scalar.

(** [x] comes before [y] in a non-increasing run: [value y <= value x]. *)
Definition not_below (x y : item) : Prop := value_leb (snd y) (snd x) = true.

(** ... and in a non-decreasing one. *)
Definition not_above (x y : item) : Prop := value_leb (snd x) (snd y) = true.

Definition numeric (items : list item) : Prop :=
  Forall (fun x => is_number (snd x) = true) items.

(** The operator of a clause: [filter_item.get('operator', '==')] is none
    of the seven. *)
Definition unknown_operator (fields : pydict) : Prop :=
  in_strs (get_or fields "operator" (JStr "==")) ALLOWED_FILTER_OPERATORS = false.

(** Two plans with the same entries, but for [filters]. *)
Definition agree_but_filters (plan plan' : pydict) : Prop :=
  forall k, k <> "filters" -> dict_get plan k = dict_get plan' k.

(** Two calls that answer alike: the same success flag, result and error,
    or the same exception, and the same executor afterwards. *)
Definition same_answer (a b : outcome response * QueryExecutor) : Prop :=
  snd a = snd b /\
  match fst a, fst b with
  | Return r, Return r' =>
      success r = success r' /\ result r = result r' /\ error r = error r'
  | Raise e, Raise e' => e = e'
  | _, _ => False
  end.

Section WithPandas.
Context {pandas : PandasOps}.

(** A call of [execute_plan] that did not succeed: a failure response, or
    the exception the validator raised. *)
Definition refused (plan : pydict) (self : QueryExecutor) : Prop :=
  (exists message, execute_plan plan self = (Return (failure message), self)) \/
  (exists e, _validate_plan plan self = (Raise e, self) /\
             execute_plan plan self = (Raise e, self)).

End WithPandas.
End Notions.

(** * Tables and plans of the examples *)
Module Examples.
Import Executor Api.

(** The table of the specification's example. *)
Definition example_holdings : DataFrame :=
  [("Fund", ObjCol [Some "A"; Some "B"; Some "A"]);
   ("PL", NumCol [Some 100; Some 50; Some 20])].

Definition example_plan : pydict :=
  [("files", JList [JStr "holdings.csv"]); ("operation", JStr "aggregate");
   ("metric", JStr "PL"); ("aggregation", JStr "sum");
   ("group_by", JStr "Fund")].


(** A table with a row whose fund is missing. *)
Definition holdings_with_gap : DataFrame :=
  [("Fund", ObjCol [Some "A"; None]); ("PL", NumCol [Some 100; Some 50])].

Definition only_holdings (df : DataFrame) : QueryExecutor :=
  {| trades_df := None; holdings_df := Some df |}.

(** The tables used in the examples below. *)
Definition example_state : QueryExecutor := only_holdings example_holdings.

Definition plan_with_unknown_column : pydict :=
  [("files", JList [JStr "holdings.csv"]); ("operation", JStr "count");
   ("group_by", JStr "Manager")].

Definition count_with_unknown_aggregation : pydict :=
  [("files", JList [JStr "holdings.csv"]); ("operation", JStr "count");
   ("aggregation", JStr "median")].

Definition plan_without_files : pydict :=
  [("files", JList []); ("operation", JStr "count")].

Definition aggregate_without_metric : pydict :=
  [("files", JList [JStr "holdings.csv"]); ("operation", JStr "aggregate");
   ("aggregation", JStr "sum")].

Definition sort_plan : pydict :=
  [("files", JList [JStr "holdings.csv"]); ("operation", JStr "sort")].

Definition plan_with_null_filters : pydict :=
  [("files", JList [JStr "holdings.csv"]); ("operation", JStr "count");
   ("filters", JNull)].

Definition plan_with_number_clause : pydict :=
  [("files", JList [JStr "holdings.csv"]); ("operation", JStr "count");
   ("filters", JList [JNum 5])].

(** One clause given as a dictionary instead of a list of dictionaries. *)
Definition plan_with_single_clause : pydict :=
  [("files", JList [JStr "holdings.csv"]); ("operation", JStr "count");
   ("filters", JObj [("column", JStr "PL"); ("operator", JStr ">");
                     ("value", JNum 30)])].

Definition top_fund_plan (k : Z) : pydict :=
  ("sort", JStr "desc") :: ("limit", JNum k) :: example_plan.

(** A table in which fund A has no profit recorded. *)
Definition holdings_without_profit : DataFrame :=
  [("Fund", ObjCol [Some "A"; Some "B"]); ("PL", NumCol [None; Some 1])].

Definition lowest_profit_plan : pydict :=
  [("files", JList [JStr "holdings.csv"]); ("operation", JStr "aggregate");
   ("metric", JStr "PL"); ("aggregation", JStr "min"); ("group_by", JStr "Fund");
   ("sort", JStr "desc")].

Definition plan_with_unknown_operator : pydict :=
  [("files", JList [JStr "holdings.csv"]); ("operation", JStr "count");
   ("filters", JList [JObj [("column", JStr "PL"); ("operator", JStr "~");
                            ("value", JNum 3)]])].

Definition plan_with_no_clause : pydict :=
  [("files", JList [JStr "holdings.csv"]); ("operation", JStr "count");
   ("filters", JList [])].

(** A clause with an unknown operator on a column the table does not
    have. *)
Definition plan_with_unknown_operator_and_column : pydict :=
  [("files", JList [JStr "holdings.csv"]); ("operation", JStr "count");
   ("filters", JList [JObj [("column", JStr "Nope"); ("operator", JStr "~");
                            ("value", JNum 3)]])].

(** A planner and an explainer to run the endpoint with. *)
Definition no_plan (_ : pystr) (_ : list (string * list string)) : option pydict :=
  None.
Definition no_text (_ : pystr) (_ : pydict) (_ : response) : string := EmptyString.

End Examples.

(** ** Loading the tables *)
Module Loading.
Import Executor.
Local Open Scope method_scope.

(** The data folder as [_load_data] meets it. For each of the two paths:
    [None] when [os.path.exists] answers no, and otherwise what
    [pd.read_csv] does with the file, return a frame or raise. *)
Record data_folder : Type := {
  trades_csv : option (outcome DataFrame);
  holdings_csv : option (outcome DataFrame)
}.

(** [self.trades_df = v] *)
Definition set_trades_df (v : option DataFrame) : M unit :=
  fun self => (Return tt, {| trades_df := v; holdings_df := holdings_df self |}).

(** [self.holdings_df = v] *)
Definition set_holdings_df (v : option DataFrame) : M unit :=
  fun self => (Return tt, {| trades_df := trades_df self; holdings_df := v |}).

(** [if os.path.exists(path): field = pd.read_csv(path) else: field = None] *)
Definition load_file (file : option (outcome DataFrame))
    (store : option DataFrame -> M unit) : M unit :=
  match file with
  | Some csv => df <- lift csv ;; store (Some df)
  | None => store None
  end.

(** [_load_data] *)
Definition _load_data (folder : data_folder) : M unit :=
  try_except
    (u <- load_file (trades_csv folder) set_trades_df ;;
     load_file (holdings_csv folder) set_holdings_df)
    (fun e => u <- set_trades_df None ;; set_holdings_df None).

(** [QueryExecutor.__init__]: both fields start as [None], then the data
    is loaded. *)
Definition __init__ (folder : data_folder) : QueryExecutor :=
  snd (_load_data folder {| trades_df := None; holdings_df := None |}).

End Loading.

(** ** Start-up and the other endpoints *)
Module Endpoints.
Import Executor Api Loading.

(** [not key] on an optional string: [None] and the empty string. *)
Definition no_key (key : option string) : bool :=
  match key with
  | None => true
  | Some k => String.eqb k EmptyString
  end.

(** [FundAnalyticsChatbot.__init__]: [env_key] is what
    [os.getenv('OPENAI_API_KEY')] answers and [client] what the constructor
    of the client does. *)
Definition new_chatbot (folder : data_folder) (api_key env_key : option string)
    (client : outcome unit) : outcome FundAnalyticsChatbot :=
  let ex := __init__ folder in
  let key := if no_key api_key then env_key else api_key in
  if no_key key then Raise ValueError
  else obind client (fun _ => Return {| executor := ex |}).

(** [lifespan], start-up part: the value of the global [chatbot] when the
    application starts to serve. *)
Definition lifespan (folder : data_folder) (env_key : option string)
    (client : outcome unit) : option FundAnalyticsChatbot :=
  if no_key env_key then None
  else match new_chatbot folder None env_key client with
       | Return bot => Some bot
       | Raise _ => None
       end.

Definition is_loaded (df : option DataFrame) : bool :=
  match df with Some _ => true | None => false end.

(** The body of the answer of [GET /api/health]. *)
Record health : Type := {
  status : string;
  chatbot_initialized : bool;
  data_loaded : bool
}.

(** [health_check] *)
Definition health_check (chatbot : option FundAnalyticsChatbot) : health :=
  {| status := "healthy";
     chatbot_initialized := match chatbot with Some _ => true | None => false end;
     data_loaded :=
       match chatbot with
       | Some bot =>
           is_loaded (trades_df (executor bot)) ||
           is_loaded (holdings_df (executor bot))
       | None => false
       end |}.

(** What [GET /api/columns] sends back: the columns, an HTTP 503, or the
    HTTP 500 made from an exception. *)
Inductive columns_result : Type :=
| Columns (columns : list (string * list string))
| NotInitialized (status_code : nat) (detail : string)
| ColumnsFailed (status_code : nat) (e : exn).

(** [get_columns] *)
Definition get_columns (chatbot : option FundAnalyticsChatbot) : columns_result :=
  match chatbot with
  | None => NotInitialized 503 "Chatbot not initialized"
  | Some bot =>
      match get_available_columns (executor bot) with
      | (Return columns, _) => Columns columns
      | (Raise e, _) => ColumnsFailed 500 e
      end
  end.

End Endpoints.

(** * Further notions and plans *)
Module MoreNotions.
Import Executor Notions.

(** The plan that counts the rows of [file]. *)
Definition count_all (file : string) : pydict :=
  [("files", JList [JStr file]); ("operation", JStr "count")].

(** The plan that counts the rows of [file] per value of [g]. *)
Definition count_by (file g : string) : pydict :=
  [("files", JList [JStr file]); ("operation", JStr "count");
   ("group_by", JStr g)].

(** The plan that counts the values of [metric] per value of [g]. *)
Definition count_values_by (file metric g : string) : pydict :=
  [("files", JList [JStr file]); ("operation", JStr "aggregate");
   ("metric", JStr metric); ("aggregation", JStr "count");
   ("group_by", JStr g)].

(** The plan that counts the rows of [file] that pass [filters]. *)
Definition count_where (file : string) (filters : list json) : pydict :=
  [("files", JList [JStr file]); ("operation", JStr "count");
   ("filters", JList filters)].

(** The cell holds a value. *)
Definition is_loaded_cell {A} (cell : option A) : bool :=
  match cell with Some _ => true | None => false end.

(** No cell of the column is missing. *)
Definition complete (c : column) : bool :=
  match c with
  | NumCol cells => forallb is_loaded_cell cells
  | ObjCol cells => forallb is_loaded_cell cells
  end.

(** The number of values of column [c] on the rows of group [k]. *)
Definition values_in_group (keys : list (option key)) (k : key) (c : column)
    : nat :=
  match c with
  | NumCol cells => List.length (present (group_cells keys k cells))
  | ObjCol cells => List.length (present (group_cells keys k cells))
  end.

(** Two plans with the same entries, but for [sort] and [limit]. *)
Definition agree_but_order (plan plan' : pydict) : Prop :=
  forall k, k <> "sort" -> k <> "limit" -> dict_get plan k = dict_get plan' k.

(** [y] has the value of [x]: neither is below the other. *)
Definition ties_with (x y : item) : bool :=
  negb (value_ltb (snd x) (snd y)) && negb (value_ltb (snd y) (snd x)).

(** A limit the slice accepts: absent, or an integer. *)
Definition integer_limit (plan : pydict) : bool :=
  match dict_get plan "limit" with
  | None | Some (JNum _) => true
  | Some _ => false
  end.

(** A folder in which no file can be read. *)
Definition nothing_loaded (self : QueryExecutor) : Prop :=
  trades_df self = None /\ holdings_df self = None.

(** A pandas instance that compares a numeric column with a number for
    equality, cell by cell, a missing cell comparing unequal; everything
    else is left outside. *)
Definition number_equals (op : filter_op) (series : column) (value : json)
    : outcome (list bool) :=
  match op, series, value with
  | OpEq, NumCol cells, JNum n =>
      Return (map (fun c => match c with Some x => x =? n | None => false end)
                  cells)
  | _, _, _ => Reference.outside_model
  end.

Definition equality_pandas : PandasOps := {|
  reduce_inexact := fun _ _ _ => SNaN;
  sorted_unordered := fun items _ => items;
  series_compare := number_equals;
  reduce_object := fun _ _ => Reference.outside_model;
  group_reduce_object := fun _ _ => Reference.outside_model;
  select_unhashable := fun _ _ _ _ => Reference.outside_model;
  sort_values := fun _ _ => Reference.outside_model;
  head := fun _ _ => Reference.outside_model
|}.

(** The clause [PL == 100]. *)
Definition profit_is_100 : json :=
  JObj [("column", JStr "PL"); ("operator", JStr "=="); ("value", JNum 100)].

(** The rows of the example's holdings that pass it. *)
Definition holdings_with_profit_100 : DataFrame :=
  [("Fund", ObjCol [Some "A"]); ("PL", NumCol [Some 100])].

(** What a frame keeps under the filters. *)
Definition narrowed (df df' : DataFrame) : Prop :=
  columns df' = columns df /\
  (len df' <= len df)%nat /\
  (rectangular df = true -> rectangular df' = true).

(** Two trades tables with the same columns, and executors that hold one
    of them beside the holdings of the example. *)
Definition example_trades : DataFrame :=
  [("Fund", ObjCol [Some "A"; Some "B"]); ("Quantity", NumCol [Some 10; Some 5])].

Definition other_trades : DataFrame :=
  [("Fund", ObjCol [Some "C"]); ("Quantity", NumCol [None])].

Definition both_tables (trades : DataFrame) : QueryExecutor :=
  {| trades_df := Some trades; holdings_df := Some Examples.example_holdings |}.

Definition plan_over_both_tables : pydict :=
  [("files", JList [JStr "holdings.csv"; JStr "trades.csv"]);
   ("operation", JStr "count"); ("group_by", JStr "Fund")].

(** A folder whose trades can be read and whose holdings cannot. *)
Definition unreadable_holdings : Loading.data_folder :=
  {| Loading.trades_csv := Some (Return example_trades);
     Loading.holdings_csv := Some (Raise (OtherError "ParserError")) |}.

(** The plan that reduces [metric] over the whole table [file]. *)
Definition reduce_whole (file metric aggregation : string) : pydict :=
  [("files", JList [JStr file]); ("operation", JStr "aggregate");
   ("metric", JStr metric); ("aggregation", JStr aggregation)].

End MoreNotions.

(** * Properties *)

(** ** Facts about the pandas fragment *)
Module PandasFacts.
Import Notions.

Lemma key_eqb_spec (a b : key) : reflect (a = b) (key_eqb a b).
Proof.
  destruct a as [x | s], b as [y | t]; simpl; try (constructor; discriminate).
  - destruct (Z.eqb_spec x y); constructor; congruence.
  - destruct (String.eqb_spec s t); constructor; congruence.
Qed.

Lemma key_eqb_refl (k : key) : key_eqb k k = true.
Proof. destruct (key_eqb_spec k k); congruence. Qed.

Lemma existsb_key_eqb (k : key) (ks : list key) :
  existsb (key_eqb k) ks = true <-> In k ks.
Proof.
  rewrite existsb_exists. split.
  - intros (x & Hin & Heq). destruct (key_eqb_spec k x); congruence.
  - intros Hin. exists k. split; [exact Hin | apply key_eqb_refl].
Qed.

Lemma in_insert_sorted (x k : key) (ks : list key) :
  In x (insert_sorted k ks) <-> x = k \/ In x ks.
Proof.
  induction ks as [| k' ks IH]; simpl.
  - intuition.
  - destruct (key_ltb k k'); simpl; rewrite ?IH; intuition.
Qed.

Lemma nodup_insert_sorted (k : key) (ks : list key) :
  ~ In k ks -> NoDup ks -> NoDup (insert_sorted k ks).
Proof.
  induction ks as [| k' ks IH]; simpl; intros Hk Hnd.
  - constructor; [intros [] | constructor].
  - destruct (key_ltb k k').
    + constructor; [exact Hk | exact Hnd].
    + inversion Hnd as [| ? ? Hk' Hnd']; subst. constructor.
      * rewrite in_insert_sorted. intros [-> | Hin]; [apply Hk; now left | contradiction].
      * apply IH; [intros Hin; apply Hk; now right | exact Hnd'].
Qed.

Lemma in_add_key (x k : key) (ks : list key) :
  In x (add_key k ks) <-> x = k \/ In x ks.
Proof.
  unfold add_key. destruct (existsb (key_eqb k) ks) eqn:E.
  - apply existsb_key_eqb in E. split; [now right | intros [-> | H]; assumption].
  - apply in_insert_sorted.
Qed.

Lemma nodup_add_key (k : key) (ks : list key) :
  NoDup ks -> NoDup (add_key k ks).
Proof.
  intros Hnd. unfold add_key. destruct (existsb (key_eqb k) ks) eqn:E.
  - exact Hnd.
  - apply nodup_insert_sorted; [| exact Hnd].
    intros Hin. apply existsb_key_eqb in Hin. congruence.
Qed.

(** The group index holds exactly the keys that occur, each once. *)
Lemma in_group_keys (k : key) (keys : list (option key)) :
  In k (group_keys keys) <-> In (Some k) keys.
Proof.
  induction keys as [| [k' |] keys IH]; simpl.
  - tauto.
  - rewrite in_add_key, IH. split.
    + intros [-> | H]; auto.
    + intros [H | H]; [left; congruence | auto].
  - rewrite IH. split; [auto | intros [H | H]; [discriminate | exact H]].
Qed.

Lemma nodup_group_keys (keys : list (option key)) : NoDup (group_keys keys).
Proof.
  induction keys as [| [k |] keys IH]; simpl.
  - constructor.
  - apply nodup_add_key, IH.
  - exact IH.
Qed.

Lemma total_present_cons (c : option Z) (cells : list (option Z)) :
  total (present (c :: cells)) = cell_value c + total (present cells).
Proof. destruct c; simpl; lia. Qed.

Lemma sum_indicator (ks : list key) (ok : option key) (v : Z) :
  NoDup ks ->
  total (map (fun k => if is_key k ok then v else 0) ks) =
  if match ok with Some k => existsb (key_eqb k) ks | None => false end
  then v else 0.
Proof.
  intros Hnd. destruct ok as [k0 |]; simpl.
  - induction Hnd as [| k ks Hk Hnd IH]; simpl; [reflexivity |].
    rewrite IH. destruct (key_eqb_spec k k0) as [-> | Hne].
    + rewrite key_eqb_refl. simpl.
      destruct (existsb (key_eqb k0) ks) eqn:E; [| lia].
      apply existsb_key_eqb in E. contradiction.
    + destruct (key_eqb_spec k0 k) as [-> | _]; [contradiction |]. simpl. lia.
  - induction ks as [| k ks IH]; simpl; [reflexivity |].
    inversion Hnd; subst. rewrite IH by assumption. reflexivity.
Qed.

Lemma total_map_add {A} (f g : A -> Z) (xs : list A) :
  total (map (fun x => f x + g x) xs) = total (map f xs) + total (map g xs).
Proof. induction xs as [| x xs IH]; simpl; lia. Qed.

Lemma total_map_zero {A} (xs : list A) : total (map (fun _ => 0) xs) = 0.
Proof. induction xs as [| x xs IH]; simpl; lia. Qed.

(** Summing the per-group sums over a duplicate-free set of keys [ks] sums
    the cells of the rows whose key is in [ks]. *)
Lemma total_over_groups (ks : list key) (keys : list (option key))
    (cells : list (option Z)) :
  NoDup ks ->
  total (map (fun k => total (present (group_cells keys k cells))) ks) =
  total (present (take
    (map (fun ok => match ok with
                    | Some k => existsb (key_eqb k) ks
                    | None => false
                    end) keys) cells)).
Proof.
  intros Hnd. revert cells.
  induction keys as [| ok keys IH]; intros cells.
  - unfold group_cells. simpl. apply total_map_zero.
  - destruct cells as [| c cells].
    + unfold group_cells. simpl. apply total_map_zero.
    + transitivity
        (total (map (fun k => (if is_key k ok then cell_value c else 0)
                              + total (present (group_cells keys k cells))) ks)).
      * f_equal. apply map_ext. intros k. unfold group_cells. simpl.
        destruct (is_key k ok); [apply total_present_cons | lia].
      * rewrite total_map_add, IH, sum_indicator by exact Hnd.
        simpl.
        destruct (match ok with Some k => existsb (key_eqb k) ks | None => false end);
          [rewrite total_present_cons |]; lia.
Qed.

Lemma group_index_mask (keys : list (option key)) :
  map (fun ok => match ok with
                 | Some k => existsb (key_eqb k) (group_keys keys)
                 | None => false
                 end) keys = keyed keys.
Proof.
  unfold keyed. apply map_ext_in. intros [k |] Hin; [| reflexivity].
  apply existsb_key_eqb, in_group_keys, Hin.
Qed.





Section WithPandas.
Context {pandas : PandasOps}.



End WithPandas.

Lemma col_keys_length (c : column) : List.length (col_keys c) = col_length c.
Proof. destruct c; simpl; apply length_map. Qed.

Lemma find_column_length (df : DataFrame) (name : string) (c : column) :
  rectangular df = true -> find_column df name = Some c ->
  col_length c = len df.
Proof.
  unfold rectangular. generalize (len df) as n. intros n.
  induction df as [| [n' c'] df IH]; simpl; [discriminate |].
  intros H. apply andb_prop in H. destruct H as [H1 H2].
  destruct (String.eqb name n').
  - intros [= <-]. now apply Nat.eqb_eq.
  - apply IH, H2.
Qed.

End PandasFacts.

Module ReadOnly.
Import Executor Notions.
Local Open Scope method_scope.

(** ** The executor object is only read *)

Lemma read_only_ret {A} (a : A) : read_only (ret a).
Proof. intros self. reflexivity. Qed.

Lemma read_only_lift {A} (o : outcome A) : read_only (lift o).
Proof. intros self. reflexivity. Qed.

Lemma read_only_read {A} (field : QueryExecutor -> A) : read_only (read field).
Proof. intros self. reflexivity. Qed.

Lemma read_only_bind {A B} (c : M A) (k : A -> M B) :
  read_only c -> (forall a, read_only (k a)) -> read_only (bind c k).
Proof.
  intros Hc Hk self. unfold bind.
  specialize (Hc self). destruct (c self) as [[a | e] self']; simpl in *; subst.
  - apply Hk.
  - reflexivity.
Qed.

Lemma read_only_try {A} (body : M A) (handler : exn -> M A) :
  read_only body -> (forall e, read_only (handler e)) ->
  read_only (try_except body handler).
Proof.
  intros Hb Hh self. unfold try_except.
  specialize (Hb self). destruct (body self) as [[a | e] self']; simpl in *; subst.
  - reflexivity.
  - apply Hh.
Qed.

Create HintDb read_only.
#[local] Hint Resolve read_only_ret read_only_lift read_only_read : read_only.

Ltac read_only_step :=
  match goal with
  | |- read_only (if ?b then _ else _) => destruct b
  | |- read_only (match ?x with _ => _ end) => destruct x
  | |- read_only (bind _ _) => apply read_only_bind; [| intros ?]
  | |- read_only (try_except _ _) => apply read_only_try; [| intros ?]
  | |- read_only _ => solve [auto with read_only]
  end.

Lemma read_only_get_dataframe filename : read_only (_get_dataframe filename).
Proof.
  unfold _get_dataframe. repeat read_only_step.
Qed.

#[local] Hint Resolve read_only_get_dataframe : read_only.

Lemma read_only_validate_files files : read_only (validate_files files).
Proof.
  induction files as [| file rest IH]; cbn [validate_files];
    repeat read_only_step.
Qed.

Lemma read_only_validate_columns plan files : read_only (validate_columns plan files).
Proof.
  induction files as [| file rest IH]; cbn [validate_columns];
    repeat read_only_step.
Qed.

#[local] Hint Resolve read_only_validate_files read_only_validate_columns
  : read_only.

Lemma read_only_validate_plan plan : read_only (_validate_plan plan).
Proof.
  unfold _validate_plan. repeat read_only_step.
Qed.

#[local] Hint Resolve read_only_validate_plan : read_only.

Section WithPandas.
Context {pandas : PandasOps}.

Lemma read_only_execute_body plan : read_only (execute_body plan).
Proof.
  unfold execute_body. repeat read_only_step.
Qed.

(** C9. Whatever the plan, and whether the call succeeds, fails or raises,
    [execute_plan] leaves the executor with the [trades_df] and
    [holdings_df] it had: filters, grouping and reducers work on values of
    their own. *)
Theorem execute_plan_leaves_tables_unchanged :
  forall (plan : pydict) (self : QueryExecutor),
    let self' := snd (execute_plan plan self) in
    self' = self /\
    trades_df self' = trades_df self /\
    holdings_df self' = holdings_df self.
Proof.
  intros plan self self'.
  assert (H : self' = self).
  { subst self'. revert self. fold (read_only (execute_plan plan)).
    unfold execute_plan. repeat read_only_step.
    apply read_only_execute_body. }
  rewrite H. auto.
Qed.

End WithPandas.
End ReadOnly.

Module PlanFacts.
Import Executor Notions.
Local Open Scope method_scope.

Lemma loaded_allowed self file df :
  loaded self file df -> in_strs (JStr file) ALLOWED_FILES = true.
Proof.
  unfold loaded, _get_dataframe, in_strs, ALLOWED_FILES. simpl.
  destruct (String.eqb file "trades.csv"); [reflexivity |].
  destruct (String.eqb file "holdings.csv"); [reflexivity |].
  discriminate.
Qed.


Lemma find_column_in_columns df name c :
  find_column df name = Some c -> existsb (String.eqb name) (columns df) = true.
Proof.
  induction df as [| [n c'] df IH]; simpl; [discriminate |].
  destruct (String.eqb name n); [reflexivity | exact IH].
Qed.

Lemma truthy_name name : name <> EmptyString -> truthy (JStr name) = true.
Proof.
  intros H. simpl. destruct (String.eqb_spec name EmptyString); [contradiction | reflexivity].
Qed.


Lemma validate_named_column_skipped plan field df file :
  present_and_truthy plan field = false ->
  validate_named_column plan field df file = Return Pass.
Proof. intros H. unfold validate_named_column. rewrite H. reflexivity. Qed.


Section WithPandas.
Context {pandas : PandasOps}.

Lemma no_filters_applied plan df :
  no_filters plan = true -> apply_filters plan df = Return df.
Proof.
  unfold no_filters, apply_filters, present_and_truthy, dict_getitem.
  destruct (dict_get plan "filters") as [[| | | | | [|] |] |]; try discriminate; reflexivity.
Qed.




End WithPandas.
End PlanFacts.

Module GroupedSum.
Import Executor Notions Examples PandasFacts PlanFacts.

Section WithPandas.
Context {pandas : PandasOps}.



End WithPandas.

Import Reference.



End GroupedSum.

Module ValidatorFacts.
Import Executor Notions PlanFacts.
Local Open Scope method_scope.

Lemma get_dataframe_stored self filename :
  _get_dataframe filename self = (Return (stored self filename), self).
Proof.
  unfold _get_dataframe, stored.
  destruct (eq_str filename "trades.csv"); [reflexivity |].
  destruct (eq_str filename "holdings.csv"); reflexivity.
Qed.

Lemma validate_files_run self files :
  validate_files files self = (Return (files_verdict self files), self).
Proof.
  induction files as [| file rest IH]; cbn [validate_files files_verdict];
    [reflexivity |].
  destruct (negb (in_strs file ALLOWED_FILES)); [reflexivity |].
  unfold bind. rewrite get_dataframe_stored.
  destruct (stored self file); [exact IH | reflexivity].
Qed.

Lemma files_verdict_pass self files :
  files_verdict self files = Pass <->
  (forall file, In file files ->
     in_strs file ALLOWED_FILES = true /\ stored self file <> None).
Proof.
  induction files as [| file rest IH]; cbn [files_verdict].
  - split; [intros _ file [] | reflexivity].
  - destruct (in_strs file ALLOWED_FILES) eqn:Ha; cbn [negb].
    + destruct (stored self file) eqn:Hs.
      * rewrite IH. split.
        -- intros H f [<- | Hin]; [split; [exact Ha | congruence] | apply H, Hin].
        -- intros H f Hin. apply H. now right.
      * split; [discriminate |]. intros H.
        destruct (H file (or_introl eq_refl)) as [_ Hne]. congruence.
    + split; [discriminate |]. intros H.
      destruct (H file (or_introl eq_refl)) as [Hf _]. congruence.
Qed.

Lemma validate_columns_run self plan files :
  validate_columns plan files self = (columns_verdict self plan files, self).
Proof.
  induction files as [| file rest IH]; cbn [validate_columns columns_verdict];
    [reflexivity |].
  unfold bind, lift. rewrite get_dataframe_stored.
  destruct (validate_columns_in plan (stored self file) file) as [[| why] | e];
    cbn [obind]; [exact IH | reflexivity | reflexivity].
Qed.

Lemma validate_plan_run self plan :
  _validate_plan plan self = (plan_verdict self plan, self).
Proof.
  unfold _validate_plan, plan_verdict, has_key, dict_getitem.
  destruct (dict_get plan "files") as [files |]; cbn [negb]; [| reflexivity].
  destruct (dict_get plan "operation") as [operation |]; cbn [negb];
    [| destruct files; reflexivity].
  unfold bind, lift.
  destruct files; try reflexivity.
  rewrite validate_files_run.
  destruct (files_verdict self items); [| reflexivity].
  destruct (negb (in_strs operation ALLOWED_OPERATIONS)); [reflexivity |].
  destruct (validate_aggregation plan operation); [| reflexivity].
  apply validate_columns_run.
Qed.

(** *** What a passing verdict guarantees *)

Lemma in_columns_true key df :
  in_columns key df = Return true ->
  exists name, key = JStr name /\ In name (columns df).
Proof.
  destruct key; simpl; try discriminate.
  intros [= H]. exists s. split; [reflexivity |].
  apply existsb_exists in H. destruct H as (n & Hin & Heq).
  apply String.eqb_eq in Heq. subst. exact Hin.
Qed.

Lemma in_columns_name name df :
  in_columns (JStr name) df = Return (existsb (String.eqb name) (columns df)).
Proof. reflexivity. Qed.

Lemma existsb_eqb_in name names :
  existsb (String.eqb name) names = true <-> In name names.
Proof.
  rewrite existsb_exists. split.
  - intros (n & Hin & Heq). apply String.eqb_eq in Heq. now subst.
  - intros Hin. exists name. split; [exact Hin | apply String.eqb_refl].
Qed.

Lemma named_column_pass plan field df file v :
  validate_named_column plan field (Some df) file = Return Pass ->
  dict_get plan field = Some v -> truthy v = true ->
  in_columns v df = Return true.
Proof.
  unfold validate_named_column, present_and_truthy, dict_getitem.
  intros H Hget Ht. rewrite Hget, Ht in H. cbn [obind not_in_columns] in H.
  destruct (in_columns v df) as [[|] | e]; simpl in H;
    [reflexivity | discriminate | discriminate].
Qed.

Lemma filter_items_pass items df file fields column :
  validate_filter_items items (Some df) file = Return Pass ->
  In (JObj fields) items -> dict_get fields "column" = Some column ->
  in_columns column df = Return true.
Proof.
  induction items as [| item rest IH]; cbn [validate_filter_items]; [intros _ [] |].
  intros H Hin Hget.
  destruct (validate_filter_item item (Some df) file) as [[| why] | e] eqn:Hitem;
    cbn [obind] in H; try discriminate.
  destruct Hin as [-> | Hin]; [| now apply IH].
  unfold validate_filter_item in Hitem. cbn [contains_str obind] in Hitem.
  unfold has_key in Hitem. cbn [getitem_str] in Hitem. rewrite Hget in Hitem.
  cbn [obind not_in_columns] in Hitem.
  destruct (in_columns column df) as [[|] | e]; simpl in Hitem;
    [reflexivity | discriminate | discriminate].
Qed.

Lemma columns_in_pass plan df file name :
  validate_columns_in plan (Some df) file = Return Pass ->
  names_column plan name -> In name (columns df).
Proof.
  unfold validate_columns_in. intros H Hname.
  destruct (validate_named_column plan "group_by" (Some df) file)
    as [[| why] | e] eqn:Hg; cbn [obind] in H; try discriminate.
  destruct (validate_named_column plan "metric" (Some df) file)
    as [[| why] | e] eqn:Hm; cbn [obind] in H; try discriminate.
  assert (Hin : in_columns (JStr name) df = Return true).
  { destruct Hname as [Hget Hne | Hget Hne | items fields Hget Hin Hcol].
    - exact (named_column_pass plan "group_by" df file (JStr name) Hg Hget
               (truthy_name name Hne)).
    - exact (named_column_pass plan "metric" df file (JStr name) Hm Hget
               (truthy_name name Hne)).
    - unfold has_key, dict_getitem in H. rewrite Hget in H.
      cbn [obind iterate] in H.
      exact (filter_items_pass items df file fields (JStr name) H Hin Hcol). }
  apply in_columns_true in Hin. destruct Hin as (n & [= <-] & Hin). exact Hin.
Qed.

Lemma columns_verdict_pass self plan files file :
  columns_verdict self plan files = Return Pass -> In file files ->
  validate_columns_in plan (stored self file) file = Return Pass.
Proof.
  induction files as [| f rest IH]; cbn [columns_verdict]; [intros _ [] |].
  intros H Hin.
  destruct (validate_columns_in plan (stored self f) f) as [[| why] | e] eqn:Hf;
    cbn [obind] in H; try discriminate.
  destruct Hin as [<- | Hin]; [exact Hf | now apply IH].
Qed.

Lemma plan_verdict_pass self plan :
  plan_verdict self plan = Return Pass -> accepted self plan.
Proof.
  unfold plan_verdict. intros H.
  destruct (dict_get plan "files") as [files |] eqn:Hfiles; [| discriminate].
  destruct (dict_get plan "operation") as [operation |] eqn:Hop;
    [| destruct files; discriminate].
  destruct files as [| | | | | files |]; try discriminate.
  destruct (files_verdict self files) eqn:Hfv; [| discriminate].
  destruct (in_strs operation ALLOWED_OPERATIONS) eqn:Hallowed;
    cbn [negb] in H; [| discriminate].
  destruct (validate_aggregation plan operation) eqn:Hagg; [| discriminate].
  constructor.
  - exists files. split; [exact Hfiles |]. now apply files_verdict_pass.
  - exists operation. split; [exact Hop | exact Hallowed].
  - intros Hop'. rewrite Hop in Hop'. injection Hop' as ->.
    unfold validate_aggregation in Hagg.
    cbn [eq_str String.eqb Ascii.eqb Bool.eqb] in Hagg.
    destruct (dict_get plan "aggregation") as [a |]; [| discriminate].
    exists a. split; [reflexivity |].
    destruct (in_strs a ALLOWED_AGGREGATIONS); [reflexivity | discriminate].
  - intros fs file df name Hfs Hin Hs Hname.
    rewrite Hfiles in Hfs. injection Hfs as <-.
    pose proof (columns_verdict_pass _ _ _ _ H Hin) as Hc.
    rewrite Hs in Hc. eapply columns_in_pass; eauto.
Qed.

(** *** Plans on which the validator cannot raise *)

Lemma in_columns_hashable key df :
  hashable key = true -> exists b, in_columns key df = Return b.
Proof. destruct key; simpl; try discriminate; eauto. Qed.

Lemma named_column_total plan field df file :
  hashable_field plan field = true ->
  exists v, validate_named_column plan field (Some df) file = Return v.
Proof.
  unfold hashable_field, validate_named_column, present_and_truthy, dict_getitem.
  destruct (dict_get plan field) as [v |]; [| eauto].
  intros Hh. destruct (truthy v); [| eauto]. cbn [obind not_in_columns].
  destruct (in_columns_hashable v df Hh) as [b ->]. cbn [obind].
  destruct (negb b); eauto.
Qed.

Lemma filter_items_total items df file :
  forallb well_typed_filter items = true ->
  exists v, validate_filter_items items (Some df) file = Return v.
Proof.
  induction items as [| item rest IH]; cbn [validate_filter_items forallb];
    [eauto |].
  intros H. apply andb_prop in H. destruct H as [Hitem Hrest].
  destruct item; try discriminate. unfold validate_filter_item.
  cbn [contains_str obind getitem_str]. unfold has_key.
  unfold well_typed_filter, hashable_field in Hitem.
  destruct (dict_get fields "column") as [c |]; cbn [obind].
  - cbn [not_in_columns]. destruct (in_columns_hashable c df Hitem) as [b ->].
    cbn [obind]. destruct (negb b); cbn [obind]; eauto.
  - apply IH, Hrest.
Qed.

Lemma columns_in_total plan df file :
  well_typed plan = true ->
  exists v, validate_columns_in plan (Some df) file = Return v.
Proof.
  unfold well_typed. intros H.
  apply andb_prop in H. destruct H as [H Hf].
  apply andb_prop in H. destruct H as [Hg Hm].
  unfold validate_columns_in.
  destruct (named_column_total plan "group_by" df file Hg) as [[| why] ->];
    cbn [obind]; [| eauto].
  destruct (named_column_total plan "metric" df file Hm) as [[| why] ->];
    cbn [obind]; [| eauto].
  unfold has_key, dict_getitem.
  destruct (dict_get plan "filters") as [filters |]; [| eauto].
  destruct filters; try discriminate. cbn [obind iterate].
  apply filter_items_total, Hf.
Qed.

Lemma columns_verdict_total self plan files :
  well_typed plan = true ->
  (forall file, In file files -> stored self file <> None) ->
  exists v, columns_verdict self plan files = Return v.
Proof.
  intros Hwt. induction files as [| file rest IH]; cbn [columns_verdict];
    [eauto |].
  intros Hstored.
  destruct (stored self file) as [df |] eqn:Hs;
    [| exfalso; apply (Hstored file); [now left | exact Hs]].
  destruct (columns_in_total plan df file Hwt) as [[| why] ->]; cbn [obind];
    [| eauto].
  apply IH. intros f Hin. apply Hstored. now right.
Qed.

Lemma plan_verdict_total self plan :
  well_typed plan = true -> exists v, plan_verdict self plan = Return v.
Proof.
  intros Hwt. unfold plan_verdict.
  destruct (dict_get plan "files") as [files |]; [| eauto].
  destruct (dict_get plan "operation") as [operation |];
    [| destruct files; eauto].
  destruct files; eauto.
  destruct (files_verdict self items) eqn:Hfv; [| eauto].
  destruct (negb (in_strs operation ALLOWED_OPERATIONS)); [eauto |].
  destruct (validate_aggregation plan operation); [| eauto].
  apply columns_verdict_total; [exact Hwt |].
  intros file Hin. now apply (proj1 (files_verdict_pass self items) Hfv).
Qed.

(** *** The verdict depends on the schemas only *)

Lemma same_schema_stored a b file :
  same_schema a b ->
  option_map columns (stored a file) = option_map columns (stored b file).
Proof.
  intros [Ht Hh]. unfold stored.
  destruct (eq_str file "trades.csv"); [exact Ht |].
  destruct (eq_str file "holdings.csv"); [exact Hh | reflexivity].
Qed.

Lemma not_in_columns_schema key d1 d2 :
  option_map columns d1 = option_map columns d2 ->
  not_in_columns key d1 = not_in_columns key d2.
Proof.
  destruct d1 as [df1 |], d2 as [df2 |]; simpl; try discriminate; [| reflexivity].
  intros [= H]. unfold in_columns. rewrite H. reflexivity.
Qed.

Lemma filter_items_schema items d1 d2 file :
  option_map columns d1 = option_map columns d2 ->
  validate_filter_items items d1 file = validate_filter_items items d2 file.
Proof.
  intros H. induction items as [| item rest IH]; cbn [validate_filter_items];
    [reflexivity |].
  unfold validate_filter_item.
  destruct (contains_str item "column") as [[|] | e]; cbn [obind];
    [| exact IH | reflexivity].
  destruct (getitem_str item "column") as [c | e]; cbn [obind]; [| reflexivity].
  rewrite (not_in_columns_schema c d1 d2 H).
  destruct (not_in_columns c d2) as [[|] | e]; cbn [obind];
    [reflexivity | exact IH | reflexivity].
Qed.

Lemma named_column_schema plan field d1 d2 file :
  option_map columns d1 = option_map columns d2 ->
  validate_named_column plan field d1 file =
  validate_named_column plan field d2 file.
Proof.
  intros H. unfold validate_named_column.
  destruct (present_and_truthy plan field); [| reflexivity].
  destruct (dict_getitem plan field) as [c | e]; cbn [obind]; [| reflexivity].
  rewrite (not_in_columns_schema c d1 d2 H). reflexivity.
Qed.

Lemma columns_in_schema plan d1 d2 file :
  option_map columns d1 = option_map columns d2 ->
  validate_columns_in plan d1 file = validate_columns_in plan d2 file.
Proof.
  intros H. unfold validate_columns_in.
  rewrite (named_column_schema plan "group_by" d1 d2 file H).
  destruct (validate_named_column plan "group_by" d2 file) as [[| why] | e];
    cbn [obind]; try reflexivity.
  rewrite (named_column_schema plan "metric" d1 d2 file H).
  destruct (validate_named_column plan "metric" d2 file) as [[| why] | e];
    cbn [obind]; try reflexivity.
  destruct (has_key plan "filters"); [| reflexivity].
  destruct (dict_getitem plan "filters") as [filters | e]; cbn [obind];
    [| reflexivity].
  destruct (iterate filters) as [items | e]; cbn [obind]; [| reflexivity].
  apply filter_items_schema, H.
Qed.

Lemma files_verdict_schema a b files :
  same_schema a b -> files_verdict a files = files_verdict b files.
Proof.
  intros Hs. induction files as [| file rest IH]; cbn [files_verdict];
    [reflexivity |].
  destruct (negb (in_strs file ALLOWED_FILES)); [reflexivity |].
  pose proof (same_schema_stored a b file Hs) as H.
  destruct (stored a file), (stored b file); simpl in H; try discriminate;
    [exact IH | reflexivity].
Qed.

Lemma columns_verdict_schema a b plan files :
  same_schema a b -> columns_verdict a plan files = columns_verdict b plan files.
Proof.
  intros Hs. induction files as [| file rest IH]; cbn [columns_verdict];
    [reflexivity |].
  rewrite (columns_in_schema plan _ _ file (same_schema_stored a b file Hs)).
  destruct (validate_columns_in plan (stored b file) file) as [[| why] | e];
    cbn [obind]; [exact IH | reflexivity | reflexivity].
Qed.

Lemma plan_verdict_schema a b plan :
  same_schema a b -> plan_verdict a plan = plan_verdict b plan.
Proof.
  intros Hs. unfold plan_verdict.
  destruct (dict_get plan "files") as [files |]; [| reflexivity].
  destruct (dict_get plan "operation") as [operation |]; [| reflexivity].
  destruct files; try reflexivity.
  rewrite (files_verdict_schema a b items Hs),
    (columns_verdict_schema a b plan items Hs).
  reflexivity.
Qed.

Section WithPandas.
Context {pandas : PandasOps}.

(** [execute_plan] in terms of the verdict. *)
Lemma execute_plan_run self plan :
  execute_plan plan self =
  match plan_verdict self plan with
  | Raise e => (Raise e, self)
  | Return (Fail why) => (Return (failure (ValidationMessage why)), self)
  | Return Pass =>
      match execute_body plan self with
      | (Return r, self') => (Return r, self')
      | (Raise e, self') => (Return (failure (ExceptionMessage e)), self')
      end
  end.
Proof.
  unfold execute_plan, bind. rewrite validate_plan_run.
  destruct (plan_verdict self plan) as [[| why] | e]; reflexivity.
Qed.

End WithPandas.
End ValidatorFacts.

Module ValidatorSpec.
Import Executor Notions Examples ValidatorFacts PlanFacts.
Local Open Scope method_scope.

Lemma loaded_stored self file df :
  loaded self file df <-> stored self (JStr file) = Some df.
Proof.
  unfold loaded. rewrite get_dataframe_stored. split.
  - now intros [= ->].
  - now intros ->.
Qed.

Lemma allowed_aggregation_parses a :
  in_strs a ALLOWED_AGGREGATIONS = true -> exists agg, parse_aggregation a = Some agg.
Proof.
  unfold in_strs, ALLOWED_AGGREGATIONS, parse_aggregation. cbn [existsb].
  destruct (eq_str a "sum"); [eauto |].
  destruct (eq_str a "mean"); [eauto |].
  destruct (eq_str a "min"); [eauto |].
  destruct (eq_str a "max"); [eauto |].
  destruct (eq_str a "count"); [eauto | discriminate].
Qed.

Section WithPandas.
Context {pandas : PandasOps}.

Lemma sort_unbound plan :
  apply_sort plan None = Return None \/ exists e, apply_sort plan None = Raise e.
Proof.
  unfold apply_sort. destruct (present_and_truthy plan "sort"); [| now left].
  right. destruct (dict_getitem plan "sort"); cbn [obind read_local]; eauto.
Qed.

Lemma limit_unbound plan :
  apply_limit plan None = Return None \/ exists e, apply_limit plan None = Raise e.
Proof.
  unfold apply_limit. destruct (present_and_truthy plan "limit"); [| now left].
  right. destruct (dict_getitem plan "limit"); cbn [obind read_local]; eauto.
Qed.

(** When the operation binds no result, the [try] block ends in a failure
    response or in an exception. *)
Lemma body_without_result plan self :
  (forall df r, run_operation plan df <> Return (Some r)) ->
  (exists message, execute_body plan self = (Return (failure message), self)) \/
  (exists e, execute_body plan self = (Raise e, self)).
Proof.
  intros Hnone. unfold execute_body, bind, lift.
  destruct (dict_getitem plan "files") as [files | e]; [| eauto].
  destruct (getitem_0 files) as [filename | e]; [| eauto].
  rewrite get_dataframe_stored.
  destruct (stored self filename) as [df |]; [| left; eexists; reflexivity].
  destruct (apply_filters plan df) as [df' | e]; [| eauto].
  destruct (run_operation plan df') as [[r |] | e] eqn:Hrun;
    [exfalso; eapply Hnone; eauto | | eauto].
  right.
  destruct (sort_unbound plan) as [-> | [e ->]]; [| eauto].
  destruct (limit_unbound plan) as [-> | [e ->]]; [| eauto].
  cbn [read_local]. eauto.
Qed.

Lemma refused_without_result plan self :
  (forall df r, run_operation plan df <> Return (Some r)) ->
  refused plan self.
Proof.
  intros Hnone. unfold refused. rewrite execute_plan_run, validate_plan_run.
  destruct (plan_verdict self plan) as [[| why] | e].
  - left. destruct (body_without_result plan self Hnone) as [[m ->] | [e ->]]; eauto.
  - left. eauto.
  - right. eauto.
Qed.

Lemma no_result_for_other_operations plan operation :
  dict_get plan "operation" = Some operation ->
  eq_str operation "count" = false -> eq_str operation "aggregate" = false ->
  forall df r, run_operation plan df <> Return (Some r).
Proof.
  intros Hop Hc Ha df r. unfold run_operation, dict_getitem.
  rewrite Hop. cbn [obind]. rewrite Hc, Ha. discriminate.
Qed.

Lemma no_result_without_metric plan :
  dict_get plan "operation" = Some (JStr "aggregate") ->
  dict_get plan "metric" = None ->
  forall df r, run_operation plan df <> Return (Some r).
Proof.
  intros Hop Hm df r. unfold run_operation, dict_getitem, get_or.
  rewrite Hop, Hm. cbn [obind eq_str String.eqb Ascii.eqb Bool.eqb hashable].
  destruct (present_and_truthy plan "group_by").
  - destruct (dict_get plan "group_by") as [g |]; cbn [obind]; [| discriminate].
    unfold aggregate_grouped.
    destruct (column_of df g); cbn [obind column_of]; discriminate.
  - unfold aggregate_whole.
    destruct (parse_aggregation _); cbn [obind column_of]; discriminate.
Qed.

(** C3 (amended). The validator fails, with a reason, every plan whose
    [files] is missing or not a list, or lists an identifier other than the two
    known tables or a table that is not loaded, and it passes a plan only if
    every listed file is a known, loaded table. An empty list is not rejected
    by the validator; [execute_plan] then refuses the plan with
    success=false, through the validator for another reason or through the
    [IndexError] of [plan['files'][0]]. *)
Theorem files_must_be_known_and_loaded :
  (forall self plan,
     (dict_get plan "files" = None \/
      exists v, dict_get plan "files" = Some v /\ forall files, v <> JList files) ->
     exists why, _validate_plan plan self = (Return (Fail why), self)) /\
  (forall self plan files file,
     dict_get plan "files" = Some (JList files) -> In file files ->
     in_strs file ALLOWED_FILES = false \/ stored self file = None ->
     exists why, _validate_plan plan self = (Return (Fail why), self)) /\
  (forall self plan,
     _validate_plan plan self = (Return Pass, self) ->
     exists files, dict_get plan "files" = Some (JList files) /\
       forall file, In file files ->
         in_strs file ALLOWED_FILES = true /\ stored self file <> None) /\
  (forall self plan,
     dict_get plan "files" = Some (JList []) ->
     exists message,
       execute_plan plan self = (Return (failure message), self) /\
       ((exists why, message = ValidationMessage why) \/
        message = ExceptionMessage IndexError)).
Proof.
  split; [| split; [| split]].
  - intros self plan H. rewrite validate_plan_run. unfold plan_verdict.
    destruct H as [-> | (v & -> & Hv)]; [eauto |].
    destruct (dict_get plan "operation"); [| destruct v; eauto].
    destruct v; eauto. exfalso. now apply (Hv items).
  - intros self plan files file Hfiles Hin Hbad.
    rewrite validate_plan_run. unfold plan_verdict. rewrite Hfiles.
    destruct (dict_get plan "operation"); [| eauto].
    destruct (files_verdict self files) eqn:Hfv; [| eauto].
    exfalso. destruct (proj1 (files_verdict_pass self files) Hfv file Hin) as [Ha Hs].
    destruct Hbad; congruence.
  - intros self plan H. rewrite validate_plan_run in H. injection H as H.
    apply plan_verdict_pass in H. exact (accepted_files _ _ H).
  - intros self plan Hfiles. rewrite execute_plan_run.
    unfold plan_verdict. rewrite Hfiles. cbn [files_verdict columns_verdict].
    assert (Hbody : execute_body plan self =
                    (Raise IndexError, self)).
    { unfold execute_body, bind, lift, dict_getitem. rewrite Hfiles. reflexivity. }
    rewrite Hbody.
    destruct (dict_get plan "operation") as [operation |]; [| eauto 6].
    destruct (negb (in_strs operation ALLOWED_OPERATIONS)); [eauto 6 |].
    destruct (validate_aggregation plan operation); eauto 6.
Qed.

(** C4 (amended). For a plan whose operation is aggregate the validator
    fails the plan when the aggregation is missing or outside sum, mean, min,
    max, count, and a plan it passes has an allowed aggregation and, when it
    names a metric, a metric that is a column of every listed table. A plan
    without a metric field is not rejected for that by the validator (the
    plan with one loaded file, operation aggregate and an allowed
    aggregation passes); [execute_plan] never succeeds on it, and on that
    plan it returns success=false with the [KeyError] of the column
    selection. *)
Theorem aggregate_checks_aggregation_and_named_metric :
  (forall self plan,
     dict_get plan "operation" = Some (JStr "aggregate") ->
     (dict_get plan "aggregation" = None \/
      exists a, dict_get plan "aggregation" = Some a /\
                in_strs a ALLOWED_AGGREGATIONS = false) ->
     exists why, _validate_plan plan self = (Return (Fail why), self)) /\
  (forall self plan,
     dict_get plan "operation" = Some (JStr "aggregate") ->
     _validate_plan plan self = (Return Pass, self) ->
     (exists a, dict_get plan "aggregation" = Some a /\
                in_strs a ALLOWED_AGGREGATIONS = true) /\
     (forall name files file df,
        dict_get plan "metric" = Some (JStr name) -> name <> EmptyString ->
        dict_get plan "files" = Some (JList files) -> In file files ->
        stored self file = Some df -> In name (columns df))) /\
  (forall self plan,
     dict_get plan "operation" = Some (JStr "aggregate") ->
     dict_get plan "metric" = None ->
     refused plan self) /\
  (forall self file df aggregation,
     loaded self file df ->
     in_strs aggregation ALLOWED_AGGREGATIONS = true ->
     let plan := [("files", JList [JStr file]); ("operation", JStr "aggregate");
                  ("aggregation", aggregation)] in
     _validate_plan plan self = (Return Pass, self) /\
     execute_plan plan self =
       (Return (failure (ExceptionMessage KeyError)), self)).
Proof.
  split; [| split; [| split]].
  - intros self plan Hop Hagg. rewrite validate_plan_run. unfold plan_verdict.
    rewrite Hop. destruct (dict_get plan "files") as [files |]; [| eauto].
    destruct files; eauto.
    destruct (files_verdict self items); [| eauto].
    cbn [in_strs ALLOWED_OPERATIONS existsb eq_str String.eqb Ascii.eqb
         Bool.eqb orb negb].
    unfold validate_aggregation. cbn [eq_str String.eqb Ascii.eqb Bool.eqb].
    destruct Hagg as [-> | (a & -> & ->)]; cbn [negb]; eauto.
  - intros self plan Hop H. rewrite validate_plan_run in H. injection H as H.
    apply plan_verdict_pass in H. split.
    + exact (accepted_aggregation _ _ H Hop).
    + intros name files file df Hm Hne Hfiles Hin Hs.
      apply (accepted_columns _ _ H files file df name Hfiles Hin Hs).
      now apply names_metric.
  - intros self plan Hop Hm.
    apply refused_without_result, no_result_without_metric; assumption.
  - intros self file df aggregation Hload Hagg plan.
    pose proof (loaded_allowed _ _ _ Hload) as Hallowed.
    pose proof (proj1 (loaded_stored _ _ _) Hload) as Hs.
    assert (Hv : plan_verdict self plan = Return Pass).
    { unfold plan_verdict, plan. cbn [dict_get String.eqb Ascii.eqb Bool.eqb].
      cbn [files_verdict]. rewrite Hallowed, Hs. cbn [negb].
      cbn [in_strs ALLOWED_OPERATIONS existsb eq_str String.eqb Ascii.eqb
           Bool.eqb orb negb].
      unfold validate_aggregation.
      cbn [eq_str dict_get String.eqb Ascii.eqb Bool.eqb].
      rewrite Hagg. cbn [negb columns_verdict]. rewrite Hs. reflexivity. }
    split; [rewrite validate_plan_run, Hv; reflexivity |].
    rewrite execute_plan_run, Hv.
    unfold execute_body, bind, lift, dict_getitem, plan.
    cbn [dict_get String.eqb Ascii.eqb Bool.eqb getitem_0]. rewrite Hload.
    unfold apply_filters, present_and_truthy.
    cbn [dict_get String.eqb Ascii.eqb Bool.eqb].
    unfold run_operation, dict_getitem, get_or, present_and_truthy.
    cbn [dict_get String.eqb Ascii.eqb Bool.eqb obind eq_str hashable].
    unfold aggregate_whole.
    destruct (allowed_aggregation_parses aggregation Hagg) as [agg ->].
    reflexivity.
Qed.

(** C6 (amended). The validator's whitelist has six operations: count,
    aggregate, group_by, sort, filter and limit. A plan whose operation is
    outside it fails validation and [execute_plan] returns the validator's
    failure. A plan whose operation is group_by, sort, filter or limit, or
    anything else than count and aggregate, never succeeds: [execute_plan]
    returns success=false, or the validator raises; the plain plan over one
    loaded file with one of these four operations passes validation and
    fails in execution because no result is bound. *)
Theorem only_count_and_aggregate_execute :
  (forall self plan operation,
     dict_get plan "operation" = Some operation ->
     in_strs operation ALLOWED_OPERATIONS = false ->
     exists why,
       _validate_plan plan self = (Return (Fail why), self) /\
       execute_plan plan self = (Return (failure (ValidationMessage why)), self)) /\
  (forall self plan operation,
     dict_get plan "operation" = Some operation ->
     eq_str operation "count" = false -> eq_str operation "aggregate" = false ->
     refused plan self) /\
  (forall self file df operation,
     loaded self file df ->
     In operation ["group_by"; "sort"; "filter"; "limit"] ->
     let plan := [("files", JList [JStr file]); ("operation", JStr operation)] in
     _validate_plan plan self = (Return Pass, self) /\
     execute_plan plan self =
       (Return (failure (ExceptionMessage UnboundLocalError)), self)).
Proof.
  split; [| split].
  - intros self plan operation Hop Hbad.
    rewrite execute_plan_run, validate_plan_run. unfold plan_verdict. rewrite Hop.
    destruct (dict_get plan "files") as [files |]; [| eauto].
    destruct files; eauto.
    destruct (files_verdict self items); [| eauto].
    rewrite Hbad. cbn [negb]. eauto.
  - intros self plan operation Hop Hc Ha.
    eapply refused_without_result, no_result_for_other_operations; eauto.
  - intros self file df operation Hload Hin plan.
    pose proof (loaded_allowed _ _ _ Hload) as Hallowed.
    pose proof (proj1 (loaded_stored _ _ _) Hload) as Hs.
    assert (Hv : plan_verdict self plan = Return Pass).
    { unfold plan_verdict, plan. cbn [dict_get String.eqb Ascii.eqb Bool.eqb].
      cbn [files_verdict]. rewrite Hallowed, Hs. cbn [negb].
      cbn [columns_verdict]. rewrite Hs.
      simpl in Hin. destruct Hin as [<- | [<- | [<- | [<- | []]]]]; reflexivity. }
    split; [rewrite validate_plan_run, Hv; reflexivity |].
    rewrite execute_plan_run, Hv.
    unfold execute_body, bind, lift, dict_getitem, plan.
    cbn [dict_get String.eqb Ascii.eqb Bool.eqb getitem_0]. rewrite Hload.
    simpl in Hin. destruct Hin as [<- | [<- | [<- | [<- | []]]]]; reflexivity.
Qed.

Lemma invalid_verdict self plan :
  invalid self plan -> exists why, plan_verdict self plan = Return (Fail why).
Proof.
  intros [operation Hop Hbad | aggregation Hop Hagg Hbad
          | files file df name Hwt Hfiles Hin Hs Hname Hmissing].
  - unfold plan_verdict. rewrite Hop.
    destruct (dict_get plan "files") as [files |]; [| eauto].
    destruct files; eauto.
    destruct (files_verdict self items); [| eauto].
    rewrite Hbad. cbn [negb]. eauto.
  - unfold plan_verdict. rewrite Hop.
    destruct (dict_get plan "files") as [files |]; [| eauto].
    destruct files; eauto.
    destruct (files_verdict self items); [| eauto].
    cbn [in_strs ALLOWED_OPERATIONS existsb eq_str String.eqb Ascii.eqb
         Bool.eqb orb negb].
    unfold validate_aggregation. cbn [eq_str String.eqb Ascii.eqb Bool.eqb].
    rewrite Hagg, Hbad. cbn [negb]. eauto.
  - destruct (plan_verdict_total self plan Hwt) as [[| why] Hv]; [| eauto].
    exfalso. apply Hmissing.
    exact (accepted_columns _ _ (plan_verdict_pass _ _ Hv)
             files file df name Hfiles Hin Hs Hname).
Qed.

(** C2 (amended). A plan whose operation is outside the whitelist, or whose
    operation is aggregate with an aggregation outside the whitelist, or
    whose fields have the types of the data model and which names, as
    non-empty group-by, non-empty metric or filter column, a column that a
    listed loaded table does not have, is rejected by the validator:
    [execute_plan] returns success=false with the validator's reason and no
    result, and the response is the same for every executor with the same
    schemas, whatever the rows of its tables. *)
Theorem invalid_plan_fails_validation :
  forall self plan,
    invalid self plan ->
    exists why,
      _validate_plan plan self = (Return (Fail why), self) /\
      execute_plan plan self =
        (Return (failure (ValidationMessage why)), self) /\
      forall self', same_schema self self' ->
        execute_plan plan self' =
          (Return (failure (ValidationMessage why)), self').
Proof.
  intros self plan Hinv. destruct (invalid_verdict self plan Hinv) as [why Hv].
  exists why. split; [rewrite validate_plan_run, Hv; reflexivity |].
  split; [rewrite execute_plan_run, Hv; reflexivity |].
  intros self' Hs. rewrite execute_plan_run.
  rewrite <- (plan_verdict_schema self self' plan Hs), Hv. reflexivity.
Qed.

End WithPandas.

Import Reference.

Lemma invalid_plan_fails_validation_witness :
  exists why,
    _validate_plan plan_with_unknown_column example_state =
      (Return (Fail why), example_state) /\
    execute_plan plan_with_unknown_column example_state =
      (Return (failure (ValidationMessage why)), example_state).
Proof.
  destruct (invalid_plan_fails_validation example_state plan_with_unknown_column)
    as (why & H1 & H2 & _).
  - apply (invalid_column example_state plan_with_unknown_column
             [JStr "holdings.csv"] (JStr "holdings.csv") example_holdings
             "Manager").
    + reflexivity.
    + reflexivity.
    + now left.
    + reflexivity.
    + apply names_group_by; [reflexivity | discriminate].
    + simpl. intros [H | [H | []]]; discriminate.
  - exists why. split; assumption.
Defined.

(** An aggregation outside the whitelist is not looked at when the
    operation is count: the plan succeeds. *)
Lemma unknown_aggregation_ignored_for_count :
  in_strs (JStr "median") ALLOWED_AGGREGATIONS = false /\
  execute_plan count_with_unknown_aggregation example_state =
    (Return (succeeded count_with_unknown_aggregation (RScalar (SInt 3))),
     example_state).
Proof. split; reflexivity. Qed.

(** The validator passes a plan whose list of files is empty. *)
Lemma empty_files_pass_validation :
  _validate_plan plan_without_files example_state = (Return Pass, example_state).
Proof. reflexivity. Qed.

Lemma files_must_be_known_and_loaded_witness :
  (exists why,
     _validate_plan [("files", JList [JStr "trades.csv"]); ("operation", JStr "count")]
       example_state = (Return (Fail why), example_state)) /\
  (exists message,
     execute_plan plan_without_files example_state =
       (Return (failure message), example_state)).
Proof.
  destruct files_must_be_known_and_loaded as (_ & Hbad & _ & Hempty). split.
  - apply (Hbad example_state _ [JStr "trades.csv"] (JStr "trades.csv")).
    + reflexivity.
    + now left.
    + right. reflexivity.
  - destruct (Hempty example_state plan_without_files) as (m & Hm & _);
      [reflexivity |].
    exists m. exact Hm.
Defined.

(** The validator passes an aggregate plan that has no metric. *)
Lemma aggregate_without_metric_passes_validation :
  dict_get aggregate_without_metric "metric" = None /\
  _validate_plan aggregate_without_metric example_state =
    (Return Pass, example_state).
Proof. split; reflexivity. Qed.

Lemma aggregate_checks_aggregation_and_named_metric_witness :
  _validate_plan aggregate_without_metric example_state =
    (Return Pass, example_state) /\
  execute_plan aggregate_without_metric example_state =
    (Return (failure (ExceptionMessage KeyError)), example_state).
Proof.
  destruct aggregate_checks_aggregation_and_named_metric as (_ & _ & _ & H).
  apply (H example_state "holdings.csv" example_holdings (JStr "sum"));
    reflexivity.
Defined.

(** The validator passes a plan whose operation is sort. *)
Lemma sort_operation_passes_validation :
  eq_str (JStr "sort") "count" = false /\
  eq_str (JStr "sort") "aggregate" = false /\
  _validate_plan sort_plan example_state = (Return Pass, example_state).
Proof. repeat split. Qed.

Lemma only_count_and_aggregate_execute_witness :
  _validate_plan sort_plan example_state = (Return Pass, example_state) /\
  execute_plan sort_plan example_state =
    (Return (failure (ExceptionMessage UnboundLocalError)), example_state).
Proof.
  destruct only_count_and_aggregate_execute as (_ & _ & H).
  apply (H example_state "holdings.csv" example_holdings "sort").
  - reflexivity.
  - simpl. auto.
Defined.

(** C5. On a plan whose [filters] is [null] or one dictionary, or whose
    list of filters holds a number, the loop over the filter clauses raises
    [TypeError]: [_validate_plan] returns no verdict, and the exception
    leaves [execute_plan], whose [try] block starts after the validation. *)
Theorem validate_plan_raises_on_untyped_filters :
  _validate_plan plan_with_null_filters example_state =
    (Raise TypeError, example_state) /\
  _validate_plan plan_with_single_clause example_state =
    (Raise TypeError, example_state) /\
  _validate_plan plan_with_number_clause example_state =
    (Raise TypeError, example_state) /\
  execute_plan plan_with_null_filters example_state =
    (Raise TypeError, example_state).
Proof. repeat split. Qed.

End ValidatorSpec.

Module SortSpec.
Import Executor Notions Examples PlanFacts ValidatorFacts.

Lemma leb_of_ltb a b : value_ltb a b = true -> value_leb a b = true.
Proof.
  unfold value_ltb, value_leb.
  destruct a, b; simpl; try discriminate; intros H;
    try (apply Z.ltb_lt in H; apply Z.leb_le; lia).
  unfold String.ltb in H. unfold String.leb.
  destruct (String.compare s s0); congruence.
Qed.

Lemma leb_of_not_ltb a b :
  is_number a = true -> is_number b = true ->
  value_ltb a b = false -> value_leb b a = true.
Proof.
  unfold value_ltb, value_leb.
  destruct a, b; simpl; try discriminate; intros _ _ H;
    apply Z.ltb_ge in H; apply Z.leb_le; lia.
Qed.

Lemma leb_trans a b c :
  is_number b = true ->
  value_leb a b = true -> value_leb b c = true -> value_leb a c = true.
Proof.
  unfold value_leb.
  destruct a, b, c; simpl; try discriminate; intros _ H1 H2;
    apply Z.leb_le in H1; apply Z.leb_le in H2; apply Z.leb_le; nia.
Qed.

Lemma insert_perm (x : item) (l : list item) :
  Permutation (insert_by_value x l) (x :: l).
Proof.
  induction l as [| y l IH]; simpl; [reflexivity |].
  destruct (value_ltb (snd y) (snd x)); [| reflexivity].
  rewrite IH. apply perm_swap.
Qed.

Lemma sort_perm (l : list item) : Permutation (sort_by_value l) l.
Proof.
  induction l as [| x l IH]; simpl; [reflexivity |].
  rewrite insert_perm. now constructor.
Qed.

Lemma insert_sorted_by_value (x : item) (l : list item) :
  is_number (snd x) = true -> numeric l ->
  StronglySorted not_above l -> StronglySorted not_above (insert_by_value x l).
Proof.
  intros Hx Hnum Hs. induction Hs as [| y l Hs IH Hy]; simpl.
  - constructor; constructor.
  - inversion Hnum as [| ? ? Hny Hnl]; subst.
    destruct (value_ltb (snd y) (snd x)) eqn:E.
    + constructor; [apply IH, Hnl |].
      apply (Permutation_Forall (Permutation_sym (insert_perm x l))).
      constructor; [apply leb_of_ltb, E | exact Hy].
    + assert (Hxy : not_above x y) by (apply leb_of_not_ltb; assumption).
      constructor; [constructor; assumption |].
      constructor; [exact Hxy |].
      eapply Forall_impl; [| exact Hy]. intros z Hz.
      unfold not_above in *. eapply leb_trans; eauto.
Qed.

Lemma sort_sorted (l : list item) :
  numeric l -> StronglySorted not_above (sort_by_value l).
Proof.
  intros Hnum. induction Hnum as [| x l Hx Hl IH]; simpl; [constructor |].
  apply insert_sorted_by_value; [exact Hx | | exact IH].
  apply (Permutation_Forall (Permutation_sym (sort_perm l))). exact Hl.
Qed.

Lemma sorted_app (R : item -> item -> Prop) (l1 l2 : list item) :
  StronglySorted R l1 -> StronglySorted R l2 ->
  (forall a b, In a l1 -> In b l2 -> R a b) ->
  StronglySorted R (l1 ++ l2)%list.
Proof.
  intros H1 H2 H. induction H1 as [| x l1 H1 IH Hx]; simpl; [exact H2 |].
  constructor.
  - apply IH. intros a b Ha Hb. apply H; [now right | exact Hb].
  - apply Forall_app. split; [exact Hx |].
    apply Forall_forall. intros b Hb. apply H; [now left | exact Hb].
Qed.

Lemma sorted_rev (l : list item) :
  StronglySorted not_above l -> StronglySorted not_below (rev l).
Proof.
  intros Hs. induction Hs as [| x l Hs IH Hx]; simpl; [constructor |].
  apply sorted_app; [exact IH | constructor; constructor |].
  intros a b Ha [<- | []]. apply in_rev in Ha.
  rewrite Forall_forall in Hx. exact (Hx a Ha).
Qed.

Lemma numeric_not_mixed (items : list item) :
  numeric items -> existsb is_str (map snd items) = false.
Proof.
  intros H. induction H as [| x l Hx Hl IH]; simpl; [reflexivity |].
  rewrite IH. destruct (snd x); simpl in *; congruence.
Qed.

Lemma numeric_no_nan (items : list item) :
  numeric items -> existsb is_nan (map snd items) = false.
Proof.
  intros H. induction H as [| x l Hx Hl IH]; simpl; [reflexivity |].
  rewrite IH. destruct (snd x); simpl in *; congruence.
Qed.

(** [sorted(..., reverse=True)] of a mapping with numeric values: the same
    entries, values non-increasing. *)
Lemma sorted_desc {pandas : PandasOps} (items : list item) :
  numeric items ->
  exists sorted,
    sorted_items items true = Return sorted /\
    Permutation sorted items /\
    StronglySorted not_below sorted.
Proof.
  intros Hnum. exists (rev (sort_by_value (rev items))).
  split; [| split].
  - unfold sorted_items. rewrite (numeric_not_mixed items Hnum), (numeric_no_nan items Hnum). reflexivity.
  - rewrite <- Permutation_rev, sort_perm, <- Permutation_rev. reflexivity.
  - apply sorted_rev, sort_sorted.
    apply (Permutation_Forall (Permutation_rev items)). exact Hnum.
Qed.

Section WithPandas.
Context {pandas : PandasOps}.

Lemma sort_desc_step plan items :
  numeric items -> dict_get plan "sort" = Some (JStr "desc") ->
  exists sorted,
    apply_sort plan (Some (RDict items)) = Return (Some (RDict sorted)) /\
    Permutation sorted items /\
    StronglySorted not_below sorted.
Proof.
  intros Hnum Hsort. destruct (sorted_desc items Hnum) as (sorted & Hs & Hp & Ho).
  exists sorted. split; [| split; assumption].
  unfold apply_sort, present_and_truthy, dict_getitem. rewrite Hsort.
  cbn [truthy String.eqb negb obind read_local eq_str Ascii.eqb Bool.eqb].
  rewrite Hs. reflexivity.
Qed.

Lemma limit_step plan (sorted : list item) k :
  dict_get plan "limit" = Some (JNum k) -> 1 <= k ->
  exists limited rest,
    apply_limit plan (Some (RDict sorted)) = Return (Some (RDict limited)) /\
    sorted = (limited ++ rest)%list /\
    Z.of_nat (List.length limited) <= k.
Proof.
  intros Hlimit Hk.
  exists (firstn (Z.to_nat k) sorted), (skipn (Z.to_nat k) sorted).
  split; [| split].
  - unfold apply_limit, present_and_truthy, dict_getitem. rewrite Hlimit.
    cbn [truthy]. destruct (Z.eqb_spec k 0) as [-> | _]; [lia |].
    cbn [negb obind read_local slice_to].
    destruct (Z.leb_spec 0 k); [reflexivity | lia].
  - symmetry. apply firstn_skipn.
  - pose proof (firstn_le_length (Z.to_nat k) sorted). unfold item in *. lia.
Qed.

(** C7 (amended). For every result mapping whose values are numbers, the
    sort step under sort=desc keeps the entries and leaves their values
    non-increasing in iteration order; for every k >= 1 the limit step
    under limit=k keeps a prefix of at most k entries of the mapping it is
    given; and a validated plan with sort=desc and limit=k whose operation
    yields such a mapping returns success=true with that prefix of the
    sorted mapping. *)
Theorem sort_desc_then_limit :
  (forall plan items,
     numeric items -> dict_get plan "sort" = Some (JStr "desc") ->
     exists sorted,
       apply_sort plan (Some (RDict items)) = Return (Some (RDict sorted)) /\
       Permutation sorted items /\
       StronglySorted not_below sorted) /\
  (forall plan (mapping : list item) k,
     dict_get plan "limit" = Some (JNum k) -> 1 <= k ->
     exists limited rest,
       apply_limit plan (Some (RDict mapping)) = Return (Some (RDict limited)) /\
       mapping = (limited ++ rest)%list /\
       Z.of_nat (List.length limited) <= k) /\
  (forall self plan filename others df filtered items k,
     _validate_plan plan self = (Return Pass, self) ->
     dict_get plan "files" = Some (JList (filename :: others)) ->
     stored self filename = Some df ->
     apply_filters plan df = Return filtered ->
     run_operation plan filtered = Return (Some (RDict items)) ->
     numeric items ->
     dict_get plan "sort" = Some (JStr "desc") ->
     dict_get plan "limit" = Some (JNum k) -> 1 <= k ->
     exists sorted limited rest,
       execute_plan plan self = (Return (succeeded plan (RDict limited)), self) /\
       Permutation sorted items /\
       StronglySorted not_below sorted /\
       sorted = (limited ++ rest)%list /\
       Z.of_nat (List.length limited) <= k).
Proof.
  split; [exact sort_desc_step | split; [exact limit_step |]].
  intros self plan filename others df filtered items k
    Hvalid Hfiles Hstored Hfilter Hrun Hnum Hsort Hlimit Hk.
  destruct (sort_desc_step plan items Hnum Hsort) as (sorted & Hs & Hperm & Hord).
  destruct (limit_step plan sorted k Hlimit Hk) as (limited & rest & Hl & Happ & Hlen).
  exists sorted, limited, rest. split; [| auto].
  rewrite validate_plan_run in Hvalid. injection Hvalid as Hvalid.
  rewrite execute_plan_run, Hvalid.
  unfold execute_body, bind, lift, dict_getitem. rewrite Hfiles.
  cbn [getitem_0]. rewrite get_dataframe_stored, Hstored, Hfilter, Hrun, Hs, Hl.
  reflexivity.
Qed.

End WithPandas.

Import Reference.

Lemma sort_desc_then_limit_witness :
  exists sorted limited rest,
    execute_plan (top_fund_plan 1) example_state =
      (Return (succeeded (top_fund_plan 1) (RDict limited)), example_state) /\
    StronglySorted not_below sorted /\
    sorted = (limited ++ rest)%list /\
    Z.of_nat (List.length limited) <= 1.
Proof.
  destruct (proj2 (proj2 sort_desc_then_limit)
              example_state (top_fund_plan 1) (JStr "holdings.csv") []
              example_holdings example_holdings
              [(KStr "A", SInt 120); (KStr "B", SInt 50)] 1)
    as (sorted & limited & rest & H1 & _ & H2 & H3 & H4).
  - reflexivity.
  - reflexivity.
  - reflexivity.
  - reflexivity.
  - reflexivity.
  - repeat constructor.
  - reflexivity.
  - reflexivity.
  - lia.
  - exists sorted, limited, rest. auto.
Defined.

(** limit=0 truncates nothing: both entries are returned. And a group
    without a value yields NaN, which no order puts next to a number:
    neither [NaN >= 1] nor [1 >= NaN] holds. *)
Lemma limit_zero_keeps_all_and_nan_is_unordered :
  execute_plan (top_fund_plan 0) example_state =
    (Return (succeeded (top_fund_plan 0)
       (RDict [(KStr "A", SInt 120); (KStr "B", SInt 50)])), example_state) /\
  ~ Z.of_nat (List.length [(KStr "A", SInt 120); (KStr "B", SInt 50)]) <= 0 /\
  execute_plan lowest_profit_plan (only_holdings holdings_without_profit) =
    (Return (succeeded lowest_profit_plan
       (RDict [(KStr "A", SNaN); (KStr "B", SInt 1)])),
     only_holdings holdings_without_profit) /\
  ~ StronglySorted not_below [(KStr "A", SNaN); (KStr "B", SInt 1)] /\
  ~ StronglySorted not_below [(KStr "B", SInt 1); (KStr "A", SNaN)].
Proof.
  split; [reflexivity |]. split; [simpl; lia |]. split; [reflexivity |].
  split; intros H; inversion H as [| ? ? _ Hall]; subst;
    inversion Hall as [| ? ? Hle _]; subst; discriminate Hle.
Qed.

End SortSpec.

Module FilterSpec.
Import Executor Notions Examples PlanFacts ValidatorFacts.
Local Open Scope method_scope.

Lemma parse_unknown_operator operator :
  in_strs operator ALLOWED_FILTER_OPERATORS = false ->
  parse_operator operator = None.
Proof.
  unfold in_strs, ALLOWED_FILTER_OPERATORS, parse_operator. cbn [existsb].
  repeat match goal with
  | |- context [eq_str operator ?s] => destruct (eq_str operator s); try discriminate
  end.
  reflexivity.
Qed.

Lemma filter_items_without items1 clause items2 df file :
  validate_filter_items (items1 ++ clause :: items2) df file = Return Pass ->
  validate_filter_items (items1 ++ items2) df file = Return Pass.
Proof.
  induction items1 as [| item rest IH]; cbn [List.app validate_filter_items].
  - destruct (validate_filter_item clause df file) as [[| why] | e];
      cbn [obind]; [auto | discriminate | discriminate].
  - destruct (validate_filter_item item df file) as [[| why] | e];
      cbn [obind]; [exact IH | discriminate | discriminate].
Qed.

Lemma columns_in_without plan plan' items1 clause items2 df file :
  agree_but_filters plan plan' ->
  dict_get plan "filters" = Some (JList (items1 ++ clause :: items2)) ->
  dict_get plan' "filters" = Some (JList (items1 ++ items2)) ->
  validate_columns_in plan df file = Return Pass ->
  validate_columns_in plan' df file = Return Pass.
Proof.
  intros Hagree Hf Hf'.
  assert (Hn : forall field, field <> "filters" ->
            validate_named_column plan' field df file =
            validate_named_column plan field df file).
  { intros field Hne. unfold validate_named_column, present_and_truthy, dict_getitem.
    rewrite (Hagree field Hne). reflexivity. }
  unfold validate_columns_in.
  rewrite (Hn "group_by") by discriminate.
  destruct (validate_named_column plan "group_by" df file) as [[| why] | e];
    cbn [obind]; try discriminate.
  rewrite (Hn "metric") by discriminate.
  destruct (validate_named_column plan "metric" df file) as [[| why] | e];
    cbn [obind]; try discriminate.
  unfold has_key, dict_getitem. rewrite Hf, Hf'. cbn [obind iterate].
  apply filter_items_without.
Qed.

Lemma columns_verdict_without self plan plan' items1 clause items2 files :
  agree_but_filters plan plan' ->
  dict_get plan "filters" = Some (JList (items1 ++ clause :: items2)) ->
  dict_get plan' "filters" = Some (JList (items1 ++ items2)) ->
  columns_verdict self plan files = Return Pass ->
  columns_verdict self plan' files = Return Pass.
Proof.
  intros Hagree Hf Hf'. induction files as [| file rest IH];
    cbn [columns_verdict]; [reflexivity |].
  destruct (validate_columns_in plan (stored self file) file)
    as [[| why] | e] eqn:Hv; cbn [obind]; try discriminate.
  rewrite (columns_in_without plan plan' items1 clause items2 _ _ Hagree Hf Hf' Hv).
  exact IH.
Qed.

Lemma plan_verdict_without self plan plan' items1 clause items2 :
  agree_but_filters plan plan' ->
  dict_get plan "filters" = Some (JList (items1 ++ clause :: items2)) ->
  dict_get plan' "filters" = Some (JList (items1 ++ items2)) ->
  plan_verdict self plan = Return Pass ->
  plan_verdict self plan' = Return Pass.
Proof.
  intros Hagree Hf Hf'. unfold plan_verdict, validate_aggregation.
  rewrite <- (Hagree "files"), <- (Hagree "operation"),
    <- (Hagree "aggregation") by discriminate.
  destruct (dict_get plan "files") as [files |]; [| discriminate].
  destruct (dict_get plan "operation") as [operation |];
    [| destruct files; discriminate].
  destruct files; try discriminate.
  destruct (files_verdict self items); [| discriminate].
  destruct (negb (in_strs operation ALLOWED_OPERATIONS)); [discriminate |].
  destruct (if eq_str operation "aggregate" then _ else _); [| discriminate].
  apply (columns_verdict_without self plan plan' items1 clause items2);
    assumption.
Qed.

Section WithPandas.
Context {pandas : PandasOps}.

Lemma unknown_operator_ignored df fields :
  unknown_operator fields -> apply_filter df (JObj fields) = Return df.
Proof.
  intros H. unfold apply_filter. cbn [method_get obind].
  rewrite (parse_unknown_operator _ H). reflexivity.
Qed.

Lemma filter_loop_without items1 fields items2 df :
  unknown_operator fields ->
  filter_loop (items1 ++ JObj fields :: items2) df = filter_loop (items1 ++ items2) df.
Proof.
  intros H. revert df. induction items1 as [| item rest IH]; intros df;
    cbn [List.app filter_loop].
  - rewrite (unknown_operator_ignored df fields H). reflexivity.
  - destruct (apply_filter df item) as [df' | e]; cbn [obind];
      [apply IH | reflexivity].
Qed.

Lemma apply_filters_without plan plan' items1 fields items2 df :
  unknown_operator fields ->
  dict_get plan "filters" = Some (JList (items1 ++ JObj fields :: items2)) ->
  dict_get plan' "filters" = Some (JList (items1 ++ items2)) ->
  apply_filters plan df = apply_filters plan' df.
Proof.
  intros H Hf Hf'. unfold apply_filters, present_and_truthy, dict_getitem.
  rewrite Hf, Hf'. cbn [truthy].
  replace (match (items1 ++ JObj fields :: items2)%list with
           | [] => false | _ :: _ => true end) with true
    by (destruct items1; reflexivity).
  cbn [obind iterate]. rewrite (filter_loop_without items1 fields items2 df H).
  destruct (items1 ++ items2)%list; reflexivity.
Qed.

Lemma stages_agree plan plan' :
  agree_but_filters plan plan' ->
  (forall df, run_operation plan df = run_operation plan' df) /\
  (forall r, apply_sort plan r = apply_sort plan' r) /\
  (forall r, apply_limit plan r = apply_limit plan' r).
Proof.
  intros Hagree. split; [| split]; intros x.
  - unfold run_operation, dict_getitem, get_or, present_and_truthy.
    rewrite <- (Hagree "operation"), <- (Hagree "group_by"),
      <- (Hagree "metric"), <- (Hagree "aggregation") by discriminate.
    reflexivity.
  - unfold apply_sort, dict_getitem, present_and_truthy.
    rewrite <- (Hagree "sort") by discriminate. reflexivity.
  - unfold apply_limit, dict_getitem, present_and_truthy.
    rewrite <- (Hagree "limit") by discriminate. reflexivity.
Qed.

(** C10 (amended). The filter loop skips a clause whose operator is none of
    ==, !=, >, <, >=, <=, in: it returns the frame it is given and raises
    nothing, and a plan that passes validation answers with such a clause
    among its filters as it does without it (the same success flag, result
    and error). The plan that counts the holdings under one such clause
    succeeds with the count of all rows. *)
Theorem unknown_filter_operator_is_ignored :
  (forall df fields,
     unknown_operator fields -> apply_filter df (JObj fields) = Return df) /\
  (forall self plan plan' items1 fields items2,
     agree_but_filters plan plan' ->
     dict_get plan "filters" = Some (JList (items1 ++ JObj fields :: items2)) ->
     dict_get plan' "filters" = Some (JList (items1 ++ items2)) ->
     unknown_operator fields ->
     _validate_plan plan self = (Return Pass, self) ->
     same_answer (execute_plan plan self) (execute_plan plan' self)) /\
  (forall self,
     holdings_df self = Some example_holdings ->
     execute_plan plan_with_unknown_operator self =
       (Return (succeeded plan_with_unknown_operator (RScalar (SInt 3))), self)).
Proof.
  split; [exact unknown_operator_ignored | split].
  - intros self plan plan' items1 fields items2 Hagree Hf Hf' Hop Hvalid.
    rewrite validate_plan_run in Hvalid. injection Hvalid as Hvalid.
    pose proof (plan_verdict_without self plan plan' items1 (JObj fields) items2
                  Hagree Hf Hf' Hvalid) as Hvalid'.
    rewrite !execute_plan_run, Hvalid, Hvalid'.
    destruct (stages_agree plan plan' Hagree) as (Hrun & Hsort & Hlimit).
    unfold execute_body, bind, lift, dict_getitem.
    rewrite <- (Hagree "files") by discriminate.
    destruct (dict_get plan "files") as [files |]; [| now repeat split].
    destruct (getitem_0 files) as [filename | e]; [| now repeat split].
    rewrite get_dataframe_stored.
    destruct (stored self filename) as [df |]; [| now repeat split].
    rewrite <- (apply_filters_without plan plan' items1 fields items2 df Hop Hf Hf').
    destruct (apply_filters plan df) as [df' | e]; [| now repeat split].
    rewrite <- Hrun.
    destruct (run_operation plan df') as [r | e]; [| now repeat split].
    rewrite <- Hsort.
    destruct (apply_sort plan r) as [r1 | e]; [| now repeat split].
    rewrite <- Hlimit.
    destruct (apply_limit plan r1) as [r2 | e]; [| now repeat split].
    destruct (read_local r2) as [r3 | e]; now repeat split.
  - intros [trades holdings] H. simpl in H. subst holdings. reflexivity.
Qed.

End WithPandas.

Import Reference.

Lemma unknown_filter_operator_is_ignored_witness :
  same_answer (execute_plan plan_with_unknown_operator example_state)
              (execute_plan plan_with_no_clause example_state).
Proof.
  apply (proj1 (proj2 unknown_filter_operator_is_ignored)
           example_state plan_with_unknown_operator plan_with_no_clause []
           [("column", JStr "PL"); ("operator", JStr "~"); ("value", JNum 3)] []).
  - intros k Hk. unfold plan_with_unknown_operator, plan_with_no_clause.
    cbn [dict_get].
    destruct (String.eqb k "files"); [reflexivity |].
    destruct (String.eqb k "operation"); [reflexivity |].
    destruct (String.eqb_spec k "filters"); [contradiction | reflexivity].
  - reflexivity.
  - reflexivity.
  - reflexivity.
  - reflexivity.
Defined.

(** The validator checks the column of every clause, whatever its operator:
    a clause with an unknown operator on a column the table does not have
    is not ignored. The plan is rejected with it and succeeds without it. *)
Lemma unknown_operator_on_unknown_column_is_rejected :
  unknown_operator
    [("column", JStr "Nope"); ("operator", JStr "~"); ("value", JNum 3)] /\
  execute_plan plan_with_unknown_operator_and_column example_state =
    (Return (failure (ValidationMessage
               (FilterColumnNotFound (JStr "Nope") (JStr "holdings.csv")))),
     example_state) /\
  execute_plan plan_with_no_clause example_state =
    (Return (succeeded plan_with_no_clause (RScalar (SInt 3))), example_state).
Proof. repeat split. Qed.

End FilterSpec.

Module ApiSpec.
Import Executor Api Notions Examples.

Lemma lstrip_blank (s : pystr) : forallb is_space s = true -> lstrip s = [].
Proof.
  induction s as [| c s IH]; simpl; [reflexivity |].
  intros H. apply andb_prop in H. destruct H as [Hc Hs].
  rewrite Hc. apply IH, Hs.
Qed.

Lemma strip_blank (s : pystr) : forallb is_space s = true -> strip s = [].
Proof. intros H. unfold strip. rewrite (lstrip_blank s H). reflexivity. Qed.

Section WithModel.
Context {pandas : PandasOps}.
Variable generate_plan : pystr -> list (string * list string) -> option pydict.
Variable explain : pystr -> pydict -> response -> string.

(** A question with a character that is not white space reaches the
    planner, stripped. *)
Lemma question_reaches_planner bot question :
  strip question <> [] ->
  exists more,
    snd (chat generate_plan explain (Some bot) question) =
      PlannerCall (strip question) :: more.
Proof.
  intros H. unfold chat.
  destruct question as [| c q]; [contradiction |].
  destruct (strip (c :: q)) as [| c' q'] eqn:E; [contradiction |].
  cbn [is_empty orb]. unfold answer_question.
  destruct (get_available_columns (executor bot)) as [[cols | e] ex] eqn:Hcols.
  - destruct (generate_plan (c' :: q') cols) as [plan |]; [| simpl; eauto].
    destruct (execute_plan plan ex) as [[r | e] ex']; [| simpl; eauto].
    destruct (negb (success r)) eqn:Hs; [simpl; eauto |].
    unfold explain_results. rewrite Hs. simpl. eauto.
  - unfold get_available_columns, bind, read, ret in Hcols. discriminate.
Qed.

(** C8 (amended). A request whose question is empty or has white space
    only never reaches the planner: no request is made to the language
    model, and the endpoint answers with an HTTP error and no plan. The
    status is 400 when the chatbot is initialised and 503 when it is not. *)
Theorem blank_question_rejected_before_planning :
  forall (chatbot : option FundAnalyticsChatbot) (question : pystr),
    forallb is_space question = true ->
    snd (chat generate_plan explain chatbot question) = [] /\
    match chatbot with
    | Some _ =>
        fst (chat generate_plan explain chatbot question) =
          HTTPException 400 "Question cannot be empty"
    | None =>
        exists detail,
          fst (chat generate_plan explain chatbot question) =
            HTTPException 503 detail
    end.
Proof.
  intros [bot |] question Hblank; unfold chat.
  - rewrite (strip_blank question Hblank). cbn [is_empty].
    rewrite orb_true_r. split; reflexivity.
  - split; [reflexivity | eexists; reflexivity].
Qed.

End WithModel.

Import Reference.

Lemma blank_question_rejected_before_planning_witness :
  snd (chat no_plan no_text
         (Some {| executor := example_state |}) [32%N; 9%N]) = [] /\
  fst (chat no_plan no_text
         (Some {| executor := example_state |}) [32%N; 9%N]) =
    HTTPException 400 "Question cannot be empty".
Proof.
  apply (blank_question_rejected_before_planning no_plan no_text
           (Some {| executor := example_state |}) [32%N; 9%N]).
  reflexivity.
Defined.

(** Without a chatbot the empty question is answered 503, not 400. *)
Lemma blank_question_without_chatbot_is_503 :
  forallb is_space [] = true /\
  chat no_plan no_text None [] =
    (HTTPException 503
       "Chatbot not initialized. Check OPENAI_API_KEY and data files.", []).
Proof. split; reflexivity. Qed.

End ApiSpec.

(** ** Loading *)
Module LoadingSpec.
Import Executor Loading Notions MoreNotions.

(** X1. [_load_data] never raises and forgets what the executor held. A
    table is loaded exactly when its file exists and is read and the other
    file, if it exists, is read too: a file that is absent leaves the other
    table loaded, a file that cannot be read unloads both. *)
Theorem load_data_reads_both_or_none :
  forall (folder : data_folder) (self : QueryExecutor),
    fst (_load_data folder self) = Return tt /\
    (forall df,
       trades_df (snd (_load_data folder self)) = Some df <->
       trades_csv folder = Some (Return df) /\
       forall e, holdings_csv folder <> Some (Raise e)) /\
    (forall df,
       holdings_df (snd (_load_data folder self)) = Some df <->
       holdings_csv folder = Some (Return df) /\
       forall e, trades_csv folder <> Some (Raise e)).
Proof.
  intros [[[t | et] |] [[h | eh] |]] self; cbn; (split; [reflexivity |]);
    split; intros df; split;
    try (intros [= <-]); try (intros [[= <-] H]); try (intros [[=] _]);
    try discriminate; try (split; [reflexivity | intros e; discriminate]);
    try reflexivity;
    try (exfalso; eapply H; reflexivity).
Qed.

End LoadingSpec.

(** ** Outcomes of [execute_plan] *)
Module OutcomeSpec.
Import Executor Notions MoreNotions Examples PlanFacts ValidatorFacts.
Local Open Scope method_scope.

Section WithPandas.
Context {pandas : PandasOps}.

Lemma body_outcomes plan self :
  (exists message, execute_body plan self = (Return (failure message), self)) \/
  (exists r, execute_body plan self = (Return (succeeded plan r), self)) \/
  (exists e, execute_body plan self = (Raise e, self)).
Proof.
  unfold execute_body, bind, lift, ret.
  destruct (dict_getitem plan "files") as [files | e]; [| eauto].
  destruct (getitem_0 files) as [filename | e]; [| eauto].
  rewrite get_dataframe_stored.
  destruct (stored self filename) as [df |]; [| eauto].
  destruct (apply_filters plan df) as [df' | e]; [| eauto].
  destruct (run_operation plan df') as [r | e]; [| eauto].
  destruct (apply_sort plan r) as [r1 | e]; [| eauto].
  destruct (apply_limit plan r1) as [r2 | e]; [| eauto].
  destruct (read_local r2) as [r3 | e]; eauto.
Qed.

Lemma outcomes_of_execute plan self :
  (exists e, _validate_plan plan self = (Raise e, self) /\
             execute_plan plan self = (Raise e, self)) \/
  (exists message,
     execute_plan plan self = (Return (failure message), self)) \/
  (exists r, _validate_plan plan self = (Return Pass, self) /\
             execute_plan plan self = (Return (succeeded plan r), self)).
Proof.
  rewrite execute_plan_run, validate_plan_run.
  destruct (plan_verdict self plan) as [[| why] | e]; [| eauto | eauto].
  destruct (body_outcomes plan self) as [[m ->] | [[r ->] | [e ->]]]; eauto.
Qed.

(** X2. A call of [execute_plan] ends in one of three ways and leaves the
    executor as it was: the validator raised and the exception is passed
    on; or a failure dictionary (success false, an error, no result, no
    plan) is returned; or the validator passed the plan and a success
    dictionary (success true, no error, a result, the plan itself) is
    returned. An exception raised after the validation never leaves the
    call. *)
Theorem execute_plan_outcomes :
  forall (plan : pydict) (self : QueryExecutor),
    (exists e, _validate_plan plan self = (Raise e, self) /\
               execute_plan plan self = (Raise e, self)) \/
    (exists message,
       execute_plan plan self = (Return (failure message), self)) \/
    (exists r, _validate_plan plan self = (Return Pass, self) /\
               execute_plan plan self = (Return (succeeded plan r), self)).
Proof. exact outcomes_of_execute. Qed.

(** X3. On a plan whose group-by and metric are not lists or dictionaries
    and whose filters, if given, are a list of dictionaries with such a
    column, the validator raises nothing: it returns a verdict, and
    [execute_plan] returns a dictionary. *)
Theorem well_typed_plan_gets_a_verdict :
  forall (plan : pydict) (self : QueryExecutor),
    well_typed plan = true ->
    (exists v, _validate_plan plan self = (Return v, self)) /\
    (exists r, execute_plan plan self = (Return r, self)).
Proof.
  intros plan self Hwt.
  destruct (plan_verdict_total self plan Hwt) as [v Hv]. split.
  - exists v. rewrite validate_plan_run, Hv. reflexivity.
  - destruct (outcomes_of_execute plan self)
      as [(e & He & _) | [[m ->] | (r & _ & ->)]]; eauto.
    rewrite validate_plan_run, Hv in He. discriminate.
Qed.

(** X4. The validator reads the schemas only: on two executors whose
    tables are loaded alike and have the same column names it returns the
    same verdict, or raises the same exception, whatever the rows. *)
Theorem verdict_ignores_rows :
  forall (plan : pydict) (a b : QueryExecutor),
    same_schema a b ->
    fst (_validate_plan plan a) = fst (_validate_plan plan b).
Proof.
  intros plan a b Hs. rewrite !validate_plan_run. cbn [fst].
  apply plan_verdict_schema, Hs.
Qed.

(** X5. Only the first listed table is queried: on two executors with the
    same schemas that hold the same first listed table, a plan is answered
    alike, whatever the rows of the other table. *)
Theorem only_first_table_is_queried :
  forall (plan : pydict) (filename : json) (others : list json)
         (a b : QueryExecutor),
    dict_get plan "files" = Some (JList (filename :: others)) ->
    same_schema a b ->
    stored a filename = stored b filename ->
    fst (execute_plan plan a) = fst (execute_plan plan b).
Proof.
  intros plan filename others a b Hfiles Hs Hfirst.
  rewrite !execute_plan_run, (plan_verdict_schema a b plan Hs).
  destruct (plan_verdict b plan) as [[| why] | e]; [| reflexivity | reflexivity].
  unfold execute_body, bind, lift, dict_getitem. rewrite Hfiles.
  cbn [getitem_0]. rewrite !get_dataframe_stored, Hfirst.
  destruct (stored b filename) as [df |]; [| reflexivity].
  destruct (apply_filters plan df) as [df' | e]; [| reflexivity].
  destruct (run_operation plan df') as [r | e]; [| reflexivity].
  destruct (apply_sort plan r) as [r1 | e]; [| reflexivity].
  destruct (apply_limit plan r1) as [r2 | e]; [| reflexivity].
  destruct (read_local r2) as [r3 | e]; reflexivity.
Qed.

Lemma refused_when_nothing_loaded plan self :
  nothing_loaded self ->
  exists message, execute_plan plan self = (Return (failure message), self).
Proof.
  intros [Ht Hh]. rewrite execute_plan_run. unfold plan_verdict.
  destruct (dict_get plan "files") as [files |] eqn:Hfiles; [| eauto].
  destruct (dict_get plan "operation") as [operation |];
    [| destruct files; eauto].
  destruct files as [| | | | | files |]; eauto.
  destruct files as [| file rest].
  - cbn [files_verdict columns_verdict].
    assert (Hbody : execute_body plan self = (Raise IndexError, self)).
    { unfold execute_body, bind, lift, dict_getitem. rewrite Hfiles. reflexivity. }
    rewrite Hbody.
    destruct (negb (in_strs operation ALLOWED_OPERATIONS)); [eauto |].
    destruct (validate_aggregation plan operation); eauto.
  - cbn [files_verdict].
    destruct (negb (in_strs file ALLOWED_FILES)); [eauto |].
    assert (Hs : stored self file = None).
    { unfold stored. rewrite Ht, Hh.
      destruct (eq_str file "trades.csv"); [reflexivity |].
      destruct (eq_str file "holdings.csv"); reflexivity. }
    rewrite Hs. eauto.
Qed.

(** X6. With no table loaded every plan is answered with a failure
    dictionary; nothing is raised, whatever the plan holds. *)
Theorem nothing_loaded_refuses_every_plan :
  forall (plan : pydict) (self : QueryExecutor),
    nothing_loaded self ->
    exists message, execute_plan plan self = (Return (failure message), self).
Proof. intros plan self. apply refused_when_nothing_loaded. Qed.

End WithPandas.

Import Reference.

Lemma well_typed_plan_gets_a_verdict_witness :
  (exists v, _validate_plan example_plan example_state = (Return v, example_state)) /\
  (exists r, execute_plan example_plan example_state = (Return r, example_state)).
Proof.
  apply (well_typed_plan_gets_a_verdict example_plan example_state). reflexivity.
Defined.

Lemma verdict_ignores_rows_witness :
  fst (_validate_plan example_plan (only_holdings example_holdings)) =
  fst (_validate_plan example_plan (only_holdings holdings_with_gap)).
Proof.
  apply (verdict_ignores_rows example_plan). split; reflexivity.
Defined.

Lemma only_first_table_is_queried_witness :
  fst (execute_plan plan_over_both_tables (both_tables example_trades)) =
  fst (execute_plan plan_over_both_tables (both_tables other_trades)).
Proof.
  apply (only_first_table_is_queried plan_over_both_tables
           (JStr "holdings.csv") [JStr "trades.csv"]).
  - reflexivity.
  - split; reflexivity.
  - reflexivity.
Defined.

Lemma nothing_loaded_refuses_every_plan_witness :
  exists message,
    execute_plan example_plan {| trades_df := None; holdings_df := None |} =
      (Return (failure message), {| trades_df := None; holdings_df := None |}).
Proof.
  apply (nothing_loaded_refuses_every_plan example_plan). split; reflexivity.
Defined.

End OutcomeSpec.

(** ** Counting *)
Module CountSpec.
Import Executor Notions MoreNotions Examples PandasFacts PlanFacts
  ValidatorFacts ValidatorSpec SortSpec.
Local Open Scope method_scope.

Lemma take_map {A B} (f : A -> B) (mask : list bool) (xs : list A) :
  take mask (map f xs) = map f (take mask xs).
Proof.
  revert xs. induction mask as [| b mask IH]; intros [| x xs]; simpl;
    try reflexivity.
  destruct b; simpl; now rewrite IH.
Qed.

Lemma length_take_same {A B} (mask : list bool) (xs : list A) (ys : list B) :
  List.length xs = List.length ys ->
  List.length (take mask xs) = List.length (take mask ys).
Proof.
  revert xs ys. induction mask as [| b mask IH]; intros [| x xs] [| y ys] H;
    simpl in *; try reflexivity; try discriminate.
  injection H as H. destruct b; simpl; now rewrite (IH xs ys H).
Qed.

Lemma length_take_le {A} (mask : list bool) (xs : list A) :
  (List.length (take mask xs) <= List.length xs)%nat.
Proof.
  revert xs. induction mask as [| b mask IH]; intros [| x xs]; simpl; try lia.
  specialize (IH xs). destruct b; simpl; lia.
Qed.

Lemma length_present_le {A} (cells : list (option A)) :
  (List.length (present cells) <= List.length cells)%nat.
Proof. induction cells as [| [x |] cells IH]; simpl; lia. Qed.

Lemma present_all {A} (cells : list (option A)) :
  forallb is_loaded_cell cells = true ->
  List.length (present cells) = List.length cells.
Proof.
  induction cells as [| [x |] cells IH]; simpl; try discriminate; auto.
Qed.

Lemma take_all_present {A} (mask : list bool) (cells : list (option A)) :
  forallb is_loaded_cell cells = true ->
  forallb is_loaded_cell (take mask cells) = true.
Proof.
  revert cells. induction mask as [| b mask IH]; intros [| c cells]; simpl;
    try reflexivity.
  intros H. apply andb_prop in H. destruct H as [Hc Hcells].
  destruct b; simpl; [rewrite Hc |]; apply IH, Hcells.
Qed.

Lemma total_ones {A} (xs : list A) :
  total (present (map (fun _ => Some 1) xs)) = Z.of_nat (List.length xs).
Proof.
  induction xs as [| x xs IH]; [reflexivity |].
  cbn [map present List.length]. rewrite Nat2Z.inj_succ, <- IH.
  unfold total. cbn [fold_right]. lia.
Qed.

(** The sizes of the groups add up to the number of rows that have a key. *)
Lemma total_group_sizes (keys : list (option key)) :
  total (map (fun k => Z.of_nat (List.length (group_cells keys k keys)))
             (group_keys keys)) =
  Z.of_nat (List.length (present keys)).
Proof.
  pose proof (total_over_groups (group_keys keys) keys
                (map (fun _ => Some 1) keys) (nodup_group_keys keys)) as H.
  rewrite group_index_mask in H.
  erewrite map_ext in H.
  2: { intros k. unfold group_cells. rewrite take_map, total_ones. reflexivity. }
  unfold group_cells in *. rewrite H, take_map, total_ones. f_equal.
  clear H. unfold keyed. induction keys as [| [k |] keys IH]; simpl; auto.
Qed.

Lemma find_column_some df name :
  In name (columns df) -> exists c, find_column df name = Some c.
Proof.
  induction df as [| [n c] df IH]; simpl; [intros [] |].
  destruct (String.eqb name n) eqn:E; [eauto |].
  intros [H | H]; [| exact (IH H)].
  subst. rewrite String.eqb_refl in E. discriminate.
Qed.

Section WithPandas.
Context {pandas : PandasOps}.

Lemma count_by_runs self file df g gc :
  loaded self file df -> find_column df g = Some gc -> g <> EmptyString ->
  execute_plan (count_by file g) self =
    (Return (succeeded (count_by file g) (RDict (group_sizes (col_keys gc)))),
     self).
Proof.
  intros Hload Hgc Hne.
  pose proof (loaded_allowed _ _ _ Hload) as Hallowed.
  pose proof (proj1 (loaded_stored _ _ _) Hload) as Hs.
  pose proof (truthy_name g Hne) as Ht.
  assert (Hv : plan_verdict self (count_by file g) = Return Pass).
  { unfold plan_verdict, count_by. cbn [dict_get String.eqb Ascii.eqb Bool.eqb].
    cbn [files_verdict]. rewrite Hallowed, Hs. cbn [negb].
    cbn [in_strs ALLOWED_OPERATIONS existsb eq_str String.eqb Ascii.eqb
         Bool.eqb orb negb validate_aggregation columns_verdict].
    rewrite Hs. unfold validate_columns_in, validate_named_column,
      present_and_truthy, dict_getitem, has_key.
    cbn [dict_get String.eqb Ascii.eqb Bool.eqb]. rewrite Ht.
    cbn [obind not_in_columns]. rewrite in_columns_name,
      (find_column_in_columns _ _ _ Hgc). reflexivity. }
  rewrite execute_plan_run, Hv.
  unfold execute_body, bind, lift, dict_getitem, count_by.
  cbn [dict_get String.eqb Ascii.eqb Bool.eqb getitem_0]. rewrite Hload.
  unfold apply_filters, run_operation, apply_sort, apply_limit,
    present_and_truthy, dict_getitem.
  cbn [dict_get String.eqb Ascii.eqb Bool.eqb obind eq_str]. rewrite Ht.
  cbn [obind column_of]. rewrite Hgc. reflexivity.
Qed.

Lemma count_all_runs self file df :
  loaded self file df ->
  execute_plan (count_all file) self =
    (Return (succeeded (count_all file) (RScalar (SInt (Z.of_nat (len df))))),
     self).
Proof.
  intros Hload.
  pose proof (loaded_allowed _ _ _ Hload) as Hallowed.
  pose proof (proj1 (loaded_stored _ _ _) Hload) as Hs.
  assert (Hv : plan_verdict self (count_all file) = Return Pass).
  { unfold plan_verdict, count_all. cbn [dict_get String.eqb Ascii.eqb Bool.eqb].
    cbn [files_verdict]. rewrite Hallowed, Hs. cbn [negb].
    cbn [in_strs ALLOWED_OPERATIONS existsb eq_str String.eqb Ascii.eqb
         Bool.eqb orb negb validate_aggregation columns_verdict].
    rewrite Hs. reflexivity. }
  rewrite execute_plan_run, Hv.
  unfold execute_body, bind, lift, dict_getitem, count_all.
  cbn [dict_get String.eqb Ascii.eqb Bool.eqb getitem_0]. rewrite Hload.
  reflexivity.
Qed.

(** X7. The columns [get_available_columns] lists for the planner are
    columns the validator accepts: for every table it lists the table is
    loaded with these columns, and for every listed column with a
    non-empty name the plan that counts the table grouped by that column
    passes validation and succeeds with the sizes of its groups. *)
Theorem listed_columns_can_be_grouped :
  forall (self : QueryExecutor) (file : string) (names : list string),
    (exists available,
       get_available_columns self = (Return available, self) /\
       In (file, names) available) ->
    exists df,
      loaded self file df /\ names = columns df /\
      forall g, In g names -> g <> EmptyString ->
        exists gc,
          find_column df g = Some gc /\
          execute_plan (count_by file g) self =
            (Return (succeeded (count_by file g)
                       (RDict (group_sizes (col_keys gc)))), self).
Proof.
  intros [trades holdings] file names (available & Hrun & Hin).
  unfold get_available_columns, bind, read, ret in Hrun. cbn in Hrun.
  injection Hrun as <-.
  assert (H : exists df, loaded {| trades_df := trades; holdings_df := holdings |}
                           file df /\ names = columns df).
  { apply in_app_or in Hin. destruct Hin as [Hin | Hin].
    - destruct trades as [df |]; [| destruct Hin].
      destruct Hin as [[= <- <-] | []]. exists df. split; reflexivity.
    - destruct holdings as [df |]; [| destruct Hin].
      destruct Hin as [[= <- <-] | []]. exists df. split; reflexivity. }
  destruct H as (df & Hload & ->). exists df. split; [exact Hload |].
  split; [reflexivity |]. intros g Hg Hne.
  destruct (find_column_some df g Hg) as [gc Hgc]. exists gc.
  split; [exact Hgc |]. exact (count_by_runs _ file df g gc Hload Hgc Hne).
Qed.

(** X8. For a loaded table and a grouping column [g] the grouped count
    returns one entry per key of [g] with the number of rows of that key.
    The sizes add up to the number of rows whose key is present; on a
    rectangular table that is at most the number the plain count returns,
    and equal to it when no key is missing. *)
Theorem grouped_count_partitions_rows :
  forall self file df g gc,
    loaded self file df -> find_column df g = Some gc -> g <> EmptyString ->
    exists sizes : list (key * Z),
      execute_plan (count_by file g) self =
        (Return (succeeded (count_by file g)
           (RDict (map (fun kn => (fst kn, SInt (snd kn))) sizes))), self) /\
      execute_plan (count_all file) self =
        (Return (succeeded (count_all file)
           (RScalar (SInt (Z.of_nat (len df))))), self) /\
      NoDup (map fst sizes) /\
      (forall k, In k (map fst sizes) <-> In (Some k) (col_keys gc)) /\
      (forall k n, In (k, n) sizes ->
         n = Z.of_nat (List.length (group_cells (col_keys gc) k (col_keys gc)))) /\
      total (map snd sizes) = Z.of_nat (List.length (present (col_keys gc))) /\
      (rectangular df = true ->
         total (map snd sizes) <= Z.of_nat (len df) /\
         (Forall (fun ok => ok <> None) (col_keys gc) ->
          total (map snd sizes) = Z.of_nat (len df))).
Proof.
  intros self file df g gc Hload Hgc Hne.
  set (keys := col_keys gc).
  set (size := fun k => Z.of_nat (List.length (group_cells keys k keys))).
  exists (map (fun k => (k, size k)) (group_keys keys)).
  assert (Hfst : map fst (map (fun k => (k, size k)) (group_keys keys))
                 = group_keys keys).
  { rewrite map_map. simpl. apply map_id. }
  assert (Hsum : total (map snd (map (fun k => (k, size k)) (group_keys keys)))
                 = Z.of_nat (List.length (present keys))).
  { rewrite map_map. simpl. apply total_group_sizes. }
  split.
  { rewrite (count_by_runs self file df g gc Hload Hgc Hne).
    unfold group_sizes. rewrite map_map. reflexivity. }
  split. { now apply count_all_runs. }
  split. { rewrite Hfst. apply nodup_group_keys. }
  split. { intros k. rewrite Hfst. apply in_group_keys. }
  split.
  { intros k n Hin. apply in_map_iff in Hin.
    destruct Hin as (k' & [= <- <-] & _). reflexivity. }
  split. { exact Hsum. }
  intros Hrect. rewrite Hsum.
  assert (Hlen : List.length keys = len df).
  { unfold keys. rewrite col_keys_length.
    apply (find_column_length df g gc Hrect Hgc). }
  split.
  - pose proof (length_present_le keys). lia.
  - intros Hall. f_equal. rewrite <- Hlen. clear - Hall.
    induction Hall as [| [k |] keys Hk Hall IH]; simpl; auto. contradiction.
Qed.

Lemma count_values_by_runs self file df metric mc g gc :
  loaded self file df -> find_column df g = Some gc -> g <> EmptyString ->
  find_column df metric = Some mc ->
  execute_plan (count_values_by file metric g) self =
    (Return (succeeded (count_values_by file metric g)
       (RDict (map (fun k => (k, SInt (Z.of_nat
                 (values_in_group (col_keys gc) k mc))))
                   (group_keys (col_keys gc))))), self).
Proof.
  intros Hload Hgc Hne Hmc.
  pose proof (loaded_allowed _ _ _ Hload) as Hallowed.
  pose proof (proj1 (loaded_stored _ _ _) Hload) as Hs.
  pose proof (truthy_name g Hne) as Ht.
  assert (Hv : plan_verdict self (count_values_by file metric g) = Return Pass).
  { unfold plan_verdict, count_values_by.
    cbn [dict_get String.eqb Ascii.eqb Bool.eqb].
    cbn [files_verdict]. rewrite Hallowed, Hs. cbn [negb].
    cbn [in_strs ALLOWED_OPERATIONS existsb eq_str String.eqb Ascii.eqb
         Bool.eqb orb negb].
    unfold validate_aggregation.
    cbn [dict_get eq_str String.eqb Ascii.eqb Bool.eqb in_strs
         ALLOWED_AGGREGATIONS existsb orb negb columns_verdict].
    rewrite Hs. unfold validate_columns_in, validate_named_column,
      present_and_truthy, dict_getitem, has_key.
    cbn [dict_get String.eqb Ascii.eqb Bool.eqb]. rewrite Ht.
    cbn [obind not_in_columns]. rewrite in_columns_name,
      (find_column_in_columns _ _ _ Hgc). cbn [negb obind].
    destruct (truthy (JStr metric)); [| reflexivity].
    cbn [obind not_in_columns]. rewrite in_columns_name,
      (find_column_in_columns _ _ _ Hmc). reflexivity. }
  rewrite execute_plan_run, Hv.
  unfold execute_body, bind, lift, dict_getitem, count_values_by.
  cbn [dict_get String.eqb Ascii.eqb Bool.eqb getitem_0]. rewrite Hload.
  unfold apply_filters, run_operation, apply_sort, apply_limit,
    present_and_truthy, dict_getitem, get_or.
  cbn [dict_get String.eqb Ascii.eqb Bool.eqb obind eq_str hashable]. rewrite Ht.
  cbn [obind]. unfold aggregate_grouped. cbn [column_of]. rewrite Hgc, Hmc.
  cbn [obind parse_aggregation eq_str String.eqb Ascii.eqb Bool.eqb].
  destruct mc; reflexivity.
Qed.

Lemma values_in_group_le keys k c :
  List.length keys = col_length c ->
  (values_in_group keys k c <= List.length (group_cells keys k keys))%nat.
Proof.
  intros Hlen. unfold group_cells.
  destruct c as [cells | cells]; simpl in *;
    rewrite (length_take_same (map (is_key k) keys) keys cells Hlen);
    apply length_present_le.
Qed.

Lemma values_in_group_complete keys k c :
  List.length keys = col_length c -> complete c = true ->
  values_in_group keys k c = List.length (group_cells keys k keys).
Proof.
  intros Hlen Hc. unfold group_cells.
  destruct c as [cells | cells]; simpl in *;
    rewrite (length_take_same (map (is_key k) keys) keys cells Hlen);
    apply present_all, take_all_present, Hc.
Qed.

(** X9. Counting the values of a metric per group (aggregation count)
    and counting the rows per group (operation count) return mappings with
    the same keys in the same order. On a rectangular table the count of
    values of a group is at most its count of rows, and the two are equal
    when no cell of the metric is missing. *)
Theorem count_of_values_is_at_most_count_of_rows :
  forall self file df metric mc g gc,
    loaded self file df -> rectangular df = true ->
    find_column df g = Some gc -> g <> EmptyString ->
    find_column df metric = Some mc ->
    exists counts : list (key * (Z * Z)),
      execute_plan (count_values_by file metric g) self =
        (Return (succeeded (count_values_by file metric g)
           (RDict (map (fun c => (fst c, SInt (fst (snd c)))) counts))), self) /\
      execute_plan (count_by file g) self =
        (Return (succeeded (count_by file g)
           (RDict (map (fun c => (fst c, SInt (snd (snd c)))) counts))), self) /\
      Forall (fun c => 0 <= fst (snd c) <= snd (snd c)) counts /\
      (complete mc = true ->
       Forall (fun c => fst (snd c) = snd (snd c)) counts).
Proof.
  intros self file df metric mc g gc Hload Hrect Hgc Hne Hmc.
  set (keys := col_keys gc).
  assert (Hlen : List.length keys = col_length mc).
  { unfold keys. rewrite col_keys_length.
    rewrite (find_column_length df g gc Hrect Hgc).
    symmetry. apply (find_column_length df metric mc Hrect Hmc). }
  exists (map (fun k => (k, (Z.of_nat (values_in_group keys k mc),
                             Z.of_nat (List.length (group_cells keys k keys)))))
              (group_keys keys)).
  split; [| split; [| split]].
  - rewrite (count_values_by_runs self file df metric mc g gc) by assumption.
    rewrite map_map. reflexivity.
  - rewrite (count_by_runs self file df g gc) by assumption.
    unfold group_sizes. rewrite map_map. reflexivity.
  - apply Forall_forall. intros c Hin. apply in_map_iff in Hin.
    destruct Hin as (k & <- & _). cbn [fst snd].
    pose proof (values_in_group_le keys k mc Hlen). lia.
  - intros Hc. apply Forall_forall. intros c Hin. apply in_map_iff in Hin.
    destruct Hin as (k & <- & _). cbn [fst snd].
    now rewrite (values_in_group_complete keys k mc Hlen Hc).
Qed.

Lemma numeric_group_sizes keys : numeric (group_sizes keys).
Proof.
  apply Forall_forall. intros x Hin. unfold group_sizes in Hin.
  apply in_map_iff in Hin. destruct Hin as (k & <- & _). reflexivity.
Qed.

Lemma sort_of_numbers plan items :
  numeric items ->
  exists items', apply_sort plan (Some (RDict items)) = Return (Some (RDict items')).
Proof.
  intros Hnum. unfold apply_sort, present_and_truthy, dict_getitem.
  destruct (dict_get plan "sort") as [v |]; [| eauto].
  destruct (truthy v); [| eauto]. cbn [obind read_local].
  unfold sorted_items. rewrite (numeric_not_mixed items Hnum), (numeric_no_nan items Hnum).
  cbn [andb obind]. eauto.
Qed.

Lemma limit_of_integer plan (items : list item) :
  integer_limit plan = true ->
  exists items', apply_limit plan (Some (RDict items)) = Return (Some (RDict items')).
Proof.
  unfold integer_limit, apply_limit, present_and_truthy, dict_getitem.
  destruct (dict_get plan "limit") as [[| | k | | | |] |]; try discriminate;
    intros _; [| eauto].
  destruct (truthy (JNum k)); cbn [obind read_local slice_to]; eauto.
Qed.

Lemma scalar_not_sorted plan v :
  apply_sort plan (Some (RScalar v)) = Return (Some (RScalar v)).
Proof.
  unfold apply_sort, present_and_truthy, dict_getitem.
  destruct (dict_get plan "sort") as [s |]; [| reflexivity].
  destruct (truthy s); reflexivity.
Qed.

Lemma scalar_not_limited plan v :
  apply_limit plan (Some (RScalar v)) = Return (Some (RScalar v)).
Proof.
  unfold apply_limit, present_and_truthy, dict_getitem.
  destruct (dict_get plan "limit") as [s |]; [| reflexivity].
  destruct (truthy s); reflexivity.
Qed.

(** X10. Validation is enough for a count: a plan that passes validation,
    lists at least one file, has operation count, no filter clause and, if
    any, a limit that is an integer (a Python [int], not a [float]), always
    succeeds, with or without group-by and whatever its sort entry. *)
Theorem validated_count_succeeds :
  forall self plan filename others,
    _validate_plan plan self = (Return Pass, self) ->
    dict_get plan "files" = Some (JList (filename :: others)) ->
    dict_get plan "operation" = Some (JStr "count") ->
    no_filters plan = true ->
    integer_limit plan = true ->
    exists r, execute_plan plan self = (Return (succeeded plan r), self).
Proof.
  intros self plan filename others Hvalid Hfiles Hop Hnf Hlimit.
  rewrite validate_plan_run in Hvalid. injection Hvalid as Hvalid.
  rewrite execute_plan_run, Hvalid.
  assert (Hcols : exists df, stored self filename = Some df /\
            validate_columns_in plan (Some df) filename = Return Pass).
  { unfold plan_verdict in Hvalid. rewrite Hfiles, Hop in Hvalid.
    destruct (files_verdict self (filename :: others)) eqn:Hfv; [| discriminate].
    cbn [in_strs ALLOWED_OPERATIONS existsb eq_str String.eqb Ascii.eqb
         Bool.eqb orb negb validate_aggregation] in Hvalid.
    pose proof (columns_verdict_pass self plan _ filename Hvalid
                  (or_introl eq_refl)) as Hc.
    destruct (proj1 (files_verdict_pass self _) Hfv filename (or_introl eq_refl))
      as [_ Hs].
    destruct (stored self filename) as [df |]; [| contradiction].
    eauto. }
  destruct Hcols as (df & Hs & Hc).
  unfold execute_body, bind, lift, dict_getitem. rewrite Hfiles.
  cbn [getitem_0]. rewrite get_dataframe_stored, Hs.
  rewrite (no_filters_applied plan df Hnf).
  unfold run_operation, dict_getitem. rewrite Hop.
  cbn [obind eq_str String.eqb Ascii.eqb Bool.eqb].
  destruct (present_and_truthy plan "group_by") eqn:Hg.
  - unfold present_and_truthy in Hg.
    destruct (dict_get plan "group_by") as [v |] eqn:Hv; [| discriminate].
    cbn [obind].
    assert (Hin : in_columns v df = Return true).
    { unfold validate_columns_in in Hc.
      destruct (validate_named_column plan "group_by" (Some df) filename)
        as [[| why] | e] eqn:Hn; cbn [obind] in Hc; try discriminate.
      exact (named_column_pass plan "group_by" df filename v Hn Hv Hg). }
    apply in_columns_true in Hin. destruct Hin as (name & -> & Hin).
    destruct (find_column_some df name Hin) as [gc Hgc].
    cbn [column_of]. rewrite Hgc. cbn [obind].
    destruct (sort_of_numbers plan _ (numeric_group_sizes (col_keys gc)))
      as [items' ->].
    destruct (limit_of_integer plan items' Hlimit) as [items'' ->].
    eexists. reflexivity.
  - rewrite scalar_not_sorted, scalar_not_limited. eexists. reflexivity.
Qed.

End WithPandas.

Import Reference.

Lemma listed_columns_can_be_grouped_witness :
  exists df,
    loaded example_state "holdings.csv" df /\
    ["Fund"; "PL"] = columns df /\
    forall g, In g ["Fund"; "PL"] -> g <> EmptyString ->
      exists gc,
        find_column df g = Some gc /\
        execute_plan (count_by "holdings.csv" g) example_state =
          (Return (succeeded (count_by "holdings.csv" g)
                     (RDict (group_sizes (col_keys gc)))), example_state).
Proof.
  apply (listed_columns_can_be_grouped example_state "holdings.csv" ["Fund"; "PL"]).
  eexists. split; [reflexivity |]. now left.
Defined.

Lemma grouped_count_partitions_rows_witness :
  exists sizes : list (key * Z),
    execute_plan (count_by "holdings.csv" "Fund") example_state =
      (Return (succeeded (count_by "holdings.csv" "Fund")
         (RDict (map (fun kn => (fst kn, SInt (snd kn))) sizes))), example_state) /\
    total (map snd sizes) = 3.
Proof.
  destruct (grouped_count_partitions_rows example_state "holdings.csv"
              example_holdings "Fund" (ObjCol [Some "A"; Some "B"; Some "A"]))
    as (sizes & H1 & _ & _ & _ & _ & H2 & _).
  - reflexivity.
  - reflexivity.
  - discriminate.
  - exists sizes. split; [exact H1 | exact H2].
Defined.

Lemma count_of_values_is_at_most_count_of_rows_witness :
  exists counts : list (key * (Z * Z)),
    execute_plan (count_values_by "holdings.csv" "PL" "Fund")
      (only_holdings holdings_without_profit) =
      (Return (succeeded (count_values_by "holdings.csv" "PL" "Fund")
         (RDict (map (fun c => (fst c, SInt (fst (snd c)))) counts))),
       only_holdings holdings_without_profit) /\
    Forall (fun c => 0 <= fst (snd c) <= snd (snd c)) counts.
Proof.
  destruct (count_of_values_is_at_most_count_of_rows
              (only_holdings holdings_without_profit) "holdings.csv"
              holdings_without_profit "PL" (NumCol [None; Some 1]) "Fund"
              (ObjCol [Some "A"; Some "B"]))
    as (counts & H1 & _ & H2 & _).
  - reflexivity.
  - reflexivity.
  - reflexivity.
  - discriminate.
  - reflexivity.
  - exists counts. split; assumption.
Defined.

Lemma validated_count_succeeds_witness :
  exists r,
    execute_plan (("sort", JStr "desc") :: ("limit", JNum 1)
                    :: count_by "holdings.csv" "Fund") example_state =
      (Return (succeeded (("sort", JStr "desc") :: ("limit", JNum 1)
                            :: count_by "holdings.csv" "Fund") r),
       example_state).
Proof.
  apply (validated_count_succeeds example_state _ (JStr "holdings.csv") []);
    reflexivity.
Defined.

End CountSpec.

(** ** Filtering *)
Module NarrowSpec.
Import Executor Notions MoreNotions Examples PandasFacts PlanFacts
  ValidatorFacts ValidatorSpec CountSpec.
Local Open Scope method_scope.

Lemma columns_select_rows df mask : columns (select_rows df mask) = columns df.
Proof. unfold columns, select_rows. rewrite map_map. reflexivity. Qed.

Lemma col_length_take_same mask c1 c2 :
  col_length c1 = col_length c2 ->
  col_length (take_col mask c1) = col_length (take_col mask c2).
Proof.
  destruct c1, c2; simpl; apply length_take_same.
Qed.

Lemma len_select_rows df mask : (len (select_rows df mask) <= len df)%nat.
Proof.
  destruct df as [| [n c] df]; simpl; [lia |].
  destruct c; simpl; apply length_take_le.
Qed.

Lemma rectangular_select_rows df mask :
  rectangular df = true -> rectangular (select_rows df mask) = true.
Proof.
  unfold rectangular. destruct df as [| [n c] df]; [reflexivity |].
  cbn [len select_rows map fst snd]. intros H.
  rewrite forallb_forall in *. intros [n' c'] Hin. cbn [snd].
  change ((n, take_col mask c) :: map (fun nc => (fst nc, take_col mask (snd nc))) df)
    with (map (fun nc => (fst nc, take_col mask (snd nc))) ((n, c) :: df)) in Hin.
  apply in_map_iff in Hin. destruct Hin as ([n0 c0] & [= <- <-] & Hin).
  cbn [snd]. apply Nat.eqb_eq. apply col_length_take_same.
  apply Nat.eqb_eq. exact (H (n0, c0) Hin).
Qed.

Lemma narrowed_refl df : narrowed df df.
Proof. repeat split; auto. Qed.

Lemma narrowed_trans a b c : narrowed a b -> narrowed b c -> narrowed a c.
Proof.
  intros (H1 & H2 & H3) (H4 & H5 & H6). repeat split.
  - congruence.
  - lia.
  - auto.
Qed.

Lemma narrowed_select_rows df mask : narrowed df (select_rows df mask).
Proof.
  repeat split.
  - apply columns_select_rows.
  - apply len_select_rows.
  - apply rectangular_select_rows.
Qed.

Section WithPandas.
Context {pandas : PandasOps}.

Lemma apply_filter_narrows df filter_item df' :
  apply_filter df filter_item = Return df' -> narrowed df df'.
Proof.
  unfold apply_filter.
  destruct (method_get filter_item "column" JNull) as [column | e];
    cbn [obind]; [| discriminate].
  destruct (method_get filter_item "operator" (JStr "==")) as [operator | e];
    cbn [obind]; [| discriminate].
  destruct (method_get filter_item "value" JNull) as [value | e];
    cbn [obind]; [| discriminate].
  destruct (parse_operator operator) as [op |].
  - destruct (column_of df column) as [series | e]; cbn [obind]; [| discriminate].
    destruct (series_compare op series value) as [mask | e]; cbn [obind];
      [| discriminate].
    intros [= <-]. apply narrowed_select_rows.
  - intros [= <-]. apply narrowed_refl.
Qed.

Lemma filter_loop_narrows items df df' :
  filter_loop items df = Return df' -> narrowed df df'.
Proof.
  revert df. induction items as [| item rest IH]; intros df;
    cbn [filter_loop].
  - intros [= <-]. apply narrowed_refl.
  - destruct (apply_filter df item) as [df1 | e] eqn:H1; cbn [obind];
      [| discriminate].
    intros H. eapply narrowed_trans; [eapply apply_filter_narrows; eauto |].
    apply IH, H.
Qed.

Lemma apply_filters_narrow plan df df' :
  apply_filters plan df = Return df' -> narrowed df df'.
Proof.
  unfold apply_filters.
  destruct (present_and_truthy plan "filters");
    [| intros [= <-]; apply narrowed_refl].
  destruct (dict_getitem plan "filters") as [filters | e]; cbn [obind];
    [| discriminate].
  destruct (iterate filters) as [items | e]; cbn [obind]; [| discriminate].
  apply filter_loop_narrows.
Qed.

(** X11. Whatever the clauses and whatever the comparisons answer, the
    filters that go through leave a frame with the same columns and at most
    as many rows, and a rectangular frame stays rectangular. *)
Theorem filters_keep_columns_and_never_add_rows :
  forall (plan : pydict) (df df' : DataFrame),
    apply_filters plan df = Return df' ->
    columns df' = columns df /\
    (len df' <= len df)%nat /\
    (rectangular df = true -> rectangular df' = true).
Proof. exact apply_filters_narrow. Qed.

(** X12. A count under filters never reports more rows than the table
    has: when the plan that counts the rows passing some clauses succeeds,
    its result is a number between 0 and the number of rows of the table. *)
Theorem filtered_count_is_at_most_table_size :
  forall self file df filters r,
    loaded self file df ->
    execute_plan (count_where file filters) self = (Return r, self) ->
    success r = true ->
    exists n : nat,
      result r = Some (RScalar (SInt (Z.of_nat n))) /\ (n <= len df)%nat.
Proof.
  intros self file df filters r Hload Hrun Hok.
  rewrite execute_plan_run in Hrun.
  destruct (plan_verdict self (count_where file filters)) as [[| why] | e];
    [| injection Hrun as <-; discriminate | discriminate].
  unfold execute_body, bind, lift, dict_getitem, count_where in Hrun.
  cbn [dict_get String.eqb Ascii.eqb Bool.eqb getitem_0] in Hrun.
  rewrite Hload in Hrun.
  fold (count_where file filters) in Hrun.
  destruct (apply_filters (count_where file filters) df) as [df' | e] eqn:Hf;
    [| injection Hrun as <-; discriminate].
  apply apply_filters_narrow in Hf. destruct Hf as (_ & Hlen & _).
  unfold run_operation, apply_sort, apply_limit, present_and_truthy,
    dict_getitem, count_where in Hrun.
  cbn [dict_get String.eqb Ascii.eqb Bool.eqb obind eq_str read_local] in Hrun.
  injection Hrun as <-. exists (len df'). split; [reflexivity | exact Hlen].
Qed.

End WithPandas.

Lemma filters_keep_columns_and_never_add_rows_witness :
  columns holdings_with_profit_100 =
    columns example_holdings /\
  (len holdings_with_profit_100
   <= len example_holdings)%nat.
Proof.
  destruct (@filters_keep_columns_and_never_add_rows equality_pandas
              (count_where "holdings.csv" [profit_is_100]) example_holdings
              holdings_with_profit_100)
    as (H1 & H2 & _).
  - reflexivity.
  - split; assumption.
Defined.

Lemma filtered_count_is_at_most_table_size_witness :
  exists n : nat,
    result (succeeded (count_where "holdings.csv" [profit_is_100])
              (RScalar (SInt 1))) = Some (RScalar (SInt (Z.of_nat n))) /\
    (n <= len example_holdings)%nat.
Proof.
  apply (@filtered_count_is_at_most_table_size equality_pandas example_state
           "holdings.csv" example_holdings [profit_is_100]).
  - reflexivity.
  - reflexivity.
  - reflexivity.
Defined.

End NarrowSpec.

(** ** Ordering and truncating *)
Module OrderSpec.
Import Executor Notions MoreNotions Examples PlanFacts ValidatorFacts
  SortSpec FilterSpec CountSpec.
Local Open Scope method_scope.

Lemma ties_exclude_order (x y a : item) :
  is_number (snd x) = true -> is_number (snd y) = true ->
  is_number (snd a) = true ->
  ties_with x y = true -> ties_with x a = true ->
  value_ltb (snd y) (snd a) = false.
Proof.
  unfold ties_with, value_ltb.
  destruct x as [kx vx], y as [ky vy], a as [ka va]. cbn [snd].
  destruct vx, vy, va; simpl; try discriminate;
    intros _ _ _ H1 H2;
    apply andb_prop in H1; destruct H1 as [H1 H1'];
    apply andb_prop in H2; destruct H2 as [H2 H2'];
    apply negb_true_iff in H1, H1', H2, H2';
    apply Z.ltb_ge in H1, H1', H2, H2'; apply Z.ltb_ge; nia.
Qed.

Lemma insert_keeps_ties (x a : item) (l : list item) :
  is_number (snd x) = true -> numeric (a :: l) ->
  filter (ties_with x) (insert_by_value a l) = filter (ties_with x) (a :: l).
Proof.
  intros Hx Hnum. inversion Hnum as [| ? ? Ha Hl]; subst.
  induction Hl as [| y l Hy Hl IH]; [reflexivity |].
  cbn [insert_by_value]. destruct (value_ltb (snd y) (snd a)) eqn:E;
    [| reflexivity].
  cbn [filter]. rewrite IH by (constructor; assumption). cbn [filter].
  destruct (ties_with x y) eqn:Ty, (ties_with x a) eqn:Ta; try reflexivity.
  rewrite (ties_exclude_order x y a Hx Hy Ha Ty Ta) in E. discriminate.
Qed.

Lemma sort_keeps_ties (x : item) (l : list item) :
  is_number (snd x) = true -> numeric l ->
  filter (ties_with x) (sort_by_value l) = filter (ties_with x) l.
Proof.
  intros Hx Hnum. induction Hnum as [| a l Ha Hl IH]; [reflexivity |].
  cbn [sort_by_value fold_right]. fold (sort_by_value l).
  rewrite (insert_keeps_ties x a (sort_by_value l) Hx). 
  - cbn [filter]. now rewrite IH.
  - constructor; [exact Ha |].
    apply (Permutation_Forall (Permutation_sym (sort_perm l))). exact Hl.
Qed.

Lemma filter_of_rev {A} (p : A -> bool) (l : list A) :
  filter p (rev l) = rev (filter p l).
Proof.
  induction l as [| a l IH]; [reflexivity |].
  cbn [rev filter]. rewrite filter_app, IH. cbn [filter].
  destruct (p a); [reflexivity | now rewrite app_nil_r].
Qed.

Section WithPandas.
Context {pandas : PandasOps}.

(** X13. Only the exact value desc sorts downwards: under any other
    truthy sort entry (asc, DESC, a number) a mapping with numeric values
    keeps its entries and comes out with its values non-decreasing. *)
Theorem any_other_sort_is_ascending :
  forall (plan : pydict) (items : list item) (sort : json),
    numeric items ->
    dict_get plan "sort" = Some sort -> truthy sort = true ->
    eq_str sort "desc" = false ->
    exists sorted,
      apply_sort plan (Some (RDict items)) = Return (Some (RDict sorted)) /\
      Permutation sorted items /\
      StronglySorted not_above sorted.
Proof.
  intros plan items sort Hnum Hsort Ht Hd. exists (sort_by_value items).
  split; [| split].
  - unfold apply_sort, present_and_truthy, dict_getitem. rewrite Hsort, Ht.
    cbn [obind read_local]. unfold sorted_items.
    rewrite (numeric_not_mixed items Hnum), (numeric_no_nan items Hnum), Hd.
    reflexivity.
  - apply sort_perm.
  - apply sort_sorted, Hnum.
Qed.

(** X14. The sort is stable in both directions: in a mapping with numeric
    values the entries that tie with a given number come out in the order
    they went in, ascending or descending. *)
Theorem sort_keeps_order_of_ties :
  forall (items : list item) (reverse : bool) (x : item),
    numeric items -> is_number (snd x) = true ->
    exists sorted,
      sorted_items items reverse = Return sorted /\
      filter (ties_with x) sorted = filter (ties_with x) items.
Proof.
  intros items reverse x Hnum Hx. unfold sorted_items.
  rewrite (numeric_not_mixed items Hnum), (numeric_no_nan items Hnum). cbn [andb].
  destruct reverse; (eexists; split; [reflexivity |]).
  - assert (E : filter (ties_with x) (sort_by_value (rev items)) =
                 filter (ties_with x) (rev items)).
    { apply sort_keeps_ties; [exact Hx |].
      apply (Permutation_Forall (Permutation_rev items)). exact Hnum. }
    unfold item in *. rewrite filter_of_rev, E, filter_of_rev.
    apply rev_involutive.
  - apply sort_keeps_ties; assumption.
Qed.

(** X15. The limit is a Python slice. An integer k other than 0 keeps a
    prefix of the mapping: its first k entries when k is positive, all of
    them when there are fewer, and all but the last -k when k is negative,
    none when there are fewer. A float other than zero is no slice index:
    the limit step raises TypeError. *)
Theorem limit_is_a_slice :
  forall (plan : pydict) (mapping : list item),
    (forall k : Z,
       dict_get plan "limit" = Some (JNum k) -> k <> 0 ->
       exists limited rest,
         apply_limit plan (Some (RDict mapping)) =
           Return (Some (RDict limited)) /\
         mapping = (limited ++ rest)%list /\
         Z.of_nat (List.length limited) =
           if 0 <? k then Z.min k (Z.of_nat (List.length mapping))
           else Z.max 0 (Z.of_nat (List.length mapping) + k)) /\
    (forall x : pyfloat,
       dict_get plan "limit" = Some (JFloat x) -> truthy (JFloat x) = true ->
       apply_limit plan (Some (RDict mapping)) = Raise TypeError).
Proof.
  intros plan mapping. split.
  - intros k Hlimit Hk.
    set (n := if 0 <=? k then Z.to_nat k
              else (List.length mapping - Z.to_nat (- k))%nat).
    exists (firstn n mapping), (skipn n mapping).
    split; [| split].
    + unfold apply_limit, present_and_truthy, dict_getitem. rewrite Hlimit.
      cbn [truthy]. destruct (Z.eqb_spec k 0) as [-> | _]; [contradiction |].
      cbn [negb obind read_local slice_to]. unfold n.
      destruct (0 <=? k); reflexivity.
    + symmetry. apply firstn_skipn.
    + rewrite length_firstn. unfold n, item in *.
      destruct (Z.leb_spec 0 k), (Z.ltb_spec 0 k); lia.
  - intros x Hlimit Ht.
    unfold apply_limit, present_and_truthy, dict_getitem.
    rewrite Hlimit, Ht. reflexivity.
Qed.

Lemma verdict_ignores_order self plan plan' :
  agree_but_order plan plan' -> plan_verdict self plan = plan_verdict self plan'.
Proof.
  intros Hagree. unfold plan_verdict, validate_aggregation.
  rewrite <- (Hagree "files"), <- (Hagree "operation"),
    <- (Hagree "aggregation") by discriminate.
  destruct (dict_get plan "files") as [files |]; [| reflexivity].
  destruct (dict_get plan "operation") as [operation |]; [| reflexivity].
  destruct files; try reflexivity.
  destruct (files_verdict self items); [| reflexivity].
  destruct (negb (in_strs operation ALLOWED_OPERATIONS)); [reflexivity |].
  destruct (if eq_str operation "aggregate" then _ else _); [| reflexivity].
  induction items as [| file rest IH]; cbn [columns_verdict]; [reflexivity |].
  assert (H : validate_columns_in plan (stored self file) file =
              validate_columns_in plan' (stored self file) file).
  { unfold validate_columns_in, validate_named_column, present_and_truthy,
      has_key, dict_getitem.
    rewrite <- (Hagree "group_by"), <- (Hagree "metric"),
      <- (Hagree "filters") by discriminate.
    reflexivity. }
  rewrite H.
  destruct (validate_columns_in plan' (stored self file) file) as [[| why] | e];
    cbn [obind]; [exact IH | reflexivity | reflexivity].
Qed.

(** X16. A count without group-by returns a number, which is neither
    sorted nor sliced: the sort and limit entries of such a plan are
    ignored whatever they hold, a limit that is not a number included. *)
Theorem plain_count_ignores_sort_and_limit :
  forall self plan plan',
    agree_but_order plan plan' ->
    dict_get plan "operation" = Some (JStr "count") ->
    present_and_truthy plan "group_by" = false ->
    same_answer (execute_plan plan self) (execute_plan plan' self).
Proof.
  intros self plan plan' Hagree Hop Hg.
  rewrite !execute_plan_run, <- (verdict_ignores_order self plan plan' Hagree).
  destruct (plan_verdict self plan) as [[| why] | e];
    [| now repeat split | now repeat split].
  assert (Hop' : dict_get plan' "operation" = Some (JStr "count")).
  { rewrite <- (Hagree "operation") by discriminate. exact Hop. }
  assert (Hg' : present_and_truthy plan' "group_by" = false).
  { unfold present_and_truthy in *.
    rewrite <- (Hagree "group_by") by discriminate. exact Hg. }
  assert (Hf : forall df, apply_filters plan' df = apply_filters plan df).
  { intros df. unfold apply_filters, present_and_truthy, dict_getitem.
    rewrite <- (Hagree "filters") by discriminate. reflexivity. }
  unfold execute_body, bind, lift, dict_getitem.
  rewrite <- (Hagree "files") by discriminate.
  destruct (dict_get plan "files") as [files |]; [| now repeat split].
  destruct (getitem_0 files) as [filename | e]; [| now repeat split].
  rewrite get_dataframe_stored.
  destruct (stored self filename) as [df |]; [| now repeat split].
  rewrite Hf. destruct (apply_filters plan df) as [df' | e]; [| now repeat split].
  unfold run_operation, dict_getitem. rewrite Hop, Hop', Hg, Hg'.
  cbn [obind eq_str String.eqb Ascii.eqb Bool.eqb].
  rewrite !scalar_not_sorted, !scalar_not_limited. now repeat split.
Qed.

End WithPandas.

Import Reference.

Lemma any_other_sort_is_ascending_witness :
  exists sorted,
    apply_sort [("sort", JStr "DESC")]
      (Some (RDict [(KStr "A", SInt 120); (KStr "B", SInt 50)])) =
      Return (Some (RDict sorted)) /\
    StronglySorted not_above sorted.
Proof.
  destruct (any_other_sort_is_ascending [("sort", JStr "DESC")]
              [(KStr "A", SInt 120); (KStr "B", SInt 50)] (JStr "DESC"))
    as (sorted & H1 & _ & H2).
  - repeat constructor.
  - reflexivity.
  - reflexivity.
  - reflexivity.
  - exists sorted. split; assumption.
Defined.

Lemma sort_keeps_order_of_ties_witness :
  exists sorted,
    sorted_items [(KStr "A", SInt 5); (KStr "B", SInt 7); (KStr "C", SInt 5)]
      true = Return sorted /\
    filter (ties_with (KStr "A", SInt 5)) sorted =
      [(KStr "A", SInt 5); (KStr "C", SInt 5)].
Proof.
  apply (sort_keeps_order_of_ties
           [(KStr "A", SInt 5); (KStr "B", SInt 7); (KStr "C", SInt 5)] true
           (KStr "A", SInt 5)).
  - repeat constructor.
  - reflexivity.
Defined.

Lemma limit_is_a_slice_witness :
  exists limited rest,
    apply_limit [("limit", JNum (-1))]
      (Some (RDict [(KStr "A", SInt 120); (KStr "B", SInt 50)])) =
      Return (Some (RDict limited)) /\
    [(KStr "A", SInt 120); (KStr "B", SInt 50)] = (limited ++ rest)%list /\
    Z.of_nat (List.length limited) = 1.
Proof.
  destruct (proj1 (limit_is_a_slice [("limit", JNum (-1))]
                     [(KStr "A", SInt 120); (KStr "B", SInt 50)]) (-1))
    as (limited & rest & H1 & H2 & H3).
  - reflexivity.
  - discriminate.
  - exists limited, rest. split; [exact H1 |]. split; [exact H2 | exact H3].
Defined.

Lemma plain_count_ignores_sort_and_limit_witness :
  same_answer
    (execute_plan (("limit", JStr "two") :: ("sort", JNum 7)
                     :: count_all "holdings.csv") example_state)
    (execute_plan (count_all "holdings.csv") example_state).
Proof.
  apply (plain_count_ignores_sort_and_limit example_state).
  - intros k Hs Hl. cbn [dict_get].
    destruct (String.eqb_spec k "limit"); [contradiction |].
    destruct (String.eqb_spec k "sort"); [contradiction | reflexivity].
  - reflexivity.
  - reflexivity.
Defined.

End OrderSpec.

(** ** The endpoints *)
Module EndpointSpec.
Import Executor Api Loading Endpoints Notions MoreNotions Examples
  ValidatorFacts OutcomeSpec ApiSpec.

Lemma lstrip_twice (s : pystr) : lstrip (lstrip s) = lstrip s.
Proof.
  induction s as [| c s IH]; [reflexivity |].
  simpl. destruct (is_space c) eqn:E; [exact IH |]. simpl. now rewrite E.
Qed.

Lemma lstrip_before_text (l : pystr) (c : N) :
  is_space c = false -> lstrip (l ++ [c])%list = (lstrip l ++ [c])%list.
Proof.
  intros Hc. induction l as [| a l IH]; simpl.
  - now rewrite Hc.
  - destruct (is_space a); [exact IH | reflexivity].
Qed.

Lemma lstrip_starts_with_text (s : pystr) :
  lstrip s = [] \/ exists c t, lstrip s = c :: t /\ is_space c = false.
Proof.
  induction s as [| c s IH]; [now left |].
  simpl. destruct (is_space c) eqn:E; [exact IH |]. right. eauto.
Qed.

Lemma strip_of_text (s t : pystr) (c : N) :
  lstrip s = c :: t -> is_space c = false ->
  strip s = c :: rev (lstrip (rev t)).
Proof.
  intros H Hc. unfold strip, rstrip. rewrite H. cbn [rev].
  rewrite (lstrip_before_text (rev t) c Hc), rev_app_distr. reflexivity.
Qed.

Lemma strip_twice (s : pystr) : strip (strip s) = strip s.
Proof.
  destruct (lstrip_starts_with_text s) as [H | (c & t & H & Hc)].
  - assert (E : strip s = []) by (unfold strip; now rewrite H).
    rewrite E. reflexivity.
  - rewrite (strip_of_text s t c H Hc).
    rewrite (strip_of_text _ (rev (lstrip (rev t))) c).
    + now rewrite rev_involutive, lstrip_twice.
    + cbn [lstrip]. now rewrite Hc.
    + exact Hc.
Qed.

Lemma available_columns_run self :
  exists available, get_available_columns self = (Return available, self) /\
    (available = [] <-> nothing_loaded self).
Proof.
  destruct self as [[t |] [h |]]; eexists; (split; [reflexivity |]);
    unfold nothing_loaded; cbn; split;
    try discriminate; try (intros [H1 H2]; discriminate); auto.
Qed.

Section WithModel.
Context {pandas : PandasOps}.
Variable generate_plan : pystr -> list (string * list string) -> option pydict.
Variable explain : pystr -> pydict -> response -> string.

(** X17. The endpoint sees a question through [strip] only: a question and
    its stripped form are answered alike, with the same requests to the
    language model; stripping twice changes nothing more. *)
Theorem chat_reads_the_stripped_question :
  forall (chatbot : option FundAnalyticsChatbot) (question : pystr),
    strip (strip question) = strip question /\
    chat generate_plan explain chatbot question =
    chat generate_plan explain chatbot (strip question).
Proof.
  intros chatbot question. split; [apply strip_twice |].
  destruct chatbot as [bot |]; [| reflexivity]. unfold chat.
  rewrite strip_twice.
  destruct (strip question) as [| c s] eqn:E.
  - cbn [is_empty]. now rewrite orb_true_r.
  - destruct question; [discriminate E |]. reflexivity.
Qed.

(** X18. For an initialised chatbot and a question that is not blank the
    endpoint answers 200 with a question response. The planner is asked
    once, with the stripped question; the explainer is asked at most once,
    after the planner, and only when the answer is its explanation. The
    success flag is false only when the validator raised on the planner's
    plan, and the answer then carries that exception; the apology for a
    missing plan or a failed execution is sent with success=true. *)
Theorem chat_answers_a_question :
  forall (bot : FundAnalyticsChatbot) (question : pystr),
    strip question <> [] ->
    exists answer flag calls,
      chat generate_plan explain (Some bot) question =
        (QuestionResponse answer flag, calls) /\
      (calls = [PlannerCall (strip question)] \/
       calls = [PlannerCall (strip question); ExplainerCall (strip question)] /\
       flag = true /\ exists text, answer = Explanation text) /\
      (flag = false ->
       exists available plan e,
         get_available_columns (executor bot) = (Return available, executor bot) /\
         generate_plan (strip question) available = Some plan /\
         _validate_plan plan (executor bot) = (Raise e, executor bot) /\
         answer = ProcessingError e) /\
      (answer = ERROR_MESSAGE -> flag = true).
Proof.
  intros bot question Hq. unfold chat.
  destruct question as [| c0 q0]; [contradiction |].
  destruct (strip (c0 :: q0)) as [| c q] eqn:E; [contradiction |].
  cbn [is_empty orb]. unfold answer_question.
  destruct (available_columns_run (executor bot)) as (available & Hav & _).
  rewrite Hav.
  destruct (generate_plan (c :: q) available) as [plan |] eqn:Hplan.
  - destruct (outcomes_of_execute plan (executor bot))
      as [(e & Hv & ->) | [(m & ->) | (r & _ & ->)]].
    + do 3 eexists. split; [reflexivity |]. split; [now left |].
      split; [| discriminate]. intros _. exists available, plan, e. auto.
    + cbn. do 3 eexists. split; [reflexivity |]. split; [now left |].
      split; [discriminate | reflexivity].
    + cbn. do 3 eexists. split; [reflexivity |].
      split; [right; split; [reflexivity | split; [reflexivity | eauto]] |].
      split; discriminate.
  - do 3 eexists. split; [reflexivity |]. split; [now left |].
    split; [discriminate | reflexivity].
Qed.

(** X19. A start-up with a key and a client but without readable data
    still creates the chatbot: when one of the two files cannot be read, or
    both are absent, the health endpoint reports an initialised chatbot with
    no data loaded, and every question that is not blank is answered with
    the apology and success=true, after one request to the planner and
    none to the explainer. *)
Theorem unreadable_data_leaves_an_apologising_chatbot :
  forall (folder : data_folder) (env_key : option string) (question : pystr),
    no_key env_key = false ->
    ((exists e, trades_csv folder = Some (Raise e)) \/
     (exists e, holdings_csv folder = Some (Raise e)) \/
     (trades_csv folder = None /\ holdings_csv folder = None)) ->
    strip question <> [] ->
    exists bot,
      lifespan folder env_key (Return tt) = Some bot /\
      chatbot_initialized (health_check (Some bot)) = true /\
      data_loaded (health_check (Some bot)) = false /\
      chat generate_plan explain (Some bot) question =
        (QuestionResponse ERROR_MESSAGE true, [PlannerCall (strip question)]).
Proof.
  intros folder env_key question Hkey Hdata Hq.
  assert (Hnone : nothing_loaded (__init__ folder)).
  { unfold nothing_loaded, __init__, _load_data, try_except, bind, load_file,
      lift, set_trades_df, set_holdings_df.
    destruct folder as [[[t | et] |] [[h | eh] |]]; cbn in *;
      try (split; reflexivity);
      destruct Hdata as [[e H] | [[e H] | [H1 H2]]]; discriminate. }
  exists {| executor := __init__ folder |}.
  split.
  { unfold lifespan, new_chatbot. rewrite Hkey. cbn [no_key].
    rewrite Hkey. reflexivity. }
  destruct Hnone as [Ht Hh].
  split; [reflexivity |]. split.
  { cbn. rewrite Ht, Hh. reflexivity. }
  unfold chat. destruct question as [| c0 q0]; [contradiction |].
  destruct (strip (c0 :: q0)) as [| c q] eqn:E; [contradiction |].
  cbn [is_empty orb]. unfold answer_question. cbn [executor].
  destruct (available_columns_run (__init__ folder)) as (available & Hav & _).
  rewrite Hav.
  destruct (generate_plan (c :: q) available) as [plan |]; [| reflexivity].
  destruct (refused_when_nothing_loaded plan (__init__ folder) (conj Ht Hh))
    as [m ->].
  reflexivity.
Qed.

End WithModel.

(** X20. The health and columns endpoints agree: the columns endpoint
    answers 503 exactly when the health endpoint reports no chatbot, it
    never answers 500, and it lists at least one table exactly when the
    health endpoint reports data loaded. *)
Theorem health_agrees_with_columns :
  forall chatbot : option FundAnalyticsChatbot,
    (chatbot_initialized (health_check chatbot) = false <->
     exists detail, get_columns chatbot = NotInitialized 503 detail) /\
    (forall e, get_columns chatbot <> ColumnsFailed 500 e) /\
    (data_loaded (health_check chatbot) = true <->
     exists available,
       get_columns chatbot = Columns available /\ available <> []).
Proof.
  intros [[[[t |] [h |]]] |]; cbn; (split; [| split]);
    try (split; [discriminate | intros [d H]; discriminate]);
    try (intros e; discriminate);
    try (split; [intros _; eexists; split; [reflexivity | discriminate]
                | reflexivity]);
    try (split; [intros _; eexists; reflexivity | reflexivity]);
    try (split; [discriminate | intros (a & [= <-] & H); now contradiction H]);
    try (split; [discriminate | intros (a & H & _); discriminate]).
Qed.

Import Reference.

Lemma chat_answers_a_question_witness :
  exists answer flag calls,
    chat no_plan no_text (Some {| executor := example_state |}) [63%N] =
      (QuestionResponse answer flag, calls) /\
    (answer = ERROR_MESSAGE -> flag = true).
Proof.
  destruct (chat_answers_a_question no_plan no_text
              {| executor := example_state |} [63%N])
    as (answer & flag & calls & H1 & _ & _ & H2).
  - discriminate.
  - exists answer, flag, calls. split; assumption.
Defined.

Lemma unreadable_data_leaves_an_apologising_chatbot_witness :
  exists bot,
    lifespan unreadable_holdings (Some "key") (Return tt) = Some bot /\
    data_loaded (health_check (Some bot)) = false /\
    chat no_plan no_text (Some bot) [63%N] =
      (QuestionResponse ERROR_MESSAGE true, [PlannerCall [63%N]]).
Proof.
  destruct (unreadable_data_leaves_an_apologising_chatbot no_plan no_text
              unreadable_holdings (Some "key") [63%N])
    as (bot & H1 & _ & H2 & H3).
  - reflexivity.
  - right. left. eexists. reflexivity.
  - discriminate.
  - exists bot. auto.
Defined.

End EndpointSpec.

(** ** The reducers *)
Module ReducerSpec.
Import Executor Notions MoreNotions Examples PlanFacts ValidatorFacts
  ValidatorSpec.
Local Open Scope method_scope.

Lemma parsed_aggregation_allowed a agg :
  parse_aggregation a = Some agg -> in_strs a ALLOWED_AGGREGATIONS = true.
Proof.
  unfold in_strs, ALLOWED_AGGREGATIONS, parse_aggregation. cbn [existsb].
  destruct (eq_str a "sum"); [reflexivity |].
  destruct (eq_str a "mean"); [reflexivity |].
  destruct (eq_str a "min"); [reflexivity |].
  destruct (eq_str a "max"); [reflexivity |].
  destruct (eq_str a "count"); [reflexivity | discriminate].
Qed.

Lemma in_present {A} (x : A) (cells : list (option A)) :
  In x (present cells) <-> In (Some x) cells.
Proof.
  induction cells as [| [y |] cells IH]; cbn [present In].
  - tauto.
  - rewrite IH. split; intros [H | H]; auto; left; congruence.
  - rewrite IH. split; [auto | intros [H | H]; [discriminate | exact H]].
Qed.

Lemma fold_min_least (x : Z) (xs : list Z) :
  In (fold_right Z.min x xs) (x :: xs) /\
  forall y, In y (x :: xs) -> fold_right Z.min x xs <= y.
Proof.
  induction xs as [| a xs [IHin IHle]]; cbn [fold_right].
  - split; [now left |]. intros y [<- | []]. lia.
  - split.
    + destruct (Z.min_spec a (fold_right Z.min x xs)) as [[_ ->] | [_ ->]].
      * right. now left.
      * destruct IHin as [H | H]; [now left | right; now right].
    + intros y [<- | [<- | H]].
      * specialize (IHle x (or_introl eq_refl)). lia.
      * lia.
      * specialize (IHle y (or_intror H)). lia.
Qed.

Lemma fold_max_greatest (x : Z) (xs : list Z) :
  In (fold_right Z.max x xs) (x :: xs) /\
  forall y, In y (x :: xs) -> y <= fold_right Z.max x xs.
Proof.
  induction xs as [| a xs [IHin IHle]]; cbn [fold_right].
  - split; [now left |]. intros y [<- | []]. lia.
  - split.
    + destruct (Z.max_spec a (fold_right Z.max x xs)) as [[_ ->] | [_ ->]].
      * destruct IHin as [H | H]; [now left | right; now right].
      * right. now left.
    + intros y [<- | [<- | H]].
      * specialize (IHle x (or_introl eq_refl)). lia.
      * lia.
      * specialize (IHle y (or_intror H)). lia.
Qed.

Lemma total_between (lo hi : Z) (xs : list Z) :
  (forall y, In y xs -> lo <= y <= hi) ->
  Z.of_nat (List.length xs) * lo <= total xs <= Z.of_nat (List.length xs) * hi.
Proof.
  induction xs as [| a xs IH]; intros H.
  - cbn. lia.
  - cbn [List.length]. rewrite Nat2Z.inj_succ.
    assert (E : total (a :: xs) = a + total xs) by reflexivity.
    rewrite E.
    specialize (IH (fun y Hy => H y (or_intror Hy))).
    specialize (H a (or_introl eq_refl)). nia.
Qed.

Section WithPandas.
Context {pandas : PandasOps}.

Lemma reduce_verdict self file df metric mc a agg extra :
  loaded self file df -> find_column df metric = Some mc ->
  parse_aggregation (JStr a) = Some agg ->
  (dict_get extra "filters" = None) ->
  (dict_get extra "metric" = None) ->
  (present_and_truthy extra "group_by" = false \/
   exists g gc, dict_get extra "group_by" = Some (JStr g) /\
                find_column df g = Some gc) ->
  plan_verdict self (reduce_whole file metric a ++ extra)%list = Return Pass.
Proof.
  intros Hload Hmc Hagg Hnf Hnm Hg.
  pose proof (loaded_allowed _ _ _ Hload) as Hallowed.
  pose proof (proj1 (loaded_stored _ _ _) Hload) as Hs.
  pose proof (parsed_aggregation_allowed _ _ Hagg) as Ha.
  unfold plan_verdict, reduce_whole.
  cbn [List.app dict_get String.eqb Ascii.eqb Bool.eqb].
  cbn [files_verdict]. rewrite Hallowed, Hs. cbn [negb].
  cbn [in_strs ALLOWED_OPERATIONS existsb eq_str String.eqb Ascii.eqb
       Bool.eqb orb negb].
  unfold validate_aggregation.
  cbn [dict_get eq_str String.eqb Ascii.eqb Bool.eqb]. rewrite Ha.
  cbn [negb columns_verdict]. rewrite Hs.
  unfold validate_columns_in.
  assert (Hgv : validate_named_column
            (("files", JList [JStr file]) :: ("operation", JStr "aggregate")
             :: ("metric", JStr metric) :: ("aggregation", JStr a) :: extra)
            "group_by" (Some df) (JStr file) = Return Pass).
  { destruct Hg as [Hg | (g & gc & Hg & Hgc)].
    - apply validate_named_column_skipped. unfold present_and_truthy in *.
      cbn [dict_get String.eqb Ascii.eqb Bool.eqb]. exact Hg.
    - unfold validate_named_column, present_and_truthy, dict_getitem.
      cbn [dict_get String.eqb Ascii.eqb Bool.eqb]. rewrite Hg.
      destruct (truthy (JStr g)); [| reflexivity].
      cbn [obind not_in_columns]. rewrite in_columns_name,
        (find_column_in_columns _ _ _ Hgc). reflexivity. }
  rewrite Hgv. cbn [obind].
  unfold validate_named_column, present_and_truthy, dict_getitem, has_key.
  cbn [dict_get String.eqb Ascii.eqb Bool.eqb]. rewrite Hnf.
  destruct (truthy (JStr metric)); [| reflexivity].
  cbn [obind not_in_columns]. rewrite in_columns_name,
    (find_column_in_columns _ _ _ Hmc). reflexivity.
Qed.

Lemma reduce_whole_runs self file df metric cells a agg :
  loaded self file df -> find_column df metric = Some (NumCol cells) ->
  parse_aggregation (JStr a) = Some agg ->
  execute_plan (reduce_whole file metric a) self =
    (Return (succeeded (reduce_whole file metric a)
               (RScalar (reduce_numeric agg cells cells))), self).
Proof.
  intros Hload Hmc Hagg.
  pose proof (reduce_verdict self file df metric _ a agg [] Hload Hmc Hagg
                eq_refl eq_refl (or_introl eq_refl)) as Hv.
  rewrite app_nil_r in Hv.
  rewrite execute_plan_run, Hv.
  unfold execute_body, bind, lift, dict_getitem, reduce_whole.
  cbn [dict_get String.eqb Ascii.eqb Bool.eqb getitem_0]. rewrite Hload.
  unfold apply_filters, run_operation, apply_sort, apply_limit,
    present_and_truthy, dict_getitem, get_or.
  cbn [dict_get String.eqb Ascii.eqb Bool.eqb obind eq_str hashable].
  unfold aggregate_whole. rewrite Hagg. cbn [column_of]. rewrite Hmc.
  reflexivity.
Qed.

(** X21. The answer that the first file is not loaded is never given: the
    validator has already refused a plan whose first file is not loaded, and
    a plan whose list of files is empty ends in the text of an exception.
    No call of [execute_plan] returns the failure dictionary of that
    branch. *)
Theorem not_loaded_answer_is_never_given :
  forall (plan : pydict) (self : QueryExecutor) (filename : json),
    fst (execute_plan plan self) <>
    Return (failure (NotLoadedMessage filename)).
Proof.
  intros plan self filename. rewrite execute_plan_run.
  destruct (plan_verdict self plan) as [[| why] | e] eqn:Hv;
    [| cbn; discriminate | cbn; discriminate].
  unfold plan_verdict in Hv.
  unfold execute_body, bind, lift, dict_getitem.
  destruct (dict_get plan "files") as [files |]; [| discriminate Hv].
  destruct (dict_get plan "operation") as [operation |];
    [| destruct files; discriminate Hv].
  destruct files as [| | | | | files |]; try discriminate Hv.
  destruct files as [| file rest]; [cbn; discriminate |].
  cbn [getitem_0]. rewrite get_dataframe_stored.
  cbn [files_verdict] in Hv.
  destruct (negb (in_strs file ALLOWED_FILES)); [discriminate Hv |].
  destruct (stored self file) as [df |]; [| discriminate Hv].
  destruct (apply_filters plan df) as [df' | e]; [| cbn; discriminate].
  destruct (run_operation plan df') as [r | e]; [| cbn; discriminate].
  destruct (apply_sort plan r) as [r1 | e]; [| cbn; discriminate].
  destruct (apply_limit plan r1) as [r2 | e]; [| cbn; discriminate].
  destruct (read_local r2) as [r3 | e]; cbn; discriminate.
Qed.

(** X22. On a column of integers with at least one value the reducers of
    an ungrouped aggregate agree with each other: min and max are values of
    the column that bound every value, count is the number of values
    present, and where the sum is exact (the absolute values add up to at
    most 2^53) it lies between count times min and count times max. *)
Theorem sum_lies_between_count_times_min_and_max :
  forall self file df metric cells,
    loaded self file df ->
    find_column df metric = Some (NumCol cells) ->
    present cells <> [] ->
    exists (lo hi : Z) (n : nat),
      (forall a v,
         In (a, v) [("min", SInt lo); ("max", SInt hi);
                    ("count", SInt (Z.of_nat n))] ->
         execute_plan (reduce_whole file metric a) self =
           (Return (succeeded (reduce_whole file metric a) (RScalar v)), self)) /\
      (0 < n)%nat /\
      In (Some lo) cells /\ In (Some hi) cells /\
      (forall x, In (Some x) cells -> lo <= x <= hi) /\
      (exact_sum (present cells) = true ->
       exists s,
         execute_plan (reduce_whole file metric "sum") self =
           (Return (succeeded (reduce_whole file metric "sum")
                      (RScalar (SInt s))), self) /\
         Z.of_nat n * lo <= s <= Z.of_nat n * hi).
Proof.
  intros self file df metric cells Hload Hmc Hne.
  assert (Hrun : forall a agg, parse_aggregation (JStr a) = Some agg ->
            execute_plan (reduce_whole file metric a) self =
            (Return (succeeded (reduce_whole file metric a)
               (RScalar (reduce_numeric agg cells cells))), self)).
  { intros a agg. apply (reduce_whole_runs self file df metric cells);
      assumption. }
  destruct (present cells) as [| x xs] eqn:Hp; [contradiction |].
  destruct (fold_min_least x xs) as [Hlo_in Hlo].
  destruct (fold_max_greatest x xs) as [Hhi_in Hhi].
  exists (fold_right Z.min x xs), (fold_right Z.max x xs),
    (List.length (x :: xs)).
  split; [| split; [| split; [| split; [| split]]]].
  - intros a v Hin.
    destruct Hin as [[= <- <-] | [[= <- <-] | [[= <- <-] | []]]].
    + rewrite (Hrun "min" Min eq_refl). unfold reduce_numeric. now rewrite Hp.
    + rewrite (Hrun "max" Max eq_refl). unfold reduce_numeric. now rewrite Hp.
    + rewrite (Hrun "count" Count eq_refl). unfold reduce_numeric.
      now rewrite Hp.
  - cbn [List.length]. lia.
  - apply in_present. rewrite Hp. exact Hlo_in.
  - apply in_present. rewrite Hp. exact Hhi_in.
  - intros y Hy. apply in_present in Hy. rewrite Hp in Hy.
    split; [apply Hlo | apply Hhi]; exact Hy.
  - intros Hexact. exists (total (x :: xs)). split.
    + rewrite (Hrun "sum" Sum eq_refl). unfold reduce_numeric.
      rewrite Hp, Hexact. reflexivity.
    + apply total_between. intros y Hy.
      split; [apply Hlo | apply Hhi]; exact Hy.
Qed.

End WithPandas.

Import Reference.

Lemma sum_lies_between_count_times_min_and_max_witness :
  exists (lo hi s : Z) (n : nat),
    execute_plan (reduce_whole "holdings.csv" "PL" "sum") example_state =
      (Return (succeeded (reduce_whole "holdings.csv" "PL" "sum")
                 (RScalar (SInt s))), example_state) /\
    execute_plan (reduce_whole "holdings.csv" "PL" "min") example_state =
      (Return (succeeded (reduce_whole "holdings.csv" "PL" "min")
                 (RScalar (SInt lo))), example_state) /\
    Z.of_nat n * lo <= s <= Z.of_nat n * hi.
Proof.
  destruct (sum_lies_between_count_times_min_and_max example_state
              "holdings.csv" example_holdings "PL"
              [Some 100; Some 50; Some 20])
    as (lo & hi & n & H1 & _ & _ & _ & _ & H2).
  - reflexivity.
  - reflexivity.
  - discriminate.
  - destruct H2 as (s & H3 & H4); [reflexivity |].
    exists lo, hi, s, n. split; [exact H3 |]. split; [| exact H4].
    apply H1. left. reflexivity.
Defined.

End ReducerSpec.
